(** * speak-perf-mcp, step1: the session-scoped test-lifecycle orchestrator

    A shallow embedding of the Go tool handlers under [step1/mcp/tools]
    together with the properties their design document states about them.

    Conventions.
    - A Go [string] is a byte string: Rocq's [string].
    - A Go [error] value is represented by its message ([err.Error()]).
    - [int64]/[int] identifiers are [Z]; SQLite [REAL] columns and Go
      [float64] are IEEE-754 binary64 values ([spec_float], prec 53,
      emax 1024).
    - Functions of Go's standard library and of third-party packages are
      either written out (byte-level string functions, [fmt] verbs) or taken
      as parameters (Unicode lower-casing, YAML decoding, SQL's AVG).
    - Calls to the structured logger are a side channel and are left out. *)

From Stdlib Require Import String Ascii List ZArith Lia Bool Arith.
From Stdlib Require Import DecimalString SpecFloat.
From Stdlib Require DecimalZ DecimalPos.
Import ListNotations.
Open Scope list_scope.
Open Scope string_scope.

Set Implicit Arguments.

(* ===================================================================== *)
(** * Go's [strings] and [fmt] on byte strings                           *)
(* ===================================================================== *)

Module GoStrings.

(** [strings.HasPrefix(s, prefix)] *)
Fixpoint HasPrefix (s prefix : string) : bool :=
  match prefix with
  | EmptyString => true
  | String p prefix' =>
      match s with
      | EmptyString => false
      | String c s' => Ascii.eqb c p && HasPrefix s' prefix'
      end
  end.

(** [strings.Contains(s, substr)] *)
Fixpoint Contains (s substr : string) : bool :=
  HasPrefix s substr ||
  match s with
  | EmptyString => false
  | String _ s' => Contains s' substr
  end.

(** [strings.Split(s, sep)] for a one-byte separator, the only way the
    handlers call it ([","] and [":"]).  The result is never empty:
    [Split "" sep = [""]]. *)
Fixpoint Split (s : string) (sep : ascii) : list string :=
  match s with
  | EmptyString => [EmptyString]
  | String c s' =>
      if Ascii.eqb c sep then EmptyString :: Split s' sep
      else match Split s' sep with
           | [] => [String c EmptyString]
           | hd :: tl => String c hd :: tl
           end
  end.

(** [strings.Join(elems, sep)] *)
Fixpoint Join (elems : list string) (sep : string) : string :=
  match elems with
  | [] => ""
  | [e] => e
  | e :: rest => e ++ sep ++ Join rest sep
  end.

(** The white space of [unicode.IsSpace], as UTF-8 encodes it.  One byte:
    tab, line feed, vertical tab, form feed, carriage return and space.
    Two bytes: U+0085 and U+00A0.  Three bytes: U+1680, U+2000 to U+200A,
    U+2028, U+2029, U+202F, U+205F and U+3000. *)
Definition is_space (c : ascii) : bool :=
  let n := nat_of_ascii c in
  Nat.eqb n 32 || Nat.eqb n 9 || Nat.eqb n 10 || Nat.eqb n 11 ||
  Nat.eqb n 12 || Nat.eqb n 13.

Definition is_space2 (c1 c2 : ascii) : bool :=
  let n1 := nat_of_ascii c1 in
  let n2 := nat_of_ascii c2 in
  Nat.eqb n1 194 && (Nat.eqb n2 133 || Nat.eqb n2 160).

Definition is_space3 (c1 c2 c3 : ascii) : bool :=
  let n1 := nat_of_ascii c1 in
  let n2 := nat_of_ascii c2 in
  let n3 := nat_of_ascii c3 in
  Nat.eqb n1 225 && Nat.eqb n2 154 && Nat.eqb n3 128 ||
  Nat.eqb n1 226 && Nat.eqb n2 128 &&
    (Nat.leb 128 n3 && Nat.leb n3 138 || Nat.eqb n3 168 || Nat.eqb n3 169 ||
     Nat.eqb n3 175) ||
  Nat.eqb n1 226 && Nat.eqb n2 129 && Nat.eqb n3 159 ||
  Nat.eqb n1 227 && Nat.eqb n2 128 && Nat.eqb n3 128.

(** The white-space runes at the front of [s] removed; any other byte,
    also one that starts no rune, stops the trimming.  With [backwards],
    [s] is a string read from its last byte, and so is each rune. *)
Fixpoint trim_front (backwards : bool) (s : string) : string :=
  match s with
  | String c1 s1 =>
      if is_space c1 then trim_front backwards s1
      else
        match s1 with
        | String c2 s2 =>
            if (if backwards then is_space2 c2 c1 else is_space2 c1 c2)
            then trim_front backwards s2
            else
              match s2 with
              | String c3 s3 =>
                  if (if backwards then is_space3 c3 c2 c1
                      else is_space3 c1 c2 c3)
                  then trim_front backwards s3
                  else s
              | EmptyString => s
              end
        | EmptyString => s
        end
  | EmptyString => EmptyString
  end.

Fixpoint rev_string (s acc : string) : string :=
  match s with
  | EmptyString => acc
  | String c s' => rev_string s' (String c acc)
  end.

(** [strings.TrimSpace(s)]: leading and trailing Unicode white space
    removed *)
Definition TrimSpace (s : string) : string :=
  rev_string (trim_front true (rev_string (trim_front false s) "")) "".

(** The ASCII path of [strings.ToLower]: bytes ['A'..'Z'] are mapped to
    ['a'..'z'], every other byte is kept. *)
Definition lower_byte (c : ascii) : ascii :=
  let n := nat_of_ascii c in
  if Nat.leb 65 n && Nat.leb n 90 then ascii_of_nat (n + 32) else c.

Fixpoint ToLowerASCII (s : string) : string :=
  match s with
  | EmptyString => EmptyString
  | String c s' => String (lower_byte c) (ToLowerASCII s')
  end.

(** The verb [%d] of [fmt] on an integer *)
Definition itoa (z : Z) : string := NilZero.string_of_int (Z.to_int z).

(** A slice expression [s[:n]]: the first [n] bytes, or a run-time panic
    (here [None]) when [n] exceeds [len(s)]. *)
Definition slice_to (s : string) (n : nat) : option string :=
  if Nat.leb n (String.length s) then Some (substring 0 n s) else None.

End GoStrings.
Import GoStrings.

(* ===================================================================== *)
(** * [crypto/md5] and [encoding/hex]                                    *)
(* ===================================================================== *)

Module MD5.
Local Open Scope Z_scope.

Definition w32 (x : Z) : Z := x mod 4294967296.

Definition rotl (x : Z) (c : Z) : Z :=
  w32 (Z.lor (Z.shiftl x c) (Z.shiftr x (32 - c))).

Definition not32 (x : Z) : Z := 4294967295 - x.

Definition shifts : list Z :=
  [7; 12; 17; 22; 7; 12; 17; 22; 7; 12; 17; 22; 7; 12; 17; 22;
   5; 9; 14; 20; 5; 9; 14; 20; 5; 9; 14; 20; 5; 9; 14; 20;
   4; 11; 16; 23; 4; 11; 16; 23; 4; 11; 16; 23; 4; 11; 16; 23;
   6; 10; 15; 21; 6; 10; 15; 21; 6; 10; 15; 21; 6; 10; 15; 21].

(** [floor (2^32 * |sin (i + 1)|)] for [i = 0 .. 63] *)
Definition sines : list Z :=
  [3614090360; 3905402710; 606105819; 3250441966;
   4118548399; 1200080426; 2821735955; 4249261313;
   1770035416; 2336552879; 4294925233; 2304563134;
   1804603682; 4254626195; 2792965006; 1236535329;
   4129170786; 3225465664; 643717713; 3921069994;
   3593408605; 38016083; 3634488961; 3889429448;
   568446438; 3275163606; 4107603335; 1163531501;
   2850285829; 4243563512; 1735328473; 2368359562;
   4294588738; 2272392833; 1839030562; 4259657740;
   2763975236; 1272893353; 4139469664; 3200236656;
   681279174; 3936430074; 3572445317; 76029189;
   3654602809; 3873151461; 530742520; 3299628645;
   4096336452; 1126891415; 2878612391; 4237533241;
   1700485571; 2399980690; 4293915773; 2240044497;
   1873313359; 4264355552; 2734768916; 1309151649;
   4149444226; 3174756917; 718787259; 3951481745].

Definition bytes_of (s : string) : list Z :=
  map (fun c => Z.of_nat (nat_of_ascii c)) (list_ascii_of_string s).

(** Little-endian bytes of a word *)
Fixpoint le_bytes (n : nat) (x : Z) : list Z :=
  match n with
  | O => []
  | S n' => (x mod 256) :: le_bytes n' (x / 256)
  end.

Definition pad (msg : list Z) : list Z :=
  let len := Z.of_nat (List.length msg) in
  let zeros := Z.to_nat ((55 - len) mod 64) in
  (msg ++ [128] ++ repeat 0 zeros ++ le_bytes 8 (8 * len))%list.

Fixpoint words (n : nat) (bs : list Z) : list Z :=
  match n with
  | O => []
  | S n' =>
      match bs with
      | b0 :: b1 :: b2 :: b3 :: rest =>
          (b0 + 256 * b1 + 65536 * b2 + 16777216 * b3) :: words n' rest
      | _ => []
      end
  end.

Definition step (M : list Z) (st : Z * Z * Z * Z) (i : nat) : Z * Z * Z * Z :=
  let '(A, B, C, D) := st in
  let iz := Z.of_nat i in
  let '(F, g) :=
    if Nat.ltb i 16 then
      (Z.lor (Z.land B C) (Z.land (not32 B) D), iz)
    else if Nat.ltb i 32 then
      (Z.lor (Z.land D B) (Z.land (not32 D) C), (5 * iz + 1) mod 16)
    else if Nat.ltb i 48 then
      (Z.lxor (Z.lxor B C) D, (3 * iz + 5) mod 16)
    else
      (Z.lxor C (Z.lor B (not32 D)), (7 * iz) mod 16) in
  let F := w32 (F + A + nth i sines 0 + nth (Z.to_nat g) M 0) in
  (D, w32 (B + rotl F (nth i shifts 0)), B, C).

Definition block (st : Z * Z * Z * Z) (M : list Z) : Z * Z * Z * Z :=
  let '(a0, b0, c0, d0) := st in
  let '(A, B, C, D) := fold_left (step M) (seq 0 64) st in
  (w32 (a0 + A), w32 (b0 + B), w32 (c0 + C), w32 (d0 + D)).

Fixpoint blocks (n : nat) (bs : list Z) (st : Z * Z * Z * Z) : Z * Z * Z * Z :=
  match n with
  | O => st
  | S n' => blocks n' (skipn 64 bs) (block st (words 16 bs))
  end.

(** [md5.Sum] *)
Definition Sum (s : string) : list Z :=
  let bs := pad (bytes_of s) in
  let '(a, b, c, d) :=
    blocks (List.length bs / 64) bs
           (1732584193, 4023233417, 2562383102, 271733878) in
  (le_bytes 4 a ++ le_bytes 4 b ++ le_bytes 4 c ++ le_bytes 4 d)%list.

Definition hex_digit (x : Z) : ascii :=
  if x <? 10 then ascii_of_nat (Z.to_nat (48 + x))
  else ascii_of_nat (Z.to_nat (87 + x)).

(** [hex.EncodeToString] *)
Fixpoint EncodeToString (bs : list Z) : string :=
  match bs with
  | [] => ""
  | b :: rest =>
      String (hex_digit (b / 16)) (String (hex_digit (b mod 16)) (EncodeToString rest))
  end.

End MD5.

(* ===================================================================== *)
(** * Test generator ([shared.go], [generate_api_tests.go],
      [create_ui_test.go])                                               *)
(* ===================================================================== *)

Module Generator.

(** [GetExecutorType] *)
Definition GetExecutorType (testType : string) : string :=
  if String.eqb testType "stress" then "ramping-vus"
  else if String.eqb testType "spike" then "ramping-arrival-rate"
  else "constant-vus".

(** [GetScenarioConfig] *)
Definition GetScenarioConfig (testType : string) : string :=
  if String.eqb testType "stress" then
"stages: [
        { duration: '2m', target: 100 },
        { duration: '5m', target: 100 },
        { duration: '2m', target: 0 },
      ],"
  else if String.eqb testType "spike" then
"startRate: 10,
      timeUnit: '1s',
      stages: [
        { duration: '30s', target: 10 },
        { duration: '10s', target: 100 },
        { duration: '30s', target: 10 },
      ],"
  else
"vus: 10,
      duration: '30s',".

(** [GenerateAPITestsTool.generateK6APITest]: the five [%s] verbs of the
    format string are filled, in order, with [testType], the executor, the
    scenario configuration, [specId] and [endpoints]. *)
Definition generateK6APITest (specId endpoints testType : string) : string :=
"import http from 'k6/http';
import { check } from 'k6';

export const options = {
  scenarios: {
    " ++ testType ++ "_test: {
      executor: '" ++ GetExecutorType testType ++ "',
      " ++ GetScenarioConfig testType ++ "
    },
  },
};

export default function () {
  // Generated from spec " ++ specId ++ "
  // Testing endpoints: " ++ endpoints ++ "
  const res = http.get('http://localhost:8080/api/endpoint');
  check(res, {
    'status is 200': (r) => r.status === 200,
  });
}".

(** The preview [script[:200]] that [GenerateAPITestsTool.Handle] embeds in
    its answer. *)
Definition script_preview (script : string) : option string :=
  slice_to script 200.

Definition click_action : string := "await page.locator('button').click();".
Definition type_action : string := "await page.locator('input').type('test data');".
Definition wait_action : string := "await page.waitForTimeout(1000);".

Section UI.

(** Go's [strings.ToLower] (Unicode aware); [ToLowerASCII] is what it
    computes on ASCII text. *)
Variable ToLower : string -> string.

(** [ParseUIInstructions] *)
Definition ParseUIInstructions (instructions : string) : list string :=
  let actions := [] in
  let instructions := ToLower instructions in
  let actions :=
    if Contains instructions "click" then
      if Contains instructions "button" then (actions ++ [click_action])%list
      else actions
    else actions in
  let actions :=
    if Contains instructions "type" || Contains instructions "enter"
    then (actions ++ [type_action])%list else actions in
  let actions :=
    if Contains instructions "wait" then (actions ++ [wait_action])%list
    else actions in
  actions.

(** The loop [for _, action := range actions { script += ... }] *)
Fixpoint append_actions (script : string) (actions : list string) : string :=
  match actions with
  | [] => script
  | action :: rest => append_actions (script ++ "    " ++ action ++ "
") rest
  end.

(** [CreateUITestTool.generateK6UITest]: the format string up to the
    navigation line, and the closing block.  One line of the raw string
    literal consists of two blanks only; it is written as a separate piece
    to keep the blanks visible (so is the four-blank line after the
    navigation). *)
Definition ui_prologue : string :=
"import { browser } from 'k6/experimental/browser';
import { check } from 'k6';

export const options = {
  scenarios: {
    browser: {
      executor: 'shared-iterations',
      vus: 1,
      iterations: 1,
      options: {
        browser: {
          type: 'chromium',
        },
      },
    },
  },
};

export default async function () {
  const page = browser.newPage();
" ++ "  " ++ "
  try {
".

Definition ui_navigation (url : string) : string :=
  "    await page.goto('" ++ url ++ "');
" ++ "    " ++ "
".

Definition ui_epilogue : string :=
"  } finally {
    page.close();
  }
}".

Definition generateK6UITest (url instructions : string) : string :=
  let actions := ParseUIInstructions instructions in
  let script := ui_prologue ++ ui_navigation url in
  let script := append_actions script actions in
  script ++ ui_epilogue.

End UI.

End Generator.

(* ===================================================================== *)
(** * The persisted state ([initDB] in [main.go])                        *)
(* ===================================================================== *)

Module Store.

Definition float64 := spec_float.

(** [float64(n)] for an [int] *)
Definition float64_of_int (n : Z) : float64 := binary_normalize 53 1024 n 0 false.

(** The comparison [a > b] on [float64]: false when either side is NaN *)
Definition float64_gt (a b : float64) : bool := SFltb b a.

Record compose_file_row := {
  cf_id : Z; cf_source_url : string; cf_content : string; cf_hash : string }.

Record session_row := {
  ts_id : Z; ts_compose_file_id : Z; ts_session_name : string;
  ts_completed_at : option Z; ts_status : string }.

Record service_row := {
  sv_id : Z; sv_session_id : Z; sv_name : string; sv_image : string;
  sv_ports : string }.

Record api_spec_row := { as_id : Z; as_session_id : Z; as_spec_url : string }.

(** The SLA columns of [endpoints] are nullable. *)
Record endpoint_row := {
  ep_id : Z; ep_spec_id : Z; ep_path : string; ep_method : string;
  ep_sla_response_time : option Z; ep_sla_error_rate : option float64 }.

Record test_row := {
  t_id : Z; t_session_id : Z; t_name : string; t_type : string;
  t_script : string }.

Record test_run_row := {
  tr_id : Z; tr_test_id : Z; tr_completed_at : option Z; tr_vus : Z;
  tr_duration : string; tr_results : option string }.

Record metric_row := {
  m_id : Z; m_run_id : Z; m_endpoint : string; m_avg_response_time : float64;
  m_min_response_time : float64; m_max_response_time : float64;
  m_error_rate : float64; m_requests_per_second : float64 }.

Record DB := {
  compose_files : list compose_file_row;
  test_sessions : list session_row;
  services : list service_row;
  api_specs : list api_spec_row;
  endpoints : list endpoint_row;
  tests : list test_row;
  test_runs : list test_run_row;
  metrics : list metric_row }.

Definition empty_db : DB :=
  {| compose_files := []; test_sessions := []; services := [];
     api_specs := []; endpoints := []; tests := []; test_runs := [];
     metrics := [] |}.

(** [INTEGER PRIMARY KEY AUTOINCREMENT]: one more than the largest id of the
    table (no handler ever deletes a row). *)
Definition next_id {R : Type} (id : R -> Z) (rows : list R) : Z :=
  (fold_right (fun r acc => Z.max (id r) acc) 0 rows + 1)%Z.

(** The first row of a table that satisfies a [WHERE] condition, as
    [QueryRow] delivers it (tables are kept in insertion order). *)
Definition first_row {R : Type} (cond : R -> bool) (rows : list R) : option R :=
  find cond rows.

(** An id in decimal, as the tools print it (an optional [-] and digits),
    bound as text to a comparison with an [INTEGER] column: SQLite compares
    the number.  Text of another form is [None] here; SQLite converts some
    of it too (['1.0'], [' 1']), which the embedding leaves out: the
    properties of lookups by text are stated for ids in decimal. *)
Definition int_of_text (s : string) : option Z :=
  option_map Z.of_int (NilZero.int_of_string s).

End Store.
Import Store.

(* ===================================================================== *)
(** * The world the handlers act on                                      *)
(* ===================================================================== *)

Module Sys.

Inductive result (A : Type) : Type :=
| Ok (a : A)
| Err (msg : string).
Arguments Ok {A} a.
Arguments Err {A} msg.

(** The SQL statements the handlers issue *)
Inductive stmt :=
| SelectComposeByHash | InsertComposeFile
| SelectLatestSession | SelectComposeContent | SelectSessionCompose
| InsertSession | UpdateSession
| InsertService | SelectServices
| InsertApiSpec | SelectApiSpec
| InsertTest | SelectTest
| InsertTestRun | UpdateTestRun
| InsertMetrics | SelectMetrics | SelectEndpointSLA | SelectHistory.

(** What an operation does to the outside world, in order.  [EvExec] is a
    finished child process: command, arguments, and whether it exited with
    status zero.  [EvSql] is a statement and whether the driver accepted
    it. *)
Inductive event :=
| EvHttpGet (url : string)
| EvReadFile (path : string)
| EvMkdirAll (dir : string)
| EvWriteFile (path : string)
| EvRemoveAll (dir : string)
| EvCreateTemp (name : string)
| EvWriteString (name : string)
| EvRemove (name : string)
| EvSleep (seconds : nat)
| EvExec (cmd : string) (args : list string) (ok : bool)
| EvSql (s : stmt) (ok : bool).

Inductive http_response :=
| HttpFail (err : string)
| HttpResp (status : Z) (body : result string).

Record Service := {
  Image : string; Ports : list string; Environment : list string;
  DependsOn : list string }.

(** Everything a handler cannot decide by itself.  [yaml_services] lists
    the services of a decoded compose file in the order in which a first
    [range] over the map visits them, and [next_range] is the order of a
    further [range] over the same map (Go fixes neither).  Child processes
    and files answer by command line and by name; the [n]-th SQL statement
    of an operation fails when [sql_fails n] is an error; the [n]-th
    reading of the clock is [now_unix n]; [sql_avg] is SQLite's [AVG] over
    a non-empty column of reals. *)
Record Env := {
  yaml_services : string -> list (string * Service);
  next_range : list (string * Service) -> list (string * Service);
  TempDir : string;
  http_get : string -> http_response;
  read_file : string -> result string;
  mkdir_all : string -> option string;
  write_file : string -> string -> option string;
  create_temp : string -> result string;
  exec_result : string -> list string -> option string * string;
  sql_fails : nat -> option string;
  sql_timestamp : nat -> Z;
  sql_avg : list float64 -> float64;
  now_unix : nat -> Z }.

Record World := {
  db : DB;
  trace : list event;
  sql_seq : nat;
  clock_seq : nat }.

Definition init_world (d : DB) : World :=
  {| db := d; trace := []; sql_seq := 0; clock_seq := 0 |}.

Definition IO (A : Type) : Type := World -> World * A.

Definition io_ret {A} (a : A) : IO A := fun w => (w, a).

Definition io_bind {A B} (m : IO A) (k : A -> IO B) : IO B :=
  fun w => let (w', a) := m w in k a w'.

Definition emit (e : event) : IO unit :=
  fun w => ({| db := db w; trace := trace w ++ [e];
               sql_seq := sql_seq w; clock_seq := clock_seq w |}, tt).

End Sys.
Import Sys.

Declare Scope io_scope.
Delimit Scope io_scope with io.
Notation "x <- m ;; k" := (io_bind m (fun x => k))
  (at level 61, m at next level, right associativity) : io_scope.
Notation "m ;; k" := (io_bind m (fun _ => k))
  (at level 61, right associativity) : io_scope.

(* ===================================================================== *)
(** * System calls                                                       *)
(* ===================================================================== *)

Module Prim.
Section WithEnv.
Variable env : Env.
Local Open Scope io_scope.

Definition set_db (d : DB) : IO unit :=
  fun w => ({| db := d; trace := trace w; sql_seq := sql_seq w;
               clock_seq := clock_seq w |}, tt).

Definition next_sql : IO nat :=
  fun w => ({| db := db w; trace := trace w; sql_seq := S (sql_seq w);
               clock_seq := clock_seq w |}, sql_seq w).

(** [time.Now().Unix()] *)
Definition time_now_unix : IO Z :=
  fun w => ({| db := db w; trace := trace w; sql_seq := sql_seq w;
               clock_seq := S (clock_seq w) |}, now_unix env (clock_seq w)).

(** [db.Exec]: a statement that changes the store.  [run] receives the
    value of [CURRENT_TIMESTAMP]. *)
Definition sql_exec {A} (s : stmt) (run : Z -> DB -> DB * A) : IO (result A) :=
  n <- next_sql ;;
  match sql_fails env n with
  | Some msg => emit (EvSql s false) ;; io_ret (Err msg)
  | None =>
      emit (EvSql s true) ;;
      fun w => let (d, a) := run (sql_timestamp env n) (db w) in
               (fst (set_db d w), Ok a)
  end.

(** [db.QueryRow(...).Scan(...)]: [sql.ErrNoRows] when no row is selected,
    a conversion error when a selected column cannot be scanned. *)
Definition sql_query_row {A} (s : stmt) (sel : DB -> result A) : IO (result A) :=
  n <- next_sql ;;
  match sql_fails env n with
  | Some msg => emit (EvSql s false) ;; io_ret (Err msg)
  | None => emit (EvSql s true) ;; fun w => (w, sel (db w))
  end.

Definition ErrNoRows : string := "sql: no rows in result set".

Definition one_row {A} (r : option A) : result A :=
  match r with Some a => Ok a | None => Err ErrNoRows end.

(** [db.Query]: all selected rows, in table order *)
Definition sql_query {A} (s : stmt) (sel : DB -> list A) : IO (result (list A)) :=
  n <- next_sql ;;
  match sql_fails env n with
  | Some msg => emit (EvSql s false) ;; io_ret (Err msg)
  | None => emit (EvSql s true) ;; fun w => (w, Ok (sel (db w)))
  end.

(** [exec.Command(name, args...).CombinedOutput()]: the error, if any, and
    the combined output *)
Definition exec_command (name : string) (args : list string)
  : IO (option string * string) :=
  let r := exec_result env name args in
  emit (EvExec name args (match fst r with None => true | Some _ => false end)) ;;
  io_ret r.

Definition compose_args (composePath projectName : string) (tail : list string)
  : list string :=
  ["compose"; "-f"; composePath; "-p"; projectName] ++ tail.

(** [docker compose -f composePath -p projectName up -d] *)
Definition compose_up (composePath projectName : string) :=
  exec_command "docker" (compose_args composePath projectName ["up"; "-d"]).

(** [docker compose -f composePath -p projectName down -v] *)
Definition compose_down (composePath projectName : string) :=
  exec_command "docker" (compose_args composePath projectName ["down"; "-v"]).

Definition remove_all (dir : string) : IO unit := emit (EvRemoveAll dir).
Definition remove (name : string) : IO unit := emit (EvRemove name).
Definition sleep (seconds : nat) : IO unit := emit (EvSleep seconds).

(** [http.Get(url)], with the body read by [io.ReadAll] where the caller
    asks for it *)
Definition http_Get (url : string) : IO http_response :=
  emit (EvHttpGet url) ;; io_ret (http_get env url).

Definition os_ReadFile (path : string) : IO (result string) :=
  emit (EvReadFile path) ;; io_ret (read_file env path).

Definition os_MkdirAll (dir : string) : IO (option string) :=
  emit (EvMkdirAll dir) ;; io_ret (mkdir_all env dir).

Definition os_WriteFile (path content : string) : IO (option string) :=
  emit (EvWriteFile path) ;; io_ret (write_file env path content).

(** [os.CreateTemp("", pattern)] *)
Definition os_CreateTemp (pattern : string) : IO (result string) :=
  match create_temp env pattern with
  | Ok name => emit (EvCreateTemp name) ;; io_ret (Ok name)
  | Err msg => io_ret (Err msg)
  end.

(** [filepath.Clean(path)] on Unix works through the elements between the
    separators.  One element against the elements kept so far, the most
    recent first: an empty element and [.] are dropped; [..] removes the
    element before it, is dropped at the root, and is kept at the start of
    a relative path; any other element is kept. *)
Definition clean_elem (rooted : bool) (kept : list string) (elem : string)
  : list string :=
  if String.eqb elem "" || String.eqb elem "." then kept
  else if String.eqb elem ".." then
    match kept with
    | top :: below => if String.eqb top ".." then elem :: kept else below
    | [] => if rooted then [] else [elem]
    end
  else elem :: kept.

(** The path of the elements kept: single separators between them, and no
    separator at the end unless the path is the root *)
Definition clean_out (rooted : bool) (kept : list string) : string :=
  (if rooted then "/" else "") ++ Join (rev kept) "/".

(** [filepath.Clean(path)]; the empty result is [.] *)
Definition filepath_Clean (path : string) : string :=
  let rooted := HasPrefix path "/" in
  let out := clean_out rooted (fold_left (clean_elem rooted) (Split path "/") []) in
  if String.eqb out "" then "." else out.

(** [filepath.Join(dir, name)]: the elements from the first non-empty one
    on, joined by separators and cleaned; the empty string when both are
    empty *)
Definition filepath_Join (dir name : string) : string :=
  if negb (String.eqb dir "") then filepath_Clean (dir ++ "/" ++ name)
  else if negb (String.eqb name "") then filepath_Clean name
  else "".

(** Everything before the last separator of a path *)
Fixpoint dir_aux (path : string) : option string :=
  match path with
  | EmptyString => None
  | String c rest =>
      match dir_aux rest with
      | Some d => Some (String c d)
      | None => if Ascii.eqb c "/" then Some EmptyString else None
      end
  end.

(** [filepath.Dir(path)]: the path up to and including its last separator,
    cleaned *)
Definition filepath_Dir (path : string) : string :=
  filepath_Clean (match dir_aux path with
                  | Some d => d ++ "/"
                  | None => ""
                  end).

End WithEnv.
End Prim.
Import Prim.

(* ===================================================================== *)
(** * [shared.go]                                                        *)
(* ===================================================================== *)

Module Shared.

Definition insert_compose_file (r : compose_file_row) (d : DB) : DB :=
  {| compose_files := compose_files d ++ [r];
     test_sessions := test_sessions d; services := services d;
     api_specs := api_specs d; endpoints := endpoints d; tests := tests d;
     test_runs := test_runs d; metrics := metrics d |}.

Definition insert_metric (r : metric_row) (d : DB) : DB :=
  {| compose_files := compose_files d; test_sessions := test_sessions d;
     services := services d; api_specs := api_specs d;
     endpoints := endpoints d; tests := tests d; test_runs := test_runs d;
     metrics := metrics d ++ [r] |}.

(** The [float64] nearest to a decimal literal, given as [m * 2^e] *)
Definition lit (m e : Z) : float64 := binary_normalize 53 1024 m e false.

Section WithEnv.
Variable env : Env.
Local Open Scope io_scope.

(** [FetchComposeContent] *)
Definition FetchComposeContent (source : string) : IO (result string) :=
  if HasPrefix source "http://" || HasPrefix source "https://" then
    resp <- http_Get env source ;;
    match resp with
    | HttpFail err =>
        io_ret (Err ("failed to download compose file: " ++ err))
    | HttpResp status body =>
        if negb (Z.eqb status 200) then
          io_ret (Err ("failed to download compose file: status " ++ itoa status))
        else
          match body with
          | Err err => io_ret (Err ("failed to read response: " ++ err))
          | Ok content => io_ret (Ok content)
          end
    end
  else
    r <- os_ReadFile env source ;;
    match r with
    | Err err => io_ret (Err ("failed to read compose file: " ++ err))
    | Ok content => io_ret (Ok content)
    end.

(** [SELECT id FROM compose_files WHERE hash = ?] *)
Definition select_compose_by_hash (hashStr : string) (d : DB) : result Z :=
  one_row (option_map cf_id
             (first_row (fun r => String.eqb (cf_hash r) hashStr)
                        (compose_files d))).

(** [INSERT INTO compose_files (source_url, content, hash) VALUES (?, ?, ?)],
    answering the new row id *)
Definition insert_compose (source content hashStr : string) (d : DB) : DB * Z :=
  let id := next_id cf_id (compose_files d) in
  (insert_compose_file
     {| cf_id := id; cf_source_url := source; cf_content := content;
        cf_hash := hashStr |} d, id).

(** [StoreComposeFile] *)
Definition StoreComposeFile (source content : string) : IO (result Z) :=
  let hash := MD5.Sum content in
  let hashStr := MD5.EncodeToString hash in
  r <- sql_query_row env SelectComposeByHash (select_compose_by_hash hashStr) ;;
  match r with
  | Ok existingId => io_ret (Ok existingId)
  | Err _ =>
      r <- sql_exec env InsertComposeFile
             (fun _ => insert_compose source content hashStr) ;;
      match r with
      | Err err => io_ret (Err err)
      | Ok id => io_ret (Ok id)
      end
  end.

(** [WriteComposeToTemp] *)
Definition WriteComposeToTemp (content : string) (sessionId : Z)
  : IO (result string) :=
  now <- time_now_unix env ;;
  let tempDir :=
    filepath_Join (TempDir env)
                  ("k6-test-" ++ itoa sessionId ++ "-" ++ itoa now) in
  e <- os_MkdirAll env tempDir ;;
  match e with
  | Some err => io_ret (Err err)
  | None =>
      let composePath := filepath_Join tempDir "docker-compose.yml" in
      e <- os_WriteFile env composePath content ;;
      match e with
      | Some err => io_ret (Err err)
      | None => io_ret (Ok composePath)
      end
  end.

(** [ParseAndStoreMetrics]: one fixed row per run; the result of [Exec] is
    dropped. *)
Definition ParseAndStoreMetrics (runId : Z) (outputFile : string) : IO unit :=
  _ <- sql_exec env InsertMetrics (fun _ d =>
         (insert_metric
            {| m_id := next_id m_id (metrics d); m_run_id := runId;
               m_endpoint := "/api/endpoint";
               m_avg_response_time := lit 301 (-1);
               m_min_response_time := lit 50 0;
               m_max_response_time := lit 500 0;
               m_error_rate := lit 5764607523034235 (-58);
               m_requests_per_second := lit 171 (-1) |} d, tt)) ;;
  io_ret tt.

End WithEnv.

(** [GenerateJSArray] *)
Definition GenerateJSArray (items : list string) : string :=
  "[" ++ Join (map (fun item => "'" ++ item ++ "'") items) ", " ++ "]".

End Shared.
Import Shared.

(* ===================================================================== *)
(** * Go function bodies: early return, panic and [defer]                *)
(* ===================================================================== *)

Module GoFn.

(** How a statement of a function body ends: it falls through to the next
    statement, executes [return], or panics. *)
Inductive flow (R A : Type) : Type :=
| Next (a : A)
| Return (r : R)
| Panic (msg : string).
Arguments Next {R A} a.
Arguments Return {R A} r.
Arguments Panic {R A} msg.

(** A deferred call acts on the world; [Some msg] means it panicked. *)
Definition deferred : Type := World -> World * option string.

(** A body runs in a world and with the stack of calls deferred so far,
    the most recent first. *)
Definition M (R A : Type) : Type :=
  World -> list deferred -> (World * list deferred) * flow R A.

Definition ret {R A} (a : A) : M R A := fun w ds => ((w, ds), Next a).

Definition bind {R A B} (m : M R A) (k : A -> M R B) : M R B :=
  fun w ds =>
    match m w ds with
    | ((w', ds'), Next a) => k a w' ds'
    | ((w', ds'), Return r) => ((w', ds'), Return r)
    | ((w', ds'), Panic msg) => ((w', ds'), Panic msg)
    end.

(** [return r] *)
Definition return_ {R A} (r : R) : M R A := fun w ds => ((w, ds), Return r).

Definition panic {R A} (msg : string) : M R A := fun w ds => ((w, ds), Panic msg).

(** [defer f()] *)
Definition defer {R} (d : deferred) : M R unit :=
  fun w ds => ((w, d :: ds), Next tt).

Definition lift {R A} (m : IO A) : M R A :=
  fun w ds => let (w', a) := m w in ((w', ds), Next a).

(** A deferred call that cannot panic *)
Definition quietly (m : IO unit) : deferred := fun w => (fst (m w), None).

Inductive outcome (R : Type) : Type :=
| Returned (r : R)
| Panicked (msg : string).
Arguments Returned {R} r.
Arguments Panicked {R} msg.

(** Leaving a function runs its deferred calls, last deferred first, also
    while a panic unwinds the stack; a deferred call that panics replaces
    the panic in flight and the remaining calls still run. *)
Fixpoint unwind (ds : list deferred) (w : World) (p : option string)
  : World * option string :=
  match ds with
  | [] => (w, p)
  | d :: ds' =>
      let (w', q) := d w in
      unwind ds' w' (match q with Some msg => Some msg | None => p end)
  end.

Definition finish {R} (st : (World * list deferred) * flow R R)
  : World * outcome R :=
  match st with
  | ((w, ds), Next r) | ((w, ds), Return r) =>
      let (w', p) := unwind ds w None in
      (w', match p with None => Returned r | Some msg => Panicked msg end)
  | ((w, ds), Panic msg) =>
      let (w', p) := unwind ds w (Some msg) in
      (w', match p with None => Panicked msg | Some msg' => Panicked msg' end)
  end.

(** A call of the function on a fresh operation *)
Definition call {R} (body : M R R) (d : DB) : World * outcome R :=
  finish (body (init_world d) []).

Definition nil_deref : string :=
  "runtime error: invalid memory address or nil pointer dereference".

End GoFn.
Import GoFn.

Declare Scope go_scope.
Delimit Scope go_scope with go.
Notation "x <- m ;; k" := (bind m (fun x => k))
  (at level 61, m at next level, right associativity) : go_scope.
Notation "m ;; k" := (bind m (fun _ => k))
  (at level 61, right associativity) : go_scope.
Notation "x <~ m ;; k" := (bind (lift m) (fun x => k))
  (at level 61, m at next level, right associativity) : go_scope.

(* ===================================================================== *)
(** * The tool handlers                                                  *)
(* ===================================================================== *)

Module Tools.

(** [mcp.NewToolResultText] and [mcp.NewToolResultError]; every handler
    returns one of them together with a nil error. *)
Inductive ToolResult :=
| ToolText (text : string)
| ToolError (text : string).

(** [request.GetString(key, default)] and [request.GetFloat(key, default)]
    followed by [int(...)] *)
Definition GetString (v : option string) (default : string) : string :=
  match v with Some s => s | None => default end.

Definition GetInt (v : option Z) (default : Z) : Z :=
  match v with Some n => n | None => default end.

Definition nl : string := "
".

Definition insert_session (r : session_row) (d : DB) : DB :=
  {| compose_files := compose_files d;
     test_sessions := test_sessions d ++ [r]; services := services d;
     api_specs := api_specs d; endpoints := endpoints d; tests := tests d;
     test_runs := test_runs d; metrics := metrics d |}.

Definition insert_service (r : service_row) (d : DB) : DB :=
  {| compose_files := compose_files d; test_sessions := test_sessions d;
     services := services d ++ [r]; api_specs := api_specs d;
     endpoints := endpoints d; tests := tests d; test_runs := test_runs d;
     metrics := metrics d |}.

Definition insert_api_spec (r : api_spec_row) (d : DB) : DB :=
  {| compose_files := compose_files d; test_sessions := test_sessions d;
     services := services d; api_specs := api_specs d ++ [r];
     endpoints := endpoints d; tests := tests d; test_runs := test_runs d;
     metrics := metrics d |}.

Definition insert_test (r : test_row) (d : DB) : DB :=
  {| compose_files := compose_files d; test_sessions := test_sessions d;
     services := services d; api_specs := api_specs d;
     endpoints := endpoints d; tests := tests d ++ [r];
     test_runs := test_runs d; metrics := metrics d |}.

Definition set_test_runs (rs : list test_run_row) (d : DB) : DB :=
  {| compose_files := compose_files d; test_sessions := test_sessions d;
     services := services d; api_specs := api_specs d;
     endpoints := endpoints d; tests := tests d; test_runs := rs;
     metrics := metrics d |}.

Definition set_test_sessions (rs : list session_row) (d : DB) : DB :=
  {| compose_files := compose_files d; test_sessions := rs;
     services := services d; api_specs := api_specs d;
     endpoints := endpoints d; tests := tests d; test_runs := test_runs d;
     metrics := metrics d |}.

(** [INSERT INTO api_specs (session_id, spec_url) VALUES (?, ?)] *)
Definition insert_spec (sessionId : Z) (url : string) (d : DB) : DB * unit :=
  (insert_api_spec {| as_id := next_id as_id (api_specs d);
                      as_session_id := sessionId; as_spec_url := url |} d, tt).

(** [SELECT id, name, ports FROM services WHERE session_id = ?] *)
Definition select_services (sessionId : Z) (d : DB) : list service_row :=
  filter (fun r => Z.eqb (sv_session_id r) sessionId) (services d).

(** [INSERT INTO test_runs (test_id, vus, duration) VALUES (?, ?, ?)] *)
Definition insert_test_run (testId vus : Z) (duration : string) (d : DB)
  : DB * Z :=
  let id := next_id tr_id (test_runs d) in
  (set_test_runs
     (test_runs d ++
      [{| tr_id := id; tr_test_id := testId; tr_completed_at := None;
          tr_vus := vus; tr_duration := duration; tr_results := None |}]) d,
   id).

(** [UPDATE test_runs SET completed_at = CURRENT_TIMESTAMP, results = ?
     WHERE id = ?]; without [results = ?] when [results] is [None]. *)
Definition update_test_run (runId : Z) (results : option string) (now : Z)
  (d : DB) : DB * unit :=
  (set_test_runs
     (map (fun r =>
             if Z.eqb (tr_id r) runId then
               {| tr_id := tr_id r; tr_test_id := tr_test_id r;
                  tr_completed_at := Some now; tr_vus := tr_vus r;
                  tr_duration := tr_duration r;
                  tr_results := match results with
                                | Some out => Some out
                                | None => tr_results r
                                end |}
             else r) (test_runs d)) d, tt).

(** [INSERT INTO test_sessions (compose_file_id, session_name, status)
     VALUES (?, ?, ?)] *)
Definition insert_test_session (composeFileId : Z) (name status : string)
  (d : DB) : DB * Z :=
  let id := next_id ts_id (test_sessions d) in
  (insert_session {| ts_id := id; ts_compose_file_id := composeFileId;
                     ts_session_name := name; ts_completed_at := None;
                     ts_status := status |} d, id).

(** [UPDATE test_sessions SET completed_at = CURRENT_TIMESTAMP, status = ?
     WHERE id = ?] *)
Definition update_session (sessionId : Z) (status : string) (now : Z) (d : DB)
  : DB * unit :=
  (set_test_sessions
     (map (fun r =>
             if Z.eqb (ts_id r) sessionId then
               {| ts_id := ts_id r; ts_compose_file_id := ts_compose_file_id r;
                  ts_session_name := ts_session_name r;
                  ts_completed_at := Some now; ts_status := status |}
             else r) (test_sessions d)) d, tt).

(** [INSERT INTO tests (session_id, name, type, script) VALUES (?, ?, ?, ?)] *)
Definition insert_test_row (sessionId : Z) (name type script : string) (d : DB)
  : DB * Z :=
  let id := next_id t_id (tests d) in
  (insert_test {| t_id := id; t_session_id := sessionId; t_name := name;
                  t_type := type; t_script := script |} d, id).

(** [INSERT INTO services (session_id, name, image, ports) VALUES (?, ?, ?, ?)] *)
Definition insert_service_row (sessionId : Z) (name image ports : string)
  (d : DB) : DB * unit :=
  (insert_service {| sv_id := next_id sv_id (services d);
                     sv_session_id := sessionId; sv_name := name;
                     sv_image := image; sv_ports := ports |} d, tt).

(** [SELECT id, compose_file_id FROM test_sessions ORDER BY created_at DESC
     LIMIT 1]: the most recently created session, taken to be the row
    inserted last.  (The table made by [initDB] has a [started_at] but no
    [created_at] column; a store that rejects the statement for that reason
    is an environment whose [sql_fails] rejects it.) *)
Definition select_latest_session (d : DB) : result (Z * Z) :=
  one_row (option_map (fun r => (ts_id r, ts_compose_file_id r))
                      (last (map Some (test_sessions d)) None)).

(** [SELECT content FROM compose_files WHERE id = ?] *)
Definition select_compose_content (composeFileId : Z) (d : DB) : result string :=
  one_row (option_map cf_content
             (first_row (fun r => Z.eqb (cf_id r) composeFileId)
                        (compose_files d))).

End Tools.
Import Tools.

(** ** [discover_specs.go] *)

Module DiscoverSpecs.

Record Request := { specPaths : option string; autoDiscover : option string }.

Definition commonPaths : list string :=
  [ "/swagger.json"; "/openapi.json"; "/api-docs"; "/v2/api-docs";
    "/v3/api-docs"; "/api/swagger.json"; "/api/openapi.json";
    "/api/v3/openapi.json" ].

Section WithEnv.
Variable env : Env.

(** [for _, path := range commonPaths { ... }] *)
Fixpoint probe_paths (baseURL : string) (paths : list string)
  (discovered : list string) : IO (list string) :=
  match paths with
  | [] => io_ret discovered
  | path :: rest =>
      let url := baseURL ++ path in
      (resp <- http_Get env url ;;
       let discovered :=
         match resp with
         | HttpResp status _ =>
             if Z.eqb status 200 then (discovered ++ [url])%list
             else discovered
         | HttpFail _ => discovered
         end in
       probe_paths baseURL rest discovered)%io
  end.

(** The body of [for rows.Next() { ... }] *)
Definition probe_service (row : service_row) (discovered : list string)
  : IO (list string) :=
  let ports := sv_ports row in
  let portList := Split ports "," in
  match portList with
  | first :: _ =>
      if negb (String.eqb first "") then
        let port := hd "" (Split first ":") in
        let baseURL := "http://localhost:" ++ port in
        probe_paths baseURL commonPaths discovered
      else io_ret discovered
  | [] => io_ret discovered
  end.

Fixpoint probe_services (rows : list service_row) (discovered : list string)
  : IO (list string) :=
  match rows with
  | [] => io_ret discovered
  | row :: rest =>
      (discovered <- probe_service row discovered ;;
       probe_services rest discovered)%io
  end.

(** [for i, spec := range discovered { ... }]: the numbered list, and one
    [INSERT] per entry whose failure is only logged *)
Fixpoint store_specs (sessionId : Z) (i : Z) (specs : list string)
  (result : string) : IO string :=
  match specs with
  | [] => io_ret result
  | spec :: rest =>
      let result := result ++ itoa (i + 1) ++ ". " ++ spec ++ nl in
      (_ <- sql_exec env InsertApiSpec (fun _ => insert_spec sessionId spec) ;;
       store_specs sessionId (i + 1) rest result)%io
  end.

Local Open Scope go_scope.

(** [DiscoverSpecsTool.Handle] *)
Definition Handle (request : Request) : M ToolResult ToolResult :=
  let specPaths := GetString (specPaths request) "" in
  let autoDiscover :=
    String.eqb (GetString (autoDiscover request) "true") "true" in
  r <~ sql_query_row env SelectLatestSession select_latest_session ;;
  match r with
  | Err _ =>
      return_ (ToolError
        "No environment configured. Run setup_test_environment first.")
  | Ok (sessionId, composeFileId) =>
  r <~ sql_query_row env SelectComposeContent
         (select_compose_content composeFileId) ;;
  match r with
  | Err err => return_ (ToolError ("Failed to get compose file: " ++ err))
  | Ok content =>
  r <~ WriteComposeToTemp env content sessionId ;;
  match r with
  | Err err => return_ (ToolError ("Failed to write compose file: " ++ err))
  | Ok composePath =>
  defer (quietly (remove_all (filepath_Dir composePath))) ;;
  let projectName := "discover-" ++ itoa sessionId in
  r <~ compose_up env composePath projectName ;;
  match r with
  | (Some err, output) =>
      return_ (ToolError
        ("Failed to start containers: " ++ err ++ nl ++ output))
  | (None, _) =>
  defer (quietly (_ <- compose_down env composePath projectName ;; io_ret tt)%io) ;;
  lift (sleep 10) ;;
  let discovered := [] in
  let discovered :=
    if negb (String.eqb specPaths "") then
      (discovered ++ map TrimSpace (Split specPaths ","))%list
    else discovered in
  discovered <-
    (if autoDiscover then
       rows <~ sql_query env SelectServices (select_services sessionId) ;;
       match rows with
       | Err err =>
           return_ (ToolError ("Failed to query services: " ++ err))
       | Ok rows =>
           defer (quietly (io_ret tt)) ;;   (* rows.Close() *)
           lift (probe_services rows discovered)
       end
     else ret discovered) ;;
  let result :=
    "Discovered " ++ itoa (Z.of_nat (List.length discovered)) ++
    " API specifications:" ++ nl in
  result <~ store_specs sessionId 0 discovered result ;;
  return_ (ToolText (result ++ nl ++ "Containers have been stopped."))
  end end end end.

End WithEnv.
End DiscoverSpecs.

(** ** [run_performance_test.go] *)

Module RunPerformanceTest.

Record Request := {
  testId : option string; vus : option Z; duration : option string }.

(** The integer the store keeps when the text [testId] is bound to the
    [INTEGER] column [test_id], for an id in decimal (see [int_of_text]);
    [strconv.ParseInt(testId, 10, 64)], whose value the handler only logs,
    is the same integer there. *)
Definition ParseInt (testId : string) : Z :=
  match int_of_text testId with Some n => n | None => 0%Z end.

(** [SELECT script, session_id FROM tests WHERE id = ?] *)
Definition select_test (testId : string) (d : DB) : result (string * Z) :=
  one_row
    match int_of_text testId with
    | Some n =>
        option_map (fun r => (t_script r, t_session_id r))
                   (first_row (fun r => Z.eqb (t_id r) n) (tests d))
    | None => None
    end.

(** [SELECT cf.content FROM compose_files cf JOIN test_sessions ts
     ON ts.compose_file_id = cf.id WHERE ts.id = ?] *)
Definition select_session_compose (sessionId : Z) (d : DB) : result string :=
  one_row
    match first_row (fun cf =>
            existsb (fun ts => Z.eqb (ts_compose_file_id ts) (cf_id cf) &&
                               Z.eqb (ts_id ts) sessionId)
                    (test_sessions d)) (compose_files d) with
    | Some cf => Some (cf_content cf)
    | None => None
    end.

Definition k6_args (vus : Z) (duration outputFile script : string) : list string :=
  ["run"; "--vus"; itoa vus; "--duration"; duration;
   "--out"; "json=" ++ outputFile; script].

Section WithEnv.
Variable env : Env.
Local Open Scope go_scope.

(** [RunPerformanceTestTool.Handle] *)
Definition Handle (request : Request) : M ToolResult ToolResult :=
  match testId request with
  | None => return_ (ToolError "Missing required testId")
  | Some testId =>
  let vus := GetInt (vus request) 10 in
  let duration := GetString (duration request) "30s" in
  r <~ sql_query_row env SelectTest (select_test testId) ;;
  match r with
  | Err err => return_ (ToolError ("Test not found: " ++ err))
  | Ok (script, sessionId) =>
  r <~ sql_query_row env SelectSessionCompose
         (select_session_compose sessionId) ;;
  match r with
  | Err err => return_ (ToolError ("Compose file not found: " ++ err))
  | Ok content =>
  r <~ WriteComposeToTemp env content sessionId ;;
  match r with
  | Err err => return_ (ToolError ("Failed to write compose file: " ++ err))
  | Ok composePath =>
  defer (quietly (remove_all (filepath_Dir composePath))) ;;
  now <~ time_now_unix env ;;
  let projectName := "perftest-" ++ itoa now in
  r <~ compose_up env composePath projectName ;;
  match r with
  | (Some err, containerOutput) =>
      return_ (ToolError
        ("Failed to start containers: " ++ err ++ nl ++ containerOutput))
  | (None, _) =>
  defer (quietly (_ <- compose_down env composePath projectName ;; io_ret tt)%io) ;;
  lift (sleep 10) ;;
  r <~ os_CreateTemp env "k6-test-*.js" ;;
  match r with
  | Err err => return_ (ToolError ("Failed to create temp file: " ++ err))
  | Ok tmpFile =>
  defer (quietly (remove tmpFile)) ;;
  lift (emit (EvWriteString tmpFile)) ;;
  (* result, _ := Exec(...); runId, _ := result.LastInsertId() *)
  result <~ sql_exec env InsertTestRun
              (fun _ => insert_test_run (ParseInt testId) vus duration) ;;
  runId <- match result with
           | Ok id => ret id
           | Err _ => panic nil_deref
           end ;;
  let outputFile := "/tmp/k6-results-" ++ itoa runId ++ ".json" in
  r <~ exec_command env "k6" (k6_args vus duration outputFile tmpFile) ;;
  match r with
  | (Some err, output) =>
      return_ (ToolError ("Test execution failed: " ++ err ++ nl ++ output))
  | (None, output) =>
  _ <~ sql_exec env UpdateTestRun (update_test_run runId (Some output)) ;;
  lift (ParseAndStoreMetrics env runId outputFile) ;;
  return_ (ToolText
    ("Test completed. Run ID: " ++ itoa runId ++ nl ++ nl ++
     "Containers have been stopped and removed." ++ nl ++ nl ++ output))
  end end end end end end end.

End WithEnv.
End RunPerformanceTest.

(** ** [generate_api_tests.go] *)

Module GenerateAPITests.

Record Request := {
  specId : option string; endpoints : option string;
  testType : option string }.

(** [SELECT session_id FROM api_specs WHERE id = ?] *)
Definition select_spec_session (specId : string) (d : DB) : result Z :=
  one_row
    match int_of_text specId with
    | Some n =>
        option_map as_session_id
                   (first_row (fun r => Z.eqb (as_id r) n) (api_specs d))
    | None => None
    end.

Definition slice_out_of_range : string :=
  "runtime error: slice bounds out of range".

Section WithEnv.
Variable env : Env.
(** [t.Format(layout)] in the time zone of the process, for the time at a
    given Unix second *)
Variable Format : Z -> string -> string.
Local Open Scope go_scope.

(** [GenerateAPITestsTool.Handle] *)
Definition Handle (request : Request) : M ToolResult ToolResult :=
  match specId request with
  | None => return_ (ToolError "Missing required specId")
  | Some specId =>
  let endpoints := GetString (endpoints request) "" in
  let testType := GetString (testType request) "load" in
  r <~ sql_query_row env SelectApiSpec (select_spec_session specId) ;;
  match r with
  | Err err => return_ (ToolError ("Spec not found: " ++ err))
  | Ok sessionId =>
  let script := Generator.generateK6APITest specId endpoints testType in
  now <~ time_now_unix env ;;
  r <~ sql_exec env InsertTest
         (fun _ => insert_test_row sessionId
                     ("api-test-" ++ Format now "20060102-150405")
                     testType script) ;;
  match r with
  | Err err => return_ (ToolError ("Failed to store test: " ++ err))
  | Ok testId =>
  (* script[:200] *)
  match Generator.script_preview script with
  | None => panic slice_out_of_range
  | Some preview =>
  return_ (ToolText
    ("Generated " ++ testType ++ " test with ID: " ++ itoa testId ++ nl ++ nl ++
     "Script preview:" ++ nl ++ preview ++ "..."))
  end end end end.

End WithEnv.
End GenerateAPITests.

(** ** [quick_performance_test.go] *)

Module QuickPerformanceTest.

Record Request := {
  composeSource : option string; vus : option Z; duration : option string }.

Definition testScript : string :=
"import http from 'k6/http';
import { check } from 'k6';

export default function () {
  const res = http.get('http://localhost:8082/');
  check(res, { 'status ok': (r) => r.status < 400 });
}".

Section WithEnv.
Variable env : Env.
Local Open Scope go_scope.

(** [QuickPerformanceTestTool.Handle] *)
Definition Handle (request : Request) : M ToolResult ToolResult :=
  match composeSource request with
  | None => return_ (ToolError "Missing required composeSource")
  | Some composeSource =>
  let vus := GetInt (vus request) 50 in
  let duration := GetString (duration request) "2m" in
  let report := "# Quick Performance Test" ++ nl ++ nl in
  let report := report ++ "- Target: " ++ composeSource ++ nl in
  let report := report ++ "- VUs: " ++ itoa vus ++ nl in
  let report := report ++ "- Duration: " ++ duration ++ nl ++ nl in
  r <~ FetchComposeContent env composeSource ;;
  match r with
  | Err err => return_ (ToolError ("Failed to fetch compose: " ++ err))
  | Ok content =>
  r <~ StoreComposeFile env composeSource content ;;
  match r with
  | Err err => return_ (ToolError ("Failed to store compose file: " ++ err))
  | Ok composeFileId =>
  now <~ time_now_unix env ;;
  let sessionName := "quick-" ++ itoa now in
  r <~ sql_exec env InsertSession
         (fun _ => insert_test_session composeFileId sessionName "running") ;;
  match r with
  | Err err => return_ (ToolError ("Failed to create session: " ++ err))
  | Ok sessionId =>
  r <~ WriteComposeToTemp env content sessionId ;;
  match r with
  | Err err => return_ (ToolError ("Failed to write compose file: " ++ err))
  | Ok composePath =>
  defer (quietly (remove_all (filepath_Dir composePath))) ;;
  let projectName := "quick-" ++ itoa sessionId in
  r <~ compose_up env composePath projectName ;;
  match r with
  | (Some err, containerOutput) =>
      return_ (ToolError
        ("Failed to start containers: " ++ err ++ nl ++ containerOutput))
  | (None, _) =>
  defer (quietly (_ <- compose_down env composePath projectName ;; io_ret tt)%io) ;;
  lift (sleep 10) ;;
  r <~ os_CreateTemp env "k6-quick-*.js" ;;
  match r with
  | Err err => return_ (ToolError ("Failed to create temp file: " ++ err))
  | Ok tmpFile =>
  lift (emit (EvWriteString tmpFile)) ;;
  defer (quietly (remove tmpFile)) ;;
  r <~ exec_command env "k6"
         ["run"; "--vus"; itoa vus; "--duration"; duration; tmpFile] ;;
  match r with
  | (Some err, output) =>
      return_ (ToolError ("k6 test failed: " ++ err ++ nl ++ output))
  | (None, output) =>
  let report := report ++ "## Results" ++ nl ++ "```" ++ nl ++ output ++ nl ++ "```" in
  return_ (ToolText report)
  end end end end end end end end.

End WithEnv.
End QuickPerformanceTest.

(** ** [test_application.go] *)

Module TestApplication.

Record Request := {
  composeSource : option string; testType : option string;
  endpoints : option string }.

Definition commonPaths : list string :=
  ["/openapi.json"; "/swagger.json"; "/api-docs"; "/api/v3/openapi.json"].

(** [for _, service := range compose.Services { ... break }]: the port of
    the first service visited that publishes one *)
Fixpoint first_port (svcs : list (string * Service)) : string :=
  match svcs with
  | [] => ""
  | (_, service) :: rest =>
      match Ports service with
      | p :: _ => hd "" (Split p ":")
      | [] => first_port rest
      end
  end.

Definition script_of (testVus : Z) (testDuration testPort : string)
  (testEndpoints : list string) : string :=
"import http from 'k6/http';
import { check, group } from 'k6';

export const options = {
  vus: " ++ itoa testVus ++ ",
  duration: '" ++ testDuration ++ "',
  thresholds: {
    http_req_duration: ['p(95)<500'],
    http_req_failed: ['rate<0.1'],
  },
};

const BASE_URL = 'http://localhost:" ++ testPort ++ "';
const endpoints = " ++ GenerateJSArray testEndpoints ++ ";

export default function () {
  endpoints.forEach(endpoint => {
    group('Testing ' + endpoint, () => {
      const res = http.get(BASE_URL + endpoint);
      check(res, {
        'status is 200': (r) => r.status === 200,
        'response time < 500ms': (r) => r.timings.duration < 500,
      });
    });
  });
}".

Section WithEnv.
Variable env : Env.

(** [for name, service := range compose.Services { ... }]: one [INSERT] per
    service, its result dropped *)
Fixpoint store_services (sessionId : Z) (svcs : list (string * Service))
  : IO unit :=
  match svcs with
  | [] => io_ret tt
  | (name, service) :: rest =>
      let ports := Join (Ports service) "," in
      (_ <- sql_exec env InsertService
              (fun _ => insert_service_row sessionId name (Image service) ports) ;;
       store_services sessionId rest)%io
  end.

(** [for _, path := range commonPaths { ... break }]: stops at the first
    path that answers 200 *)
Fixpoint probe_paths (sessionId : Z) (baseURL : string) (paths : list string)
  (st : Z * string) : IO (Z * string) :=
  match paths with
  | [] => io_ret st
  | path :: rest =>
      let url := baseURL ++ path in
      (resp <- http_Get env url ;;
       match resp with
       | HttpResp 200 _ =>
           _ <- sql_exec env InsertApiSpec (fun _ => insert_spec sessionId url) ;;
           io_ret ((fst st + 1)%Z, snd st ++ "- Found API spec: " ++ url ++ nl)
       | _ => probe_paths sessionId baseURL rest st
       end)%io
  end.

Fixpoint probe_services (sessionId : Z) (rows : list service_row)
  (st : Z * string) : IO (Z * string) :=
  match rows with
  | [] => io_ret st
  | row :: rest =>
      let portList := Split (sv_ports row) "," in
      (st <- match portList with
             | first :: _ =>
                 if negb (String.eqb first "") then
                   let port := hd "" (Split first ":") in
                   probe_paths sessionId ("http://localhost:" ++ port)
                               commonPaths st
                 else io_ret st
             | [] => io_ret st
             end ;;
       probe_services sessionId rest st)%io
  end.

Local Open Scope go_scope.

(** [TestApplicationTool.Handle] *)
Definition Handle (request : Request) : M ToolResult ToolResult :=
  match composeSource request with
  | None => return_ (ToolError "Missing required composeSource")
  | Some composeSource =>
  let testType := GetString (testType request) "standard" in
  let endpoints := GetString (endpoints request) "" in
  let report := "# Automated Application Testing" ++ nl ++ nl in
  let report := report ++ "## Step 1: Setting up environment" ++ nl in
  r <~ FetchComposeContent env composeSource ;;
  match r with
  | Err err => return_ (ToolError ("Failed to fetch compose file: " ++ err))
  | Ok content =>
  r <~ StoreComposeFile env composeSource content ;;
  match r with
  | Err err => return_ (ToolError ("Failed to store compose file: " ++ err))
  | Ok composeFileId =>
  now <~ time_now_unix env ;;
  let sessionName := "auto-test-" ++ itoa now in
  r <~ sql_exec env InsertSession
         (fun _ => insert_test_session composeFileId sessionName "running") ;;
  match r with
  | Err err => return_ (ToolError ("Failed to create session: " ++ err))
  | Ok sessionId =>
  let compose := yaml_services env content in
  lift (store_services sessionId compose) ;;
  let report :=
    report ++ "- Created session " ++ itoa sessionId ++ " with " ++
    itoa (Z.of_nat (List.length compose)) ++ " services" ++ nl in
  let report := report ++ nl ++ "## Step 2: Discovering APIs" ++ nl in
  r <~ WriteComposeToTemp env content sessionId ;;
  match r with
  | Err err => return_ (ToolError ("Failed to write compose: " ++ err))
  | Ok composePath =>
  defer (quietly (remove_all (filepath_Dir composePath))) ;;
  let projectName := "auto-" ++ itoa sessionId in
  r <~ compose_up env composePath projectName ;;
  match r with
  | (Some err, output) =>
      return_ (ToolError
        ("Failed to start containers: " ++ err ++ nl ++ output))
  | (None, _) =>
  defer (quietly
    (_ <- compose_down env composePath projectName ;;
     _ <- sql_exec env UpdateSession (update_session sessionId "completed") ;;
     io_ret tt)%io) ;;
  lift (sleep 15) ;;
  let discovered := 0%Z in
  (* rows, _ := Query(...); defer rows.Close(); for rows.Next() {...}:
     a failed query leaves rows nil, and both calls dereference it *)
  rows <~ sql_query env SelectServices (select_services sessionId) ;;
  st <- match rows with
        | Err _ =>
            defer (fun w => (w, Some nil_deref)) ;;
            panic nil_deref
        | Ok rows =>
            defer (quietly (io_ret tt)) ;;
            lift (probe_services sessionId rows (discovered, report))
        end ;;
  let report := snd st in
  let report := report ++ nl ++ "## Step 3: Running " ++ testType ++ " tests" ++ nl in
  let report :=
    if negb (String.eqb endpoints "") then
      report ++ "- Testing specific endpoints: " ++ endpoints ++ nl
    else report in
  let '(testVus, testDuration) :=
    if String.eqb testType "quick" then (10%Z, "30s")
    else if String.eqb testType "thorough" then (100%Z, "5m")
    else (50%Z, "2m") in
  let testPort := first_port (next_range env compose) in
  let testPort := if String.eqb testPort "" then "8080" else testPort in
  let testEndpoints :=
    if negb (String.eqb endpoints "") then map TrimSpace (Split endpoints ",")
    else ["/"; "/api/health"; "/api/v3/pet"] in
  let testScript := script_of testVus testDuration testPort testEndpoints in
  (* testResult, _ := Exec(...); testId, _ := testResult.LastInsertId() *)
  testResult <~ sql_exec env InsertTest
    (fun _ => insert_test_row sessionId "auto-load-test" "load" testScript) ;;
  testId <- match testResult with
            | Ok id => ret id
            | Err _ => panic nil_deref
            end ;;
  (* tmpFile, _ := os.CreateTemp(...); defer os.Remove(tmpFile.Name()) *)
  tmp <~ os_CreateTemp env "k6-auto-test-*.js" ;;
  tmpFile <- match tmp with
             | Ok name => lift (emit (EvWriteString name)) ;; ret name
             | Err _ => panic nil_deref
             end ;;
  defer (quietly (remove tmpFile)) ;;
  runResult <~ sql_exec env InsertTestRun
    (fun _ => insert_test_run testId testVus testDuration) ;;
  runId <- match runResult with
           | Ok id => ret id
           | Err _ => panic nil_deref
           end ;;
  let outputFile := "/tmp/k6-auto-results-" ++ itoa runId ++ ".json" in
  r <~ exec_command env "k6"
         (RunPerformanceTest.k6_args testVus testDuration outputFile tmpFile) ;;
  let k6Output := snd r in
  let report :=
    report ++ "- Test completed with " ++ itoa testVus ++ " VUs for " ++
    testDuration ++ nl in
  let report := report ++ nl ++ "## Results Summary" ++ nl in
  let report := report ++ "```" ++ nl ++ k6Output ++ nl ++ "```" ++ nl in
  _ <~ sql_exec env UpdateTestRun (update_test_run runId None) ;;
  return_ (ToolText report)
  end end end end end end.

End WithEnv.
End TestApplication.

(** ** [analyze_results.go] *)

Module AnalyzeResults.

Record Request := { runId : option string; compareHistory : option string }.

Definition fmul (a b : float64) : float64 := SFmul 53 1024 a b.
Definition fsub (a b : float64) : float64 := SFsub 53 1024 a b.
Definition fdiv (a b : float64) : float64 := SFdiv 53 1024 a b.
Definition hundred : float64 := float64_of_int 100.

Fixpoint zeros (n : nat) : string :=
  match n with O => "" | S n' => "0" ++ zeros n' end.

(** The verb [%.<prec>f] of [fmt]: the exact value rounded to [prec]
    decimals, ties to even *)
Definition FormatFloat (prec : nat) (f : float64) : string :=
  match f with
  | S754_nan => "NaN"
  | S754_infinity false => "+Inf"
  | S754_infinity true => "-Inf"
  | S754_zero s =>
      (if s then "-" else "") ++ "0" ++
      (if Nat.eqb prec 0 then "" else "." ++ zeros prec)
  | S754_finite s m e =>
      let p10 := (10 ^ Z.of_nat prec)%Z in
      let num := (if Z.leb 0 e then Zpos m * 2 ^ e * p10 else Zpos m * p10)%Z in
      let den := (if Z.leb 0 e then 1 else 2 ^ (- e))%Z in
      let q := (num / den)%Z in
      let r := (num mod den)%Z in
      let q := (if Z.ltb den (2 * r) then q + 1
                else if Z.eqb (2 * r) den && Z.odd q then q + 1 else q)%Z in
      let frac := itoa (q mod p10) in
      (if s then "-" else "") ++ itoa (q / p10) ++
      (if Nat.eqb prec 0 then ""
       else "." ++ zeros (prec - String.length frac) ++ frac)
  end.

(** The pieces [analysis += fmt.Sprintf(...)] appends *)
Inductive line :=
| LTitle
| LRun (runId : string)
| LEndpoint (endpoint : string)
| LAvgTime (avgTime : float64)
| LErrorRate (errorRate : float64)
| LSlaTime (slaTime : Z)
| LSlaError (slaError : float64)
| LHistory (timeDiff : float64)
| LBlank.

Definition render_line (l : line) : string :=
  match l with
  | LTitle => "# Performance Analysis" ++ nl ++ nl
  | LRun runId => "## Run ID: " ++ runId ++ nl ++ nl
  | LEndpoint endpoint => "### " ++ endpoint ++ nl
  | LAvgTime avgTime =>
      "- Avg Response Time: " ++ FormatFloat 2 avgTime ++ " ms" ++ nl
  | LErrorRate errorRate =>
      "- Error Rate: " ++ FormatFloat 2 (fmul errorRate hundred) ++ "%" ++ nl
  | LSlaTime slaTime =>
      "- ⚠️ SLA VIOLATION: Response time exceeds " ++ itoa slaTime ++ " ms" ++ nl
  | LSlaError slaError =>
      "- ⚠️ SLA VIOLATION: Error rate exceeds " ++
      FormatFloat 1 (fmul slaError hundred) ++ "%" ++ nl
  | LHistory timeDiff =>
      "- Response time: " ++ FormatFloat 1 timeDiff ++
      "% vs historical average" ++ nl
  | LBlank => nl
  end.

Definition render (analysis : list line) : string :=
  fold_right (fun l acc => render_line l ++ acc) "" analysis.

(** [run_id = ?] and [run_id != ?] against the text of the request, for a
    run id in decimal (see [int_of_text]) *)
Definition run_is (runId : string) (id : Z) : bool :=
  match int_of_text runId with Some n => Z.eqb id n | None => false end.

(** [SELECT endpoint, avg_response_time, error_rate FROM metrics
     WHERE run_id = ?] *)
Definition select_metrics (runId : string) (d : DB)
  : list (string * float64 * float64) :=
  map (fun r => (m_endpoint r, m_avg_response_time r, m_error_rate r))
      (filter (fun r => run_is runId (m_run_id r)) (metrics d)).

Definition ErrNull : string := "converting NULL is unsupported".

(** [SELECT sla_response_time, sla_error_rate FROM endpoints WHERE path = ?]
    scanned into an [int] and a [float64] *)
Definition select_sla (endpoint : string) (d : DB) : result (Z * float64) :=
  match first_row (fun r => String.eqb (ep_path r) endpoint) (endpoints d) with
  | None => Err ErrNoRows
  | Some r =>
      match ep_sla_response_time r, ep_sla_error_rate r with
      | Some slaTime, Some slaError => Ok (slaTime, slaError)
      | _, _ => Err ErrNull
      end
  end.

(** The rows of other runs for an endpoint *)
Definition history_rows (endpoint runId : string) (d : DB) : list metric_row :=
  filter (fun r => String.eqb (m_endpoint r) endpoint &&
                   negb (run_is runId (m_run_id r))) (metrics d).

Section WithEnv.
Variable env : Env.

(** [SELECT AVG(avg_response_time), AVG(error_rate) FROM metrics
     WHERE endpoint = ? AND run_id != ?] scanned into two [float64]:
    over no rows both averages are NULL. *)
Definition select_history (endpoint runId : string) (d : DB)
  : result (float64 * float64) :=
  match history_rows endpoint runId d with
  | [] => Err ErrNull
  | rows => Ok (sql_avg env (map m_avg_response_time rows),
                sql_avg env (map m_error_rate rows))
  end.

Local Open Scope io_scope.

(** The body of [for rows.Next() { ... }] *)
Definition analyze_row (runId : string) (compareHistory : bool)
  (row : string * float64 * float64) (analysis : list line) : IO (list line) :=
  let '(endpoint, avgTime, errorRate) := row in
  let analysis :=
    (analysis ++ [LEndpoint endpoint; LAvgTime avgTime; LErrorRate errorRate])%list in
  r <- sql_query_row env SelectEndpointSLA (select_sla endpoint) ;;
  let analysis :=
    match r with
    | Ok (slaTime, slaError) =>
        let analysis :=
          if float64_gt avgTime (float64_of_int slaTime)
          then (analysis ++ [LSlaTime slaTime])%list else analysis in
        if float64_gt errorRate slaError
        then (analysis ++ [LSlaError slaError])%list else analysis
    | Err _ => analysis
    end in
  analysis <-
    (if compareHistory then
       r <- sql_query_row env SelectHistory (select_history endpoint runId) ;;
       match r with
       | Ok (histAvgTime, _) =>
           let timeDiff :=
             fmul (fdiv (fsub avgTime histAvgTime) histAvgTime) hundred in
           io_ret (analysis ++ [LHistory timeDiff])%list
       | Err _ => io_ret analysis
       end
     else io_ret analysis) ;;
  io_ret (analysis ++ [LBlank])%list.

Fixpoint analyze_rows (runId : string) (compareHistory : bool)
  (rows : list (string * float64 * float64)) (analysis : list line)
  : IO (list line) :=
  match rows with
  | [] => io_ret analysis
  | row :: rest =>
      analysis <- analyze_row runId compareHistory row analysis ;;
      analyze_rows runId compareHistory rest analysis
  end.

Local Open Scope go_scope.

(** [AnalyzeResultsTool.Handle] *)
Definition Handle (request : Request) : M ToolResult ToolResult :=
  match runId request with
  | None => return_ (ToolError "Missing required runId")
  | Some runId =>
  let compareHistory :=
    String.eqb (GetString (compareHistory request) "false") "true" in
  rows <~ sql_query env SelectMetrics (select_metrics runId) ;;
  match rows with
  | Err err => return_ (ToolError ("Failed to query metrics: " ++ err))
  | Ok rows =>
  defer (quietly (io_ret tt)) ;;   (* rows.Close() *)
  let analysis := [LTitle; LRun runId] in
  analysis <~ analyze_rows runId compareHistory rows analysis ;;
  return_ (ToolText (render analysis))
  end end.

End WithEnv.
End AnalyzeResults.

(** ** [setup_environment.go] *)

Module SetupEnvironment.

Record Request := { composePath : option string }.

Section WithEnv.
Variable env : Env.
(** The error of [yaml.Unmarshal], if any *)
Variable yaml_error : string -> option string.
(** The order in which the second [range compose.Services] visits the
    entries (Go fixes no order, and none between two loops over a map) *)
Variable range_again : list (string * Service) -> list (string * Service).

(** [for name, service := range compose.Services { ... }]: one [INSERT] per
    service; a failure is logged, a success counted *)
Fixpoint store_services (sessionId : Z) (svcs : list (string * Service))
  (servicesStored : Z) : IO Z :=
  match svcs with
  | [] => io_ret servicesStored
  | (name, service) :: rest =>
      let ports := Join (Ports service) "," in
      (r <- sql_exec env InsertService
              (fun _ => insert_service_row sessionId name (Image service) ports) ;;
       match r with
       | Err _ => store_services sessionId rest servicesStored
       | Ok _ => store_services sessionId rest (servicesStored + 1)%Z
       end)%io
  end.

(** [for name, service := range compose.Services { response += ... }] *)
Fixpoint list_services (svcs : list (string * Service)) (response : string)
  : string :=
  match svcs with
  | [] => response
  | (name, service) :: rest =>
      list_services rest
        (response ++ "  â€¢ " ++ name ++ " (" ++ Image service ++ ")" ++ nl)
  end.

Local Open Scope go_scope.

(** [SetupEnvironmentTool.Handle] *)
Definition Handle (request : Request) : M ToolResult ToolResult :=
  match composePath request with
  | None => return_ (ToolError "Missing required composePath")
  | Some composePath =>
  r <~ FetchComposeContent env composePath ;;
  match r with
  | Err err => return_ (ToolError err)
  | Ok content =>
  match yaml_error content with
  | Some err => return_ (ToolError ("Invalid compose file: " ++ err))
  | None =>
  let compose := yaml_services env content in
  r <~ StoreComposeFile env composePath content ;;
  match r with
  | Err err => return_ (ToolError ("Failed to store compose file: " ++ err))
  | Ok composeFileId =>
  now <~ time_now_unix env ;;
  let sessionName := "session-" ++ itoa now in
  r <~ sql_exec env InsertSession
         (fun _ => insert_test_session composeFileId sessionName "initialized") ;;
  match r with
  | Err err => return_ (ToolError ("Failed to create session: " ++ err))
  | Ok sessionId =>
  _ <~ store_services sessionId compose 0 ;;
  let response := "Test environment configured:" ++ nl in
  let response := response ++ "- Session ID: " ++ itoa sessionId ++ nl in
  let response := response ++ "- Source: " ++ composePath ++ nl in
  let response :=
    response ++ "- Services: " ++ itoa (Z.of_nat (List.length compose)) ++ nl in
  let response := list_services (range_again compose) response in
  return_ (ToolText response)
  end end end end end.

End WithEnv.
End SetupEnvironment.

(** ** [create_ui_test.go] *)

Module CreateUITest.

Record Request := {
  url : option string; instructions : option string;
  testName : option string }.

(** [SELECT id FROM test_sessions ORDER BY created_at DESC LIMIT 1] *)
Definition select_latest_session_id (d : DB) : result Z :=
  match select_latest_session d with
  | Ok (sessionId, _) => Ok sessionId
  | Err err => Err err
  end.

Section WithEnv.
Variable env : Env.
Variable ToLower : string -> string.
Local Open Scope go_scope.

(** [CreateUITestTool.Handle] *)
Definition Handle (request : Request) : M ToolResult ToolResult :=
  match url request with
  | None => return_ (ToolError "Missing required url")
  | Some url =>
  match instructions request with
  | None => return_ (ToolError "Missing required instructions")
  | Some instructions =>
  let testName := GetString (testName request) "ui-test" in
  r <~ sql_query_row env SelectLatestSession select_latest_session_id ;;
  match r with
  | Err _ =>
      return_ (ToolError "No active session. Run setup_test_environment first.")
  | Ok sessionId =>
  let script := Generator.generateK6UITest ToLower url instructions in
  r <~ sql_exec env InsertTest
         (fun _ => insert_test_row sessionId testName "browser" script) ;;
  match r with
  | Err err => return_ (ToolError ("Failed to store test: " ++ err))
  | Ok testId =>
  return_ (ToolText
    ("Created UI test '" ++ testName ++ "' with ID: " ++ itoa testId ++ nl ++ nl ++
     "Instructions parsed:" ++ nl ++ instructions))
  end end end end.

End WithEnv.
End CreateUITest.

(** ** Log levels (package [main]) *)

Module Logging.

Definition LogLevel : Type := string.
Definition LogLevelDEBUG : LogLevel := "DEBUG".
Definition LogLevelINFO : LogLevel := "INFO".
Definition LogLevelWARN : LogLevel := "WARN".
Definition LogLevelERROR : LogLevel := "ERROR".
Definition LogLevelFATAL : LogLevel := "FATAL".

(** The level [InitializeLogging] leaves in [logLevel], from the value of
    [MCP_LOG_LEVEL] (empty when unset); the variable starts as [INFO]. *)
Definition configured (MCP_LOG_LEVEL : string) : LogLevel :=
  if negb (String.eqb MCP_LOG_LEVEL "") then MCP_LOG_LEVEL else LogLevelINFO.

(** The map literal of [shouldLog] *)
Definition levels : list (LogLevel * Z) :=
  [ (LogLevelDEBUG, 0%Z); (LogLevelINFO, 1%Z); (LogLevelWARN, 2%Z);
    (LogLevelERROR, 3%Z); (LogLevelFATAL, 4%Z) ].

(** [m[key]] on a [map[LogLevel]int]: the zero value for a missing key *)
Fixpoint index (m : list (LogLevel * Z)) (key : LogLevel) : Z :=
  match m with
  | [] => 0%Z
  | (k, v) :: rest => if String.eqb k key then v else index rest key
  end.

(** [shouldLog], with the package variable [logLevel] as a parameter *)
Definition shouldLog (logLevel level : LogLevel) : bool :=
  Z.geb (index levels level) (index levels logLevel).

(** The level [LogDatabaseOperation] logs at *)
Definition database_level (err : option string) : LogLevel :=
  match err with Some _ => LogLevelERROR | None => LogLevelDEBUG end.

End Logging.

(* ===================================================================== *)
(** * A sample environment, for running the handlers                     *)
(* ===================================================================== *)

Module Sample.

Definition compose_yml : string :=
"services:
  web:
    image: nginx
    ports:
      - '8080:8080'
".

Definition web : Service :=
  {| Image := "nginx"; Ports := ["8080:8080"]; Environment := [];
     DependsOn := [] |}.

(** The mean as a sum divided by the count *)
Definition mean (xs : list float64) : float64 :=
  SFdiv 53 1024
    (fold_left (SFadd 53 1024) xs (S754_zero false))
    (float64_of_int (Z.of_nat (List.length xs))).

(** One service [web] on port 8080 that serves [/openapi.json]; the
    compose file is available under a URL and under a path; every command
    and every statement succeeds; the clock stands at 1700000000. *)
Definition env : Env :=
  {| yaml_services := fun _ => [("web", web)];
     next_range := fun svcs => svcs;
     TempDir := "/tmp";
     http_get := fun url =>
       if String.eqb url "https://example.com/docker-compose.yml"
       then HttpResp 200 (Ok compose_yml)
       else if String.eqb url "http://localhost:8080/openapi.json"
       then HttpResp 200 (Ok "{}")
       else HttpResp 404 (Ok "");
     read_file := fun path =>
       if String.eqb path "./docker-compose.yml" then Ok compose_yml
       else Err ("open " ++ path ++ ": no such file or directory");
     mkdir_all := fun _ => None;
     write_file := fun _ _ => None;
     create_temp := fun pattern => Ok ("/tmp/" ++ pattern);
     exec_result := fun _ _ => (None, "done");
     sql_fails := fun _ => None;
     sql_timestamp := fun _ => 1700000000%Z;
     sql_avg := mean;
     now_unix := fun _ => 1700000000%Z |}.

(** The same, except that command [name] exits with a non-zero status *)
Definition failing_command (name : string) (e : Env) : Env :=
  {| yaml_services := yaml_services e; next_range := next_range e;
     TempDir := TempDir e;
     http_get := http_get e; read_file := read_file e;
     mkdir_all := mkdir_all e; write_file := write_file e;
     create_temp := create_temp e;
     exec_result := fun cmd args =>
       if String.eqb cmd name then (Some "exit status 1", "boom")
       else exec_result e cmd args;
     sql_fails := sql_fails e; sql_timestamp := sql_timestamp e;
     sql_avg := sql_avg e; now_unix := now_unix e |}.

(** The same, except that the store rejects statement number [k] *)
Definition failing_statement (k : nat) (e : Env) : Env :=
  {| yaml_services := yaml_services e; next_range := next_range e;
     TempDir := TempDir e;
     http_get := http_get e; read_file := read_file e;
     mkdir_all := mkdir_all e; write_file := write_file e;
     create_temp := create_temp e; exec_result := exec_result e;
     sql_fails := fun n =>
       if Nat.eqb n k then Some "database is locked" else sql_fails e n;
     sql_timestamp := sql_timestamp e; sql_avg := sql_avg e;
     now_unix := now_unix e |}.

(** The same, except that the clock stands at [t] *)
Definition at_second (t : Z) (e : Env) : Env :=
  {| yaml_services := yaml_services e; next_range := next_range e;
     TempDir := TempDir e;
     http_get := http_get e; read_file := read_file e;
     mkdir_all := mkdir_all e; write_file := write_file e;
     create_temp := create_temp e; exec_result := exec_result e;
     sql_fails := sql_fails e; sql_timestamp := sql_timestamp e;
     sql_avg := sql_avg e; now_unix := fun _ => t |}.

(** A store after [setup_test_environment]: one compose file, one session,
    one service, and one generated test *)
Definition db : DB :=
  {| compose_files :=
       [{| cf_id := 1; cf_source_url := "./docker-compose.yml";
           cf_content := compose_yml;
           cf_hash := MD5.EncodeToString (MD5.Sum compose_yml) |}];
     test_sessions :=
       [{| ts_id := 1; ts_compose_file_id := 1;
           ts_session_name := "session-1700000000";
           ts_completed_at := None; ts_status := "initialized" |}];
     services :=
       [{| sv_id := 1; sv_session_id := 1; sv_name := "web";
           sv_image := "nginx"; sv_ports := "8080:8080" |}];
     api_specs := []; endpoints := [];
     tests :=
       [{| t_id := 1; t_session_id := 1; t_name := "api-test";
           t_type := "load";
           t_script := Generator.generateK6APITest "1" "" "load" |}];
     test_runs := []; metrics := [] |}.

(** [db] after one run whose sample for [/api/endpoint] has the given
    average response time and an error rate of 0.02, with one endpoint
    record carrying the given thresholds *)
Definition analyzed_db (avgTime : float64) (slaTime : option Z)
  (slaError : option float64) : DB :=
  {| compose_files := compose_files db; test_sessions := test_sessions db;
     services := services db; api_specs := api_specs db;
     endpoints :=
       [{| ep_id := 1; ep_spec_id := 1; ep_path := "/api/endpoint";
           ep_method := "GET"; ep_sla_response_time := slaTime;
           ep_sla_error_rate := slaError |}];
     tests := tests db;
     test_runs :=
       [{| tr_id := 1; tr_test_id := 1; tr_completed_at := Some 1700000000%Z;
           tr_vus := 10; tr_duration := "30s"; tr_results := Some "done" |}];
     metrics :=
       [{| m_id := 1; m_run_id := 1; m_endpoint := "/api/endpoint";
           m_avg_response_time := avgTime;
           m_min_response_time := lit 50 0;
           m_max_response_time := lit 900 0;
           m_error_rate := lit 5764607523034235 (-58);
           m_requests_per_second := lit 171 (-1) |}] |}.

End Sample.

(* ===================================================================== *)
(** * Vocabulary of the properties                                       *)
(* ===================================================================== *)


(** The world after one more event, and after one more SQL statement *)
Definition logged (e : event) (w : World) : World :=
  {| db := db w; trace := trace w ++ [e]; sql_seq := sql_seq w;
     clock_seq := clock_seq w |}.

Definition stated (s : stmt) (ok : bool) (d : DB) (w : World) : World :=
  {| db := d; trace := trace w ++ [EvSql s ok]; sql_seq := S (sql_seq w);
     clock_seq := clock_seq w |}.

Definition is_url (source : string) : bool :=
  HasPrefix source "http://" || HasPrefix source "https://".

Definition is_err {A} (r : result A) : Prop := exists msg, r = Err msg.

Definition has_hash (content : string) (r : compose_file_row) : bool :=
  String.eqb (cf_hash r) (MD5.EncodeToString (MD5.Sum content)).

(** The rows of [compose_files] that carry the fingerprint of [content] *)
Definition rows_of (content : string) (d : DB) : list compose_file_row :=
  filter (has_hash content) (compose_files d).

(** The project names under which an operation brought a runtime up, and
    the directories it made *)
Definition project_names (tr : list event) : list string :=
  flat_map (fun e => match e with
                     | EvExec cmd args _ =>
                         if String.eqb cmd "docker" && String.eqb (nth 5 args "") "up"
                         then [nth 4 args ""] else []
                     | _ => []
                     end) tr.

Definition working_dirs (tr : list event) : list string :=
  flat_map (fun e => match e with EvMkdirAll dir => [dir] | _ => [] end) tr.

(** The name and the directory [WriteComposeToTemp] makes for a session at
    a second *)
Definition temp_name (sessionId now : Z) : string :=
  "k6-test-" ++ itoa sessionId ++ "-" ++ itoa now.

Definition temp_dir (env : Env) (sessionId now : Z) : string :=
  filepath_Join (TempDir env) ("k6-test-" ++ itoa sessionId ++ "-" ++ itoa now).

Definition discover_request : DiscoverSpecs.Request :=
  {| DiscoverSpecs.specPaths := None; DiscoverSpecs.autoDiscover := None |}.

Definition auto_request : TestApplication.Request :=
  {| TestApplication.composeSource := Some "./docker-compose.yml";
     TestApplication.testType := Some "quick";
     TestApplication.endpoints := None |}.

Definition run_request : RunPerformanceTest.Request :=
  {| RunPerformanceTest.testId := Some "1"; RunPerformanceTest.vus := None;
     RunPerformanceTest.duration := None |}.

Section DiscoveryVocabulary.
Import DiscoverSpecs.
Variable env : Env.

(** A probe is accepted when the request succeeds with status 200. *)
Definition answers_200 (url : string) : bool :=
  match http_get env url with
  | HttpResp status _ => Z.eqb status 200
  | HttpFail _ => false
  end.

(** The base URL of a service: the host segment of its first port mapping,
    when that mapping is not empty *)
Definition base_url (row : service_row) : option string :=
  match Split (sv_ports row) "," with
  | first :: _ =>
      if String.eqb first "" then None
      else Some ("http://localhost:" ++ hd "" (Split first ":"))
  | [] => None
  end.

(** The URLs probed for a service, in the order of [commonPaths] *)
Definition candidates (row : service_row) : list string :=
  match base_url row with
  | Some baseURL => map (fun path => baseURL ++ path) commonPaths
  | None => []
  end.

(** The specs of a list of services: per service, in service order, the
    candidates that answer 200, in path order *)
Definition specs_of (rows : list service_row) : list string :=
  flat_map (fun row => filter answers_200 (candidates row)) rows.

End DiscoveryVocabulary.

Section AnalyzerVocabulary.
Import AnalyzeResults.
Variable env : Env.

(** The SLA lines of a sample, read off the store *)
Definition sla_lines (d : DB) (endpoint : string) (avgTime errorRate : float64)
  : list line :=
  match select_sla endpoint d with
  | Ok (slaTime, slaError) =>
      (if float64_gt avgTime (float64_of_int slaTime)
       then [LSlaTime slaTime] else []) ++
      (if float64_gt errorRate slaError then [LSlaError slaError] else [])
  | Err _ => []
  end.

(** The historical line of a sample, read off the store *)
Definition history_lines (d : DB) (runId : string) (compareHistory : bool)
  (endpoint : string) (avgTime : float64) : list line :=
  if compareHistory then
    match select_history env endpoint runId d with
    | Ok (histAvgTime, _) =>
        [LHistory (fmul (fdiv (fsub avgTime histAvgTime) histAvgTime) hundred)]
    | Err _ => []
    end
  else [].

(** The section of the report for one sample *)
Definition sample_lines (d : DB) (runId : string) (compareHistory : bool)
  (row : string * float64 * float64) : list line :=
  let '(endpoint, avgTime, errorRate) := row in
  [LEndpoint endpoint; LAvgTime avgTime; LErrorRate errorRate] ++
  sla_lines d endpoint avgTime errorRate ++
  history_lines d runId compareHistory endpoint avgTime ++ [LBlank].

(** The whole report *)
Definition report_lines (d : DB) (runId : string) (compareHistory : bool)
  : list line :=
  [LTitle; LRun runId] ++
  flat_map (sample_lines d runId compareHistory) (select_metrics runId d).

Definition is_sla_line (l : line) : bool :=
  match l with LSlaTime _ | LSlaError _ => true | _ => false end.

Definition is_history_line (l : line) : bool :=
  match l with LHistory _ => true | _ => false end.

End AnalyzerVocabulary.

Definition analyze_request (compare : option string) : AnalyzeResults.Request :=
  {| AnalyzeResults.runId := Some "1"; AnalyzeResults.compareHistory := compare |}.

(** The sample of run 1 in [Sample.analyzed_db] *)
Definition sample_of (avgTime : float64) : string * float64 * float64 :=
  ("/api/endpoint", avgTime, lit 5764607523034235 (-58)).

(** The events of the materialize / bring-up / tear-down bracket: the
    [docker] commands and the removal of the working directory *)
Definition critical (e : event) : bool :=
  match e with
  | EvExec cmd _ _ => String.eqb cmd "docker"
  | EvRemoveAll _ => true
  | _ => false
  end.

Definition crit (w : World) : list event := filter critical (trace w).

Definition up_event (composePath projectName : string) (ok : bool) : event :=
  EvExec "docker" (compose_args composePath projectName ["up"; "-d"]) ok.

Definition down_event (composePath projectName : string) (ok : bool) : event :=
  EvExec "docker" (compose_args composePath projectName ["down"; "-v"]) ok.

(** What an operation may leave of the bracket: nothing (it stopped before
    the runtime was materialized); a failed bring-up and the removal of the
    directory; or a successful bring-up, one tear-down with volume removal,
    and then the removal of the directory. *)
Definition bracket (evs : list event) : Prop :=
  evs = [] \/
  (exists p prj, evs = [up_event p prj false; EvRemoveAll (filepath_Dir p)]) \/
  (exists p prj ok,
     evs = [up_event p prj true; down_event p prj ok;
            EvRemoveAll (filepath_Dir p)]).

(** A system call adds these bracket events, whatever the world *)
Definition io_emits {A} (m : IO A) (evs : list event) : Prop :=
  forall w, crit (fst (m w)) = (crit w ++ evs)%list.

Definition d_emits (d : deferred) (evs : list event) : Prop :=
  forall w, crit (fst (d w)) = (crit w ++ evs)%list.

Definition stack_emits (ds : list deferred) (evs : list event) : Prop :=
  forall w p, crit (fst (unwind ds w p)) = (crit w ++ evs)%list.

(** A function body, run to its end with the deferred calls it finds and
    those it adds, contributes bracket events [evs] with [Q evs], placed
    between what happened before and what the calls deferred before it
    contribute. *)
Definition Post {R} (m : M R R) (Q : list event -> Prop) : Prop :=
  forall w ds tail, stack_emits ds tail ->
    exists evs, crit (fst (finish (m w ds))) = (crit w ++ evs ++ tail)%list /\
                Q evs.

Definition exited_ok (r : option string * string) : bool :=
  match fst r with None => true | Some _ => false end.

(** The four operations that bring the runtime up, as [main.go] registers
    them *)
Inductive operation :=
| discover_api_specs (request : DiscoverSpecs.Request)
| run_performance_test (request : RunPerformanceTest.Request)
| test_application (request : TestApplication.Request)
| quick_performance_test (request : QuickPerformanceTest.Request).

Definition handler (env : Env) (op : operation) : M ToolResult ToolResult :=
  match op with
  | discover_api_specs request => DiscoverSpecs.Handle env request
  | run_performance_test request => RunPerformanceTest.Handle env request
  | test_application request => TestApplication.Handle env request
  | quick_performance_test request => QuickPerformanceTest.Handle env request
  end.

Definition is_down (e : event) : bool :=
  match e with
  | EvExec cmd args _ =>
      String.eqb cmd "docker" && String.eqb (nth 5 args "") "down" &&
      String.eqb (nth 6 args "") "-v"
  | _ => false
  end.

Definition is_k6 (e : event) : bool :=
  match e with EvExec cmd _ _ => String.eqb cmd "k6" | _ => false end.

Definition is_run_insert (e : event) : bool :=
  match e with EvSql InsertTestRun true => true | _ => false end.

Definition is_run_update (e : event) : bool :=
  match e with EvSql UpdateTestRun _ => true | _ => false end.

(** Every event that satisfies [q] comes after one that satisfies [p]. *)
Fixpoint preceded (p q : event -> bool) (seen : bool) (tr : list event) : bool :=
  match tr with
  | [] => true
  | e :: rest => (negb (q e) || seen) && preceded p q (seen || p e) rest
  end.

(** The runs of the load tool in a trace: arguments and success *)
Fixpoint k6_runs (tr : list event) : list (list string * bool) :=
  match tr with
  | [] => []
  | EvExec cmd args ok :: rest =>
      if String.eqb cmd "k6" then (args, ok) :: k6_runs rest else k6_runs rest
  | _ :: rest => k6_runs rest
  end.

(** The life of the audit row of a run, read off the operation's trace,
    its outcome and the store it leaves *)
Definition lifecycle (env : Env) (d : DB) (res : World * outcome ToolResult)
  : Prop :=
  let tr := trace (fst res) in
  let runs := test_runs (db (fst res)) in
  (forall before args ok after,
     tr = (before ++ EvExec "k6" args ok :: after)%list ->
     In (EvSql InsertTestRun true) before) /\
  (forall args, In (EvExec "k6" args false) tr ->
     (exists err output,
        exec_result env "k6" args = (Some err, output) /\
        snd res = Returned (ToolError
                    ("Test execution failed: " ++ err ++ nl ++ output))) /\
     filter is_run_update tr = [] /\
     exists row, runs = (test_runs d ++ [row])%list /\
                 tr_completed_at row = None /\ tr_results row = None) /\
  (forall args, In (EvExec "k6" args true) tr ->
     List.length (filter is_run_update tr) = 1 /\
     (In (EvSql UpdateTestRun true) tr ->
      exists row now,
        runs = (test_runs d ++ [row])%list /\
        tr_completed_at row = Some now /\
        tr_results row = Some (snd (exec_result env "k6" args)))).

(** The row [run_performance_test] inserts for a run, and the row once the
    run is completed *)
Definition new_run (d : DB) (testId : string) (vus : Z) (duration : string)
  : test_run_row :=
  {| tr_id := next_id tr_id (test_runs d);
     tr_test_id := RunPerformanceTest.ParseInt testId;
     tr_completed_at := None; tr_vus := vus; tr_duration := duration;
     tr_results := None |}.

Definition completed_run (row : test_run_row) (now : Z) (output : string)
  : test_run_row :=
  {| tr_id := tr_id row; tr_test_id := tr_test_id row;
     tr_completed_at := Some now; tr_vus := tr_vus row;
     tr_duration := tr_duration row; tr_results := Some output |}.

(** What [run_performance_test] needs before it comes to the run: the
    request names a test, the store serves the two lookups and finds the
    test and the compose content of its session, the working directory and
    the compose file are written, the runtime comes up, and the file for
    the script is created. *)
Definition ready_to_run (env : Env) (d : DB)
  (request : RunPerformanceTest.Request)
  (testId script content tmpFile : string) (sessionId : Z) : Prop :=
  let dir := temp_dir env sessionId (now_unix env 0) in
  let file := filepath_Join dir "docker-compose.yml" in
  RunPerformanceTest.testId request = Some testId /\
  sql_fails env 0 = None /\ sql_fails env 1 = None /\
  RunPerformanceTest.select_test testId d = Ok (script, sessionId) /\
  RunPerformanceTest.select_session_compose sessionId d = Ok content /\
  mkdir_all env dir = None /\
  write_file env file content = None /\
  fst (exec_result env "docker"
         (compose_args file ("perftest-" ++ itoa (now_unix env 1)) ["up"; "-d"]))
    = None /\
  create_temp env "k6-test-*.js" = Ok tmpFile.

(** The run of an operation that is ready.  The INSERT of the run's row is
    the third statement of the operation, the UPDATE the fourth.  When the
    store rejects the INSERT, the operation panics and the load tool is not
    invoked.  Otherwise the load tool is invoked once, right after the
    INSERT, for the script's file and the results file of the new row; on a
    non-zero exit the answer is the error with the tool's output, no UPDATE
    is issued and the new row stands as inserted; on exit zero the answer
    names the run, one UPDATE is issued, and the new row carries the time
    of the UPDATE and the tool's output when the store accepts the UPDATE,
    and stands as inserted when it does not. *)
Definition executed (env : Env) (d : DB) (request : RunPerformanceTest.Request)
  (testId tmpFile : string) (res : World * outcome ToolResult) : Prop :=
  let vus := GetInt (RunPerformanceTest.vus request) 10 in
  let duration := GetString (RunPerformanceTest.duration request) "30s" in
  let row := new_run d testId vus duration in
  let args :=
    RunPerformanceTest.k6_args vus duration
      ("/tmp/k6-results-" ++ itoa (tr_id row) ++ ".json") tmpFile in
  let tr := trace (fst res) in
  let runs := test_runs (db (fst res)) in
  match sql_fails env 2 with
  | Some _ =>
      In (EvSql InsertTestRun false) tr /\ k6_runs tr = [] /\
      snd res = Panicked nil_deref /\ runs = test_runs d
  | None =>
      (exists before after,
         tr = (before ++ EvSql InsertTestRun true ::
               EvExec "k6" args (exited_ok (exec_result env "k6" args)) ::
               after)%list) /\
      k6_runs tr = [(args, exited_ok (exec_result env "k6" args))] /\
      match exec_result env "k6" args with
      | (Some err, output) =>
          snd res = Returned (ToolError
                      ("Test execution failed: " ++ err ++ nl ++ output)) /\
          filter is_run_update tr = [] /\
          runs = (test_runs d ++ [row])%list
      | (None, output) =>
          snd res = Returned (ToolText
            ("Test completed. Run ID: " ++ itoa (tr_id row) ++ nl ++ nl ++
             "Containers have been stopped and removed." ++ nl ++ nl ++ output)) /\
          match sql_fails env 3 with
          | None =>
              filter is_run_update tr = [EvSql UpdateTestRun true] /\
              runs = (test_runs d ++
                      [completed_run row (sql_timestamp env 3) output])%list
          | Some _ =>
              filter is_run_update tr = [EvSql UpdateTestRun false] /\
              runs = (test_runs d ++ [row])%list
          end
      end
  end.

(** The numbered list of the answer *)
Fixpoint numbered (i : Z) (specs : list string) : string :=
  match specs with
  | [] => ""
  | spec :: rest => itoa (i + 1) ++ ". " ++ spec ++ nl ++ numbered (i + 1) rest
  end.

Definition listing (specs : list string) : string :=
  let header :=
    "Discovered " ++ itoa (Z.of_nat (List.length specs)) ++
    " API specifications:" ++ nl in
  (header ++ numbered 0 specs) ++ nl ++ "Containers have been stopped.".

(* ===================================================================== *)
(** * Vocabulary of the further properties                               *)
(* ===================================================================== *)

(** ** Log levels *)

(** One of the five names of the map literal of [shouldLog] *)
Definition known_level (l : Logging.LogLevel) : bool :=
  existsb (String.eqb l) (map fst Logging.levels).

(** ** Compose files and working directories *)

Definition fingerprint (content : string) : string :=
  MD5.EncodeToString (MD5.Sum content).

(** Path elements: [slash_free] has no separator; [plain] is a name other
    than [.] and [..]; [kept_elem] is what cleaning may keep. *)
Fixpoint slash_free (s : string) : bool :=
  match s with
  | EmptyString => true
  | String c s' => negb (Ascii.eqb c "/") && slash_free s'
  end.

Definition plain (e : string) : bool :=
  negb (String.eqb e "") && negb (String.eqb e ".") &&
  negb (String.eqb e "..") && slash_free e.

Definition kept_elem (e : string) : bool :=
  negb (String.eqb e "") && negb (String.eqb e ".") && slash_free e.

(** The elements cleaning has kept, the most recent first: [..] stands
    only at the start of a relative path. *)
Fixpoint stack_ok (rooted : bool) (kept : list string) : bool :=
  match kept with
  | [] => true
  | top :: below =>
      kept_elem top && stack_ok rooted below &&
      (if String.eqb top ".."
       then negb rooted && match below with
                           | [] => true
                           | b :: _ => String.eqb b ".."
                           end
       else true)
  end.

Definition is_remove_all (e : event) : bool :=
  match e with EvRemoveAll _ => true | _ => false end.

(** An environment whose file system refuses every write *)
Definition read_only_disk (e : Env) : Env :=
  {| yaml_services := yaml_services e; next_range := next_range e;
     TempDir := TempDir e;
     http_get := http_get e; read_file := read_file e;
     mkdir_all := mkdir_all e;
     write_file := fun _ _ => Some "no space left on device";
     create_temp := create_temp e; exec_result := exec_result e;
     sql_fails := sql_fails e; sql_timestamp := sql_timestamp e;
     sql_avg := sql_avg e; now_unix := now_unix e |}.

(** ** Metrics *)

(** The sample [ParseAndStoreMetrics] stores for a run *)
Definition constant_sample (id runId : Z) : metric_row :=
  {| m_id := id; m_run_id := runId; m_endpoint := "/api/endpoint";
     m_avg_response_time := lit 301 (-1);
     m_min_response_time := lit 50 0;
     m_max_response_time := lit 500 0;
     m_error_rate := lit 5764607523034235 (-58);
     m_requests_per_second := lit 171 (-1) |}.

Definition metrics_stored (e : event) : bool :=
  match e with EvSql InsertMetrics true => true | _ => false end.

(** What a call of [run_performance_test] does to [metrics] *)
Definition run_metrics (d : DB) (res : World * outcome ToolResult) : Prop :=
  let tr := trace (fst res) in
  metrics (db (fst res)) =
    (metrics d ++
     if existsb metrics_stored tr
     then [constant_sample (next_id m_id (metrics d))
                           (next_id tr_id (test_runs d))]
     else [])%list /\
  (existsb metrics_stored tr = true ->
   exists args, In (EvExec "k6" args true) tr).

(** ** Answers *)

(** A call returns [r], leaving the trace [events] and the store [d] *)
Definition returned_with (events : list event) (r : ToolResult) (d : DB)
  (res : World * outcome ToolResult) : Prop :=
  snd res = Returned r /\ trace (fst res) = events /\ db (fst res) = d.

Definition empty_analysis (runId : string) : string :=
  "# Performance Analysis" ++ nl ++ nl ++ "## Run ID: " ++ runId ++ nl ++ nl.

Definition ui_answer (testName : string) (testId : Z) (instructions : string)
  : string :=
  "Created UI test '" ++ testName ++ "' with ID: " ++ itoa testId ++ nl ++ nl ++
  "Instructions parsed:" ++ nl ++ instructions.

Definition api_answer (testType : string) (testId : Z) (script : string)
  : string :=
  "Generated " ++ testType ++ " test with ID: " ++ itoa testId ++ nl ++ nl ++
  "Script preview:" ++ nl ++ substring 0 200 script ++ "...".

Definition setup_answer (sessionId : Z) (source : string)
  (compose listed : list (string * Service)) : string :=
  fold_left
    (fun response svc =>
       response ++ "  â€¢ " ++ fst svc ++ " (" ++ Image (snd svc) ++ ")" ++ nl)
    listed
    ("Test environment configured:" ++ nl ++
     "- Session ID: " ++ itoa sessionId ++ nl ++
     "- Source: " ++ source ++ nl ++
     "- Services: " ++ itoa (Z.of_nat (List.length compose)) ++ nl).

(** ** Services *)

(** The rows one loop over the services of a compose file adds *)
Fixpoint service_rows (sessionId : Z) (svcs : list (string * Service))
  (rows : list service_row) : list service_row :=
  match svcs with
  | [] => rows
  | (name, service) :: rest =>
      service_rows sessionId rest
        (rows ++ [{| sv_id := next_id sv_id rows; sv_session_id := sessionId;
                     sv_name := name; sv_image := Image service;
                     sv_ports := Join (Ports service) "," |}])
  end.

Definition set_services (rows : list service_row) (d : DB) : DB :=
  {| compose_files := compose_files d; test_sessions := test_sessions d;
     services := rows; api_specs := api_specs d; endpoints := endpoints d;
     tests := tests d; test_runs := test_runs d; metrics := metrics d |}.

(** A service as the compose file declares it, and as a row records it *)
Definition declared (sessionId : Z) (svc : string * Service)
  : Z * string * string * string :=
  (sessionId, fst svc, Image (snd svc), Join (Ports (snd svc)) ",").

Definition recorded (r : service_row) : Z * string * string * string :=
  (sv_session_id r, sv_name r, sv_image r, sv_ports r).

(** The probes of a service that was declared with the port mappings
    [ports] *)
Definition probes_of_ports (ports : list string) : list event :=
  match ports with
  | [] => []
  | p :: _ =>
      let first := hd "" (Split p ",") in
      if String.eqb first "" then []
      else map (fun path =>
                  EvHttpGet ("http://localhost:" ++ hd "" (Split first ":") ++ path))
               DiscoverSpecs.commonPaths
  end.

(** ** Discovery *)

Definition is_http_get (e : event) : bool :=
  match e with EvHttpGet _ => true | _ => false end.

Definition not_http_get (e : event) : bool := negb (is_http_get e).


(** The specs a request names itself *)
Definition named_specs (specPaths : string) : list string :=
  if String.eqb specPaths "" then [] else map TrimSpace (Split specPaths ",").

(** A call answers [text], having issued the requests [gets] *)
Definition answers_after (text : string) (gets : list event)
  (res : World * outcome ToolResult) : Prop :=
  snd res = Returned (ToolText text) /\
  filter is_http_get (trace (fst res)) = gets.

(** ** The tools together *)

(** The tools [registerTools] installs whose handlers are embedded here *)
Inductive tool :=
| setup_test_environment (request : SetupEnvironment.Request)
| discover_specs (request : DiscoverSpecs.Request)
| generate_api_tests (request : GenerateAPITests.Request)
| create_ui_test (request : CreateUITest.Request)
| run_test (request : RunPerformanceTest.Request)
| analyze_results (request : AnalyzeResults.Request)
| test_app (request : TestApplication.Request)
| quick_test (request : QuickPerformanceTest.Request).

(** What the handlers take from outside besides [Env] *)
Record Lib := {
  yaml_error : string -> option string;
  range_again : list (string * Service) -> list (string * Service);
  Format : Z -> string -> string;
  ToLower : string -> string }.

Definition tool_handler (env : Env) (lib : Lib) (t : tool)
  : M ToolResult ToolResult :=
  match t with
  | setup_test_environment request =>
      SetupEnvironment.Handle env (yaml_error lib) (range_again lib) request
  | discover_specs request => DiscoverSpecs.Handle env request
  | generate_api_tests request =>
      GenerateAPITests.Handle env (Format lib) request
  | create_ui_test request => CreateUITest.Handle env (ToLower lib) request
  | run_test request => RunPerformanceTest.Handle env request
  | analyze_results request => AnalyzeResults.Handle env request
  | test_app request => TestApplication.Handle env request
  | quick_test request => QuickPerformanceTest.Handle env request
  end.

Definition is_run_test (t : tool) : bool :=
  match t with run_test _ => true | _ => false end.

Definition is_test_app (t : tool) : bool :=
  match t with test_app _ => true | _ => false end.

(** The tools that work on the store alone *)
Definition store_tool (t : tool) : bool :=
  match t with
  | setup_test_environment _ | generate_api_tests _ | create_ui_test _
  | analyze_results _ => true
  | _ => false
  end.

(** A library for running the handlers: every file decodes, the second
    loop visits the services in the order of the first, the clock shows
    2023-11-14 22:13:20, and text is ASCII *)
Definition sample_lib : Lib :=
  {| yaml_error := fun _ => None;
     range_again := fun svcs => svcs;
     Format := fun _ _ => "20231114-221320";
     ToLower := ToLowerASCII |}.

(** ** What a call keeps *)

Section KeepsVocabulary.
Variable allowed : event -> bool.
Variable rel : DB -> DB -> Prop.

(** From [w] to [w'] the store moved along [rel] and only allowed events
    were added to the trace. *)
Definition advances (w w' : World) : Prop :=
  rel (db w) (db w') /\
  exists evs, trace w' = (trace w ++ evs)%list /\ forallb allowed evs = true.

Definition io_keeps {A} (m : IO A) : Prop :=
  forall w, advances w (fst (m w)).

Definition d_keeps (d : deferred) : Prop :=
  forall w, advances w (fst (d w)).

(** A body keeps the frame when it advances the world and defers only
    calls that do, given that the calls deferred before it do. *)
Definition m_keeps {R A} (m : M R A) : Prop :=
  forall w ds, Forall d_keeps ds ->
    advances w (fst (fst (m w ds))) /\ Forall d_keeps (snd (fst (m w ds))).

Definition sql_allowed (s : stmt) : Prop :=
  allowed (EvSql s true) = true /\ allowed (EvSql s false) = true.

Definition run_keeps {A} (run : Z -> DB -> DB * A) : Prop :=
  forall t d, rel d (fst (run t d)).

End KeepsVocabulary.

Definition any_event (e : event) : bool := true.

Definition anything (d d' : DB) : Prop := True.

Definition extends {R} (l l' : list R) : Prop := exists t, l' = (l ++ t)%list.

(** The columns of a session and of a run that no statement updates *)
Definition session_key (r : session_row) : Z * Z * string :=
  (ts_id r, ts_compose_file_id r, ts_session_name r).

Definition run_key (r : test_run_row) : Z * Z * Z * string :=
  (tr_id r, tr_test_id r, tr_vus r, tr_duration r).

(** The store only grows: rows are appended; the rows of [compose_files],
    [services], [api_specs], [tests] and [metrics] never change, those of
    [test_sessions] and [test_runs] keep their keys, and [endpoints] is
    never written. *)
Definition grows (d d' : DB) : Prop :=
  extends (compose_files d) (compose_files d') /\
  extends (map session_key (test_sessions d)) (map session_key (test_sessions d')) /\
  extends (services d) (services d') /\
  extends (api_specs d) (api_specs d') /\
  endpoints d' = endpoints d /\
  extends (tests d) (tests d') /\
  extends (map run_key (test_runs d)) (map run_key (test_runs d')) /\
  extends (metrics d) (metrics d').

Definition metrics_kept (d d' : DB) : Prop := metrics d' = metrics d.

(** A query of [analyze_results] *)
Definition analysis_query (e : event) : bool :=
  match e with
  | EvSql SelectMetrics _ | EvSql SelectEndpointSLA _ | EvSql SelectHistory _ => true
  | _ => false
  end.

(** A statement, or the reading of the compose source *)
Definition statement_or_read (e : event) : bool :=
  match e with
  | EvSql _ _ | EvHttpGet _ | EvReadFile _ => true
  | _ => false
  end.

Definition session_update (e : event) : bool :=
  match e with EvSql UpdateSession _ => true | _ => false end.

Definition not_session_update (e : event) : bool := negb (session_update e).

(** A session that was never completed *)
Definition open_session (r : session_row) : Prop :=
  ts_completed_at r = None /\
  (ts_status r = "initialized" \/ ts_status r = "running").

Definition sessions_open (d d' : DB) : Prop :=
  exists l, test_sessions d' = (test_sessions d ++ l)%list /\
            Forall open_session l.

(** The results of the runs are kept, and new runs have none *)
Definition results_kept (d d' : DB) : Prop :=
  exists l, map tr_results (test_runs d') =
            (map tr_results (test_runs d) ++ l)%list /\
            Forall (fun r => r = None) l.

Definition only_session_added (d d' : DB) : Prop :=
  services d' = services d /\ api_specs d' = api_specs d /\
  endpoints d' = endpoints d /\ tests d' = tests d /\
  test_runs d' = test_runs d /\ metrics d' = metrics d.

(** The elements of a list up to and including the first that satisfies
    [f] *)
Fixpoint until_first {A} (f : A -> bool) (l : list A) : list A :=
  match l with
  | [] => []
  | x :: rest => if f x then [x] else x :: until_first f rest
  end.

(* ===================================================================== *)
(** * Properties                                                         *)
(* ===================================================================== *)

(** ** Byte strings *)

Lemma append_assoc (a b c : string) : (a ++ b) ++ c = a ++ (b ++ c).
Proof.
  induction a as [|x a IH]; simpl; [reflexivity | now rewrite IH].
Qed.

Lemma append_nil_r (a : string) : a ++ "" = a.
Proof.
  induction a as [|x a IH]; simpl; [reflexivity | now rewrite IH].
Qed.

Lemma length_append (a b : string) :
  String.length (a ++ b) = String.length a + String.length b.
Proof.
  induction a as [|c a IH]; simpl; [reflexivity | now rewrite IH].
Qed.

Lemma Split_nonempty (s : string) (sep : ascii) : Split s sep <> [].
Proof.
  induction s as [|c s IH]; cbn; [discriminate|].
  destruct (Ascii.eqb c sep); [discriminate|].
  destruct (Split s sep); [contradiction | discriminate].
Qed.

(** [strings.TrimSpace] removes Unicode white space on both sides (here a
    no-break space U+00A0 in front, an em space U+2003 and a line feed
    behind), keeps white space inside, and stops at a byte that starts no
    rune. *)
Example TrimSpace_cases :
  let nbsp := String (ascii_of_nat 194) (String (ascii_of_nat 160) "") in
  let emsp := String (ascii_of_nat 226) (String (ascii_of_nat 128)
                (String (ascii_of_nat 131) "")) in
  let stray := String (ascii_of_nat 160) "" in
  TrimSpace (nbsp ++ " /a b" ++ emsp ++ nl) = "/a b" /\
  TrimSpace (stray ++ " /a ") = stray ++ " /a" /\
  TrimSpace "   " = "".
Proof. vm_compute. repeat split. Qed.

(** ** Test generator *)

Section GeneratorProps.
Import Generator.

Lemma generateK6APITest_length (specId endpoints testType : string) :
  String.length (generateK6APITest specId endpoints testType) =
  363 + String.length testType
      + String.length (GetExecutorType testType)
      + String.length (GetScenarioConfig testType)
      + String.length specId + String.length endpoints.
Proof.
  unfold generateK6APITest.
  repeat rewrite length_append.
  cbn [String.length]. lia.
Qed.

Example script_preview_load :
  script_preview (generateK6APITest "1" "" "load") =
  Some "import http from 'k6/http';
import { check } from 'k6';

export const options = {
  scenarios: {
    load_test: {
      executor: 'constant-vus',
      vus: 10,
      duration: '30s',
    },
  },
};

".
Proof. reflexivity. Qed.

Section UIProps.
Variable ToLower : string -> string.




(** The order of the keywords in the text is irrelevant. *)
Example ParseUIInstructions_order :
  ParseUIInstructions ToLowerASCII "WAIT a bit, type a name, Click the Button"
  = [click_action; type_action; wait_action] /\
  ParseUIInstructions ToLowerASCII "click the link" = [] /\
  ParseUIInstructions ToLowerASCII "scroll down" = [].
Proof. repeat split; reflexivity. Qed.

End UIProps.

End GeneratorProps.

(** ** System calls *)

Section PrimProps.
Variable env : Env.

Lemma sql_query_row_served {A} (s : stmt) (sel : DB -> result A) (w : World) :
  sql_fails env (sql_seq w) = None ->
  sql_query_row env s sel w = (stated s true (db w) w, sel (db w)).
Proof.
  intros F. unfold sql_query_row, io_bind, next_sql, emit, io_ret. cbn.
  now rewrite F.
Qed.

Lemma sql_query_served {A} (s : stmt) (sel : DB -> list A) (w : World) :
  sql_fails env (sql_seq w) = None ->
  sql_query env s sel w = (stated s true (db w) w, Ok (sel (db w))).
Proof.
  intros F. unfold sql_query, io_bind, next_sql, emit, io_ret. cbn.
  now rewrite F.
Qed.

Lemma sql_query_rejected {A} (s : stmt) (sel : DB -> list A) (w : World)
  (msg : string) :
  sql_fails env (sql_seq w) = Some msg ->
  sql_query env s sel w = (stated s false (db w) w, Err msg).
Proof.
  intros F. unfold sql_query, io_bind, next_sql, emit, io_ret. cbn.
  now rewrite F.
Qed.

Lemma sql_exec_served {A} (s : stmt) (run : Z -> DB -> DB * A) (w : World) :
  sql_fails env (sql_seq w) = None ->
  sql_exec env s run w =
  (stated s true (fst (run (sql_timestamp env (sql_seq w)) (db w))) w,
   Ok (snd (run (sql_timestamp env (sql_seq w)) (db w)))).
Proof.
  intros F. unfold sql_exec, io_bind, next_sql, emit, io_ret, set_db. cbn.
  rewrite F. cbn. now destruct (run _ _).
Qed.

Lemma sql_exec_rejected {A} (s : stmt) (run : Z -> DB -> DB * A) (w : World)
  (msg : string) :
  sql_fails env (sql_seq w) = Some msg ->
  sql_exec env s run w = (stated s false (db w) w, Err msg).
Proof.
  intros F. unfold sql_exec, io_bind, next_sql, emit, io_ret. cbn.
  now rewrite F.
Qed.

Lemma sql_query_row_rejected {A} (s : stmt) (sel : DB -> result A) (w : World)
  (msg : string) :
  sql_fails env (sql_seq w) = Some msg ->
  sql_query_row env s sel w = (stated s false (db w) w, Err msg).
Proof.
  intros F. unfold sql_query_row, io_bind, next_sql, emit, io_ret. cbn.
  now rewrite F.
Qed.

Lemma http_Get_eq (url : string) (w : World) :
  http_Get env url w = (logged (EvHttpGet url) w, http_get env url).
Proof. reflexivity. Qed.

Lemma os_ReadFile_eq (path : string) (w : World) :
  os_ReadFile env path w = (logged (EvReadFile path) w, read_file env path).
Proof. reflexivity. Qed.

Lemma os_MkdirAll_eq (dir : string) (w : World) :
  os_MkdirAll env dir w = (logged (EvMkdirAll dir) w, mkdir_all env dir).
Proof. reflexivity. Qed.

Lemma os_WriteFile_eq (path content : string) (w : World) :
  os_WriteFile env path content w =
  (logged (EvWriteFile path) w, write_file env path content).
Proof. reflexivity. Qed.

Lemma exec_command_eq (name : string) (args : list string) (w : World) :
  exec_command env name args w =
  (logged (EvExec name args
             (match fst (exec_result env name args) with
              | None => true | Some _ => false end)) w,
   exec_result env name args).
Proof. reflexivity. Qed.

Lemma emit_eq (e : event) (w : World) : emit e w = (logged e w, tt).
Proof. reflexivity. Qed.

Lemma os_CreateTemp_eq (pattern : string) (w : World) :
  os_CreateTemp env pattern w =
  match create_temp env pattern with
  | Ok name => (logged (EvCreateTemp name) w, Ok name)
  | Err msg => (w, Err msg)
  end.
Proof. unfold os_CreateTemp. now destruct (create_temp env pattern). Qed.

End PrimProps.

(** ** Script preview of [generate_api_tests] *)

Section PreviewProps.
Import Generator.

(** C10.  Whatever [specId], [endpoints] and [testType] are, the script
    built by [generateK6APITest] is at least 200 bytes long, so the slice
    [script[:200]] taken for the preview is in range: it yields the first
    200 bytes and never faults, and [GenerateAPITestsTool.Handle] returns
    (it does not panic) for every request, store and environment. *)
Theorem script_preview_in_range (specId endpoints testType : string) :
  200 <= String.length (generateK6APITest specId endpoints testType) /\
  script_preview (generateK6APITest specId endpoints testType) =
    Some (substring 0 200 (generateK6APITest specId endpoints testType)) /\
  forall (env : Env) (Format : Z -> string -> string)
         (request : GenerateAPITests.Request) (d : DB),
    exists r, snd (call (GenerateAPITests.Handle env Format request) d)
              = Returned r.
Proof.
  assert (L : forall a b c, 200 <= String.length (generateK6APITest a b c))
    by (intros; rewrite generateK6APITest_length; lia).
  assert (P : forall a b c, script_preview (generateK6APITest a b c) =
                            Some (substring 0 200 (generateK6APITest a b c))).
  { intros. unfold script_preview, slice_to.
    specialize (L a b c). apply Nat.leb_le in L. now rewrite L. }
  split; [apply L|]. split; [apply P|].
  intros env Format request d.
  unfold GenerateAPITests.Handle.
  destruct (GenerateAPITests.specId request) as [sid|];
    [|eexists; reflexivity].
  cbv zeta. rewrite P.
  unfold call, bind, lift.
  destruct (sql_fails env 0) as [msg|] eqn:F0.
  - rewrite (@sql_query_row_rejected env _ _ _ (init_world d) msg F0).
    eexists; reflexivity.
  - rewrite (@sql_query_row_served env _ _ _ (init_world d) F0).
    destruct (GenerateAPITests.select_spec_session sid (db (init_world d)))
      as [sessionId|err]; [|eexists; reflexivity].
    cbn [time_now_unix stated logged sql_seq db trace clock_seq init_world].
    match goal with
    | |- context [sql_exec env ?s ?run ?w] =>
        destruct (sql_fails env (sql_seq w)) as [msg|] eqn:F1;
        [ rewrite (@sql_exec_rejected env _ s run w msg F1)
        | rewrite (@sql_exec_served env _ s run w F1) ]
    end; eexists; reflexivity.
Qed.

Example generate_api_tests_answer :
  snd (call (GenerateAPITests.Handle Sample.env (fun _ _ => "20231114-221320")
               {| GenerateAPITests.specId := Some "1";
                  GenerateAPITests.endpoints := None;
                  GenerateAPITests.testType := None |})
            (fst (insert_spec 1 "http://localhost:8080/openapi.json" Sample.db)))
  = Returned (ToolText
      ("Generated load test with ID: 2" ++ nl ++ nl ++ "Script preview:" ++ nl ++
       substring 0 200 (generateK6APITest "1" "" "load") ++ "...")).
Proof. vm_compute. reflexivity. Qed.

End PreviewProps.

(** ** Compose source resolver *)

Section ResolverProps.
Variable env : Env.

(** C8.  A source with an HTTP(S) prefix is fetched by exactly one GET: a
    transport error, any status outside 200..299, and a body that cannot be
    read are errors, and a 200 answer yields the body.  Any other source is
    read as a file exactly once, and the call fails exactly when the file
    cannot be read.  Nothing is attempted twice, and the store is not
    touched. *)
Theorem FetchComposeContent_spec (source : string) (w : World) :
  let w' := fst (FetchComposeContent env source w) in
  let r := snd (FetchComposeContent env source w) in
  db w' = db w /\
  if is_url source then
    trace w' = (trace w ++ [EvHttpGet source])%list /\
    match http_get env source with
    | HttpFail err => is_err r
    | HttpResp status body =>
        ((status < 200 \/ 299 < status)%Z -> is_err r) /\
        (status = 200%Z ->
         match body with Ok content => r = Ok content | Err _ => is_err r end) /\
        (forall content, r = Ok content -> status = 200%Z /\ body = Ok content)
    end
  else
    trace w' = (trace w ++ [EvReadFile source])%list /\
    (forall content, r = Ok content <-> read_file env source = Ok content) /\
    (is_err r <-> is_err (read_file env source)).
Proof.
  unfold FetchComposeContent, is_url, is_err.
  destruct (HasPrefix source "http://" || HasPrefix source "https://"); cbn.
  - destruct (http_get env source) as [err | status body]; cbn.
    + repeat split; eauto.
    + destruct (Z.eqb_spec status 200) as [E | NE]; cbn.
      * subst status. destruct body as [content | err]; cbn;
          repeat split; try lia; eauto; intros; try discriminate; congruence.
      * repeat split; eauto; intros; try congruence; discriminate.
  - destruct (read_file env source) as [content | err]; cbn;
      repeat split; intros; eauto; try congruence; try discriminate;
      match goal with H : exists _, _ |- _ => destruct H; discriminate end.
Qed.

(** A 2xx answer other than 200 is refused as well. *)
Lemma FetchComposeContent_only_200 (source : string) (w : World)
  (status : Z) (body : result string) :
  is_url source = true ->
  http_get env source = HttpResp status body ->
  status <> 200%Z ->
  snd (FetchComposeContent env source w) =
  Err ("failed to download compose file: status " ++ itoa status).
Proof.
  unfold FetchComposeContent, is_url. intros U G NE. rewrite U. cbn.
  rewrite G. apply Z.eqb_neq in NE. now rewrite NE.
Qed.

End ResolverProps.

Example FetchComposeContent_url :
  FetchComposeContent Sample.env "https://example.com/docker-compose.yml"
    (init_world empty_db) =
  ({| db := empty_db;
      trace := [EvHttpGet "https://example.com/docker-compose.yml"];
      sql_seq := 0; clock_seq := 0 |}, Ok Sample.compose_yml).
Proof. reflexivity. Qed.

Example FetchComposeContent_missing_file :
  snd (FetchComposeContent Sample.env "nowhere.yml" (init_world empty_db)) =
  Err "failed to read compose file: open nowhere.yml: no such file or directory".
Proof. reflexivity. Qed.

(** ** Compose file store *)

Section StoreProps.
Variable env : Env.

Lemma find_app_none {A} (f : A -> bool) (l : list A) (x : A) :
  find f l = None -> f x = true -> find f (l ++ [x]) = Some x.
Proof.
  induction l as [|a l IH]; simpl; intros N T.
  - now rewrite T.
  - destruct (f a); [discriminate | auto].
Qed.

Lemma find_none_filter {A} (f : A -> bool) (l : list A) :
  find f l = None -> filter f l = [].
Proof.
  induction l as [|a l IH]; simpl; [reflexivity|].
  destruct (f a); [discriminate | exact IH].
Qed.

Lemma find_some_filter {A} (f : A -> bool) (l : list A) (x : A) :
  find f l = Some x -> filter f l <> [].
Proof.
  induction l as [|a l IH]; simpl; [discriminate|].
  destruct (f a); [discriminate | exact IH].
Qed.

(** What one call does when the store serves its statements: a hit answers
    the id of the first row with the fingerprint and writes nothing, a miss
    appends one row and answers its id. *)
Lemma StoreComposeFile_served (source content : string) (w : World) :
  sql_fails env (sql_seq w) = None ->
  sql_fails env (S (sql_seq w)) = None ->
  StoreComposeFile env source content w =
  match find (has_hash content) (compose_files (db w)) with
  | Some row => (stated SelectComposeByHash true (db w) w, Ok (cf_id row))
  | None =>
      let id := next_id cf_id (compose_files (db w)) in
      let row := {| cf_id := id; cf_source_url := source;
                    cf_content := content;
                    cf_hash := MD5.EncodeToString (MD5.Sum content) |} in
      (stated InsertComposeFile true (insert_compose_file row (db w))
         (stated SelectComposeByHash true (db w) w), Ok id)
  end.
Proof.
  intros F0 F1.
  unfold StoreComposeFile, io_bind.
  rewrite sql_query_row_served by exact F0.
  unfold select_compose_by_hash, first_row.
  change (fun r : compose_file_row =>
            String.eqb (cf_hash r) (MD5.EncodeToString (MD5.Sum content)))
    with (has_hash content).
  destruct (find (has_hash content) (compose_files (db w))) as [row|];
    cbn [option_map one_row].
  - reflexivity.
  - rewrite sql_exec_served by exact F1. reflexivity.
Qed.

(** C2.  With a store that serves the statements, storing the same bytes
    twice, under any two sources, answers the same row id both times; each
    call looks the content hash up first and inserts only after a miss; the
    second call finds the row and inserts nothing; and where no row had the
    fingerprint before, exactly one has it after. *)
Theorem StoreComposeFile_dedup (s1 s2 content : string) (w : World)
  (served : forall n, sql_fails env n = None) :
  let w1 := fst (StoreComposeFile env s1 content w) in
  let r1 := snd (StoreComposeFile env s1 content w) in
  let w2 := fst (StoreComposeFile env s2 content w1) in
  let r2 := snd (StoreComposeFile env s2 content w1) in
  (exists id, r1 = Ok id /\ r2 = Ok id) /\
  (trace w1 = (trace w ++ [EvSql SelectComposeByHash true])%list /\
   db w1 = db w \/
   trace w1 = (trace w ++ [EvSql SelectComposeByHash true;
                           EvSql InsertComposeFile true])%list) /\
  db w2 = db w1 /\
  trace w2 = (trace w1 ++ [EvSql SelectComposeByHash true])%list /\
  (rows_of content (db w) = [] -> List.length (rows_of content (db w2)) = 1) /\
  (rows_of content (db w) <> [] -> db w2 = db w).
Proof.
  intros w1 r1 w2 r2. subst r2 w2 r1 w1.
  rewrite (StoreComposeFile_served s1 content w (served _) (served _)).
  destruct (find (has_hash content) (compose_files (db w))) as [row|] eqn:F;
    cbv zeta; cbn [fst snd];
    rewrite StoreComposeFile_served by apply served;
    cbn [stated db insert_compose_file compose_files].
  - rewrite F. cbn [fst snd stated db trace].
    split; [eauto|]. split; [left; split; reflexivity|].
    repeat split; eauto.
    intros N. exfalso. apply (find_some_filter _ _ F). exact N.
  - rewrite (find_app_none _ _ _ F)
      by (unfold has_hash; cbn; apply String.eqb_refl).
    cbn [fst snd stated db trace cf_id].
    split; [eauto|].
    split; [right; now rewrite <- app_assoc|].
    split; [reflexivity|]. split; [reflexivity|]. split.
    + intros _. unfold rows_of, insert_compose_file. cbn [compose_files].
      rewrite filter_app, (find_none_filter _ _ F). cbn [filter app].
      unfold has_hash at 1. cbn [cf_hash]. now rewrite String.eqb_refl.
    + intros N. exfalso. apply N. apply find_none_filter. exact F.
Qed.

End StoreProps.

Lemma StoreComposeFile_dedup_witness :
  (exists id,
     snd (StoreComposeFile Sample.env "./docker-compose.yml"
            Sample.compose_yml (init_world empty_db)) = Ok id /\
     snd (StoreComposeFile Sample.env "https://example.com/docker-compose.yml"
            Sample.compose_yml
            (fst (StoreComposeFile Sample.env "./docker-compose.yml"
                    Sample.compose_yml (init_world empty_db)))) = Ok id).
Proof.
  apply (StoreComposeFile_dedup Sample.env "./docker-compose.yml"
           "https://example.com/docker-compose.yml" Sample.compose_yml
           (init_world empty_db)).
  intro n. reflexivity.
Defined.

(** A statement the store rejects is taken for a miss: the row is written a
    second time. *)
Example StoreComposeFile_rejected_lookup :
  let w1 := fst (StoreComposeFile Sample.env "a.yml" "x" (init_world empty_db)) in
  let e := Sample.failing_statement 2 Sample.env in
  snd (StoreComposeFile e "a.yml" "x" w1) = Ok 2%Z /\
  List.length (compose_files (db (fst (StoreComposeFile e "a.yml" "x" w1)))) = 2.
Proof. vm_compute. split; reflexivity. Qed.

(** ** Runtime materializer: names of projects and working directories *)

(** The directory depends on the session id and on the second of the clock
    only: two calls for one session within one second get the same path. *)
Lemma WriteComposeToTemp_same_second (env : Env) (c1 c2 : string)
  (sessionId : Z) (w1 w2 : World) (p1 p2 : string) :
  now_unix env (clock_seq w1) = now_unix env (clock_seq w2) ->
  snd (WriteComposeToTemp env c1 sessionId w1) = Ok p1 ->
  snd (WriteComposeToTemp env c2 sessionId w2) = Ok p2 ->
  p1 = p2.
Proof.
  unfold WriteComposeToTemp, io_bind, time_now_unix, os_MkdirAll,
    os_WriteFile, emit, io_ret. cbn. intros T.
  rewrite T.
  destruct (mkdir_all env _); cbn; [discriminate|].
  destruct (write_file env _ c1); cbn; [discriminate|].
  destruct (write_file env _ c2); cbn; [discriminate|].
  congruence.
Qed.

(** C3 fails on the code.  After [test_application] on an empty store has
    made session 1 and its test 1, two runs of that test within one second
    bring their runtimes up under one project name and write into one
    working directory.  Likewise two discoveries of session 1, seven
    seconds apart, use one project name, and a discovery and a test run of
    session 1 within one second use one working directory. *)
Theorem operations_share_names :
  let auto := call (TestApplication.Handle Sample.env auto_request) empty_db in
  let at_100 := Sample.at_second 1700000100 Sample.env in
  let run1 := call (RunPerformanceTest.Handle at_100 run_request) (db (fst auto)) in
  let run2 := call (RunPerformanceTest.Handle at_100 run_request) (db (fst run1)) in
  let later := Sample.at_second 1700000007 Sample.env in
  let discovery := call (DiscoverSpecs.Handle Sample.env discover_request) Sample.db in
  let discovery' := call (DiscoverSpecs.Handle later discover_request) Sample.db in
  let run := call (RunPerformanceTest.Handle Sample.env run_request) Sample.db in
  (project_names (trace (fst run1)) = ["perftest-1700000100"] /\
   project_names (trace (fst run2)) = ["perftest-1700000100"] /\
   working_dirs (trace (fst run1)) = ["/tmp/k6-test-1-1700000100"] /\
   working_dirs (trace (fst run2)) = ["/tmp/k6-test-1-1700000100"]) /\
  (project_names (trace (fst discovery)) = ["discover-1"] /\
   project_names (trace (fst discovery')) = ["discover-1"]) /\
  (working_dirs (trace (fst discovery)) = ["/tmp/k6-test-1-1700000000"] /\
   working_dirs (trace (fst run)) = ["/tmp/k6-test-1-1700000000"]).
Proof. vm_compute. repeat split. Qed.

(** ** API discovery *)

Section DiscoveryProps.
Import DiscoverSpecs.
Variable env : Env.

Lemma probe_paths_spec (baseURL : string) (paths discovered : list string)
  (w : World) :
  probe_paths env baseURL paths discovered w =
  ({| db := db w;
      trace := trace w ++ map (fun path => EvHttpGet (baseURL ++ path)) paths;
      sql_seq := sql_seq w; clock_seq := clock_seq w |},
   (discovered ++
    filter (answers_200 env) (map (fun path => (baseURL ++ path)%string) paths))%list).
Proof.
  revert discovered w.
  induction paths as [|path rest IH]; intros discovered w.
  - cbn. rewrite !app_nil_r. now destruct w.
  - cbn [probe_paths]. unfold io_bind. rewrite http_Get_eq, IH.
    cbn [logged db trace sql_seq clock_seq map filter].
    rewrite <- app_assoc. cbn [app].
    unfold answers_200 at 2.
    destruct (http_get env (baseURL ++ path)) as [err | status body].
    + reflexivity.
    + destruct (Z.eqb status 200); [|reflexivity].
      now rewrite <- app_assoc.
Qed.

Lemma probe_service_spec (row : service_row) (discovered : list string)
  (w : World) :
  probe_service env row discovered w =
  ({| db := db w; trace := trace w ++ map EvHttpGet (candidates row);
      sql_seq := sql_seq w; clock_seq := clock_seq w |},
   (discovered ++ filter (answers_200 env) (candidates row))%list).
Proof.
  unfold probe_service, candidates, base_url.
  destruct (Split (sv_ports row) ",") as [|first rest].
  - cbn. rewrite !app_nil_r. now destruct w.
  - destruct (String.eqb first ""); cbn [negb].
    + cbn. rewrite !app_nil_r. now destruct w.
    + rewrite probe_paths_spec. now rewrite map_map.
Qed.

Lemma probe_services_spec (rows : list service_row) (discovered : list string)
  (w : World) :
  probe_services env rows discovered w =
  ({| db := db w;
      trace := trace w ++ map EvHttpGet (flat_map candidates rows);
      sql_seq := sql_seq w; clock_seq := clock_seq w |},
   (discovered ++ specs_of env rows)%list).
Proof.
  revert discovered w.
  induction rows as [|row rest IH]; intros discovered w.
  - cbn. rewrite !app_nil_r. now destruct w.
  - cbn [probe_services]. unfold io_bind. rewrite probe_service_spec, IH.
    cbn [db trace sql_seq clock_seq flat_map specs_of].
    now rewrite map_app, !app_assoc.
Qed.

(** The auto-discovery loop.  Over the rows it is given, the loop probes,
    for every service whose first port mapping is not empty, the base URL
    made of the host segment of that mapping followed by each conventional
    path, service by service and path by path; a URL is discovered iff its
    GET succeeds with status 200; and the discovered list is exactly the
    URLs that answer 200, in service order and then in path order. *)
Theorem probe_services_discovers (rows : list service_row) (w : World) :
  let found := snd (probe_services env rows [] w) in
  let w' := fst (probe_services env rows [] w) in
  found = flat_map (fun row => filter (answers_200 env) (candidates row)) rows /\
  trace w' = (trace w ++ map EvHttpGet (flat_map candidates rows))%list /\
  (forall row, candidates row =
     match Split (sv_ports row) "," with
     | first :: _ =>
         if String.eqb first "" then []
         else map (fun path => "http://localhost:" ++ hd "" (Split first ":") ++ path)
                  ["/swagger.json"; "/openapi.json"; "/api-docs";
                   "/v2/api-docs"; "/v3/api-docs"; "/api/swagger.json";
                   "/api/openapi.json"; "/api/v3/openapi.json"]
     | [] => []
     end) /\
  (forall url, In url found <->
     In url (flat_map candidates rows) /\
     exists body, http_get env url = HttpResp 200 body).
Proof.
  cbv zeta. rewrite probe_services_spec. cbn [fst snd trace app].
  split; [reflexivity|]. split; [reflexivity|]. split.
  - intros row. unfold candidates, base_url.
    destruct (Split (sv_ports row) ",") as [|first rest]; [reflexivity|].
    destruct (String.eqb first ""); [reflexivity|].
    cbn [map commonPaths]. unfold commonPaths. cbn [map].
    now rewrite <- !append_assoc.
  - intros url. unfold specs_of. rewrite !in_flat_map. split.
    + intros (row & R & U). apply filter_In in U. destruct U as (U & A).
      split; [exists row; auto|].
      unfold answers_200 in A.
      destruct (http_get env url) as [err | status body]; [discriminate|].
      apply Z.eqb_eq in A. subst status. eauto.
    + intros ((row & R & U) & body & G). exists row. split; [exact R|].
      apply filter_In. split; [exact U|].
      unfold answers_200. now rewrite G.
Qed.

End DiscoveryProps.

(** Two services, the second without a port; only [/openapi.json] and
    [/api-docs] answer 200 on port 8080. *)
Example probe_services_example :
  let e :=
    {| yaml_services := yaml_services Sample.env;
       next_range := next_range Sample.env; TempDir := "/tmp";
       http_get := fun url =>
         if String.eqb url "http://localhost:8080/api-docs" ||
            String.eqb url "http://localhost:8080/openapi.json"
         then HttpResp 200 (Ok "") else HttpResp 301 (Ok "");
       read_file := read_file Sample.env; mkdir_all := mkdir_all Sample.env;
       write_file := write_file Sample.env;
       create_temp := create_temp Sample.env;
       exec_result := exec_result Sample.env;
       sql_fails := sql_fails Sample.env;
       sql_timestamp := sql_timestamp Sample.env;
       sql_avg := sql_avg Sample.env; now_unix := now_unix Sample.env |} in
  let rows :=
    [{| sv_id := 1; sv_session_id := 1; sv_name := "web"; sv_image := "nginx";
         sv_ports := "8080:80,8443:443" |};
     {| sv_id := 2; sv_session_id := 1; sv_name := "db"; sv_image := "postgres";
         sv_ports := "" |}] in
  snd (DiscoverSpecs.probe_services e rows [] (init_world empty_db)) =
  ["http://localhost:8080/openapi.json"; "http://localhost:8080/api-docs"].
Proof. reflexivity. Qed.

(** ** Results analyzer *)

Section AnalyzerProps.
Import AnalyzeResults.
Variable env : Env.

Hypothesis served : forall n, sql_fails env n = None.

Lemma analyze_row_served (runId : string) (compareHistory : bool)
  (row : string * float64 * float64) (analysis : list line) (w : World) :
  db (fst (analyze_row env runId compareHistory row analysis w)) = db w /\
  snd (analyze_row env runId compareHistory row analysis w) =
  (analysis ++ sample_lines env (db w) runId compareHistory row)%list.
Proof.
  destruct row as [[endpoint avgTime] errorRate].
  unfold analyze_row, sample_lines, sla_lines, history_lines, io_bind.
  rewrite sql_query_row_served by apply served.
  destruct (select_sla endpoint (db w)) as [[slaTime slaError] | err];
    destruct compareHistory;
    try (rewrite sql_query_row_served by apply served;
         cbn [stated db];
         destruct (select_history env endpoint runId (db w)) as [[h e] | err']);
    try destruct (float64_gt avgTime (float64_of_int slaTime));
    try destruct (float64_gt errorRate slaError);
    cbn [fst snd io_ret stated db app];
    (split; [reflexivity|]);
    repeat rewrite <- app_assoc; reflexivity.
Qed.

Lemma analyze_rows_served (runId : string) (compareHistory : bool)
  (rows : list (string * float64 * float64)) (analysis : list line)
  (w : World) :
  db (fst (analyze_rows env runId compareHistory rows analysis w)) = db w /\
  snd (analyze_rows env runId compareHistory rows analysis w) =
  (analysis ++ flat_map (sample_lines env (db w) runId compareHistory) rows)%list.
Proof.
  revert analysis w. induction rows as [|row rest IH]; intros analysis w.
  - cbn. now rewrite app_nil_r.
  - cbn [analyze_rows flat_map]. unfold io_bind.
    destruct (analyze_row_served runId compareHistory row analysis w) as [D S].
    destruct (analyze_row env runId compareHistory row analysis w) as [w1 a1].
    cbn [fst snd] in D, S. subst a1.
    destruct (IH (analysis ++ sample_lines env (db w) runId compareHistory row)%list w1)
      as [D' S'].
    rewrite D in D', S'. split; [exact D'|].
    rewrite S'. now rewrite app_assoc.
Qed.

(** With a store that serves the statements, the handler answers the
    rendered report. *)
Lemma Handle_served (runId : string) (compare : option string) (d : DB) :
  snd (call (Handle env {| AnalyzeResults.runId := Some runId;
                           compareHistory := compare |}) d) =
  Returned (ToolText (render
    (report_lines env d runId (String.eqb (GetString compare "false") "true")))).
Proof.
  unfold call, Handle. cbn [AnalyzeResults.runId compareHistory].
  unfold bind at 1, lift at 1.
  rewrite sql_query_served by apply served.
  unfold bind at 1, defer at 1. unfold bind at 1, lift at 1.
  set (w1 := stated SelectMetrics true (db (init_world d)) (init_world d)).
  destruct (analyze_rows_served runId
              (String.eqb (GetString compare "false") "true")
              (select_metrics runId (db (init_world d)))
              [LTitle; LRun runId] w1) as [D S].
  destruct (analyze_rows env runId _ _ _ w1) as [w2 lines].
  cbn [fst snd] in D, S. subst lines.
  unfold return_, finish, unwind, quietly, io_ret. cbn [fst snd].
  reflexivity.
Qed.

Lemma sla_of_history_lines (d : DB) (runId : string) (cmp : bool)
  (endpoint : string) (avgTime : float64) :
  filter is_sla_line (history_lines env d runId cmp endpoint avgTime) = [].
Proof.
  unfold history_lines. destruct cmp; [|reflexivity].
  now destruct (select_history env endpoint runId d) as [[h e]|err].
Qed.

Lemma find_none_path (endpoint : string) (rows : list endpoint_row) :
  (forall r, In r rows -> ep_path r <> endpoint) ->
  find (fun r => String.eqb (ep_path r) endpoint) rows = None.
Proof.
  induction rows as [|r rows IH]; intros N; [reflexivity|]. cbn.
  destruct (String.eqb_spec (ep_path r) endpoint) as [E|NE].
  - exfalso. apply (N r); [now left | exact E].
  - apply IH. intros r' I. apply N. now right.
Qed.

Lemma sla_of_sla_lines (d : DB) (endpoint : string) (avgTime errorRate : float64) :
  filter is_sla_line (sla_lines d endpoint avgTime errorRate) =
  sla_lines d endpoint avgTime errorRate.
Proof.
  unfold sla_lines.
  destruct (select_sla endpoint d) as [[slaTime slaError]|err]; [|reflexivity].
  now destruct (float64_gt avgTime (float64_of_int slaTime)),
               (float64_gt errorRate slaError).
Qed.

(** The SLA lines of a sample's section are those read off the store. *)
Lemma sla_of_sample_lines (d : DB) (runId : string) (cmp : bool)
  (endpoint : string) (avgTime errorRate : float64) :
  filter is_sla_line (sample_lines env d runId cmp (endpoint, avgTime, errorRate)) =
  sla_lines d endpoint avgTime errorRate.
Proof.
  unfold sample_lines. cbn [app filter is_sla_line].
  rewrite !filter_app, sla_of_sla_lines, sla_of_history_lines.
  cbn. now rewrite app_nil_r.
Qed.

(** The SLA check of a sample, as the code makes it.  For every sample of
    the analyzed run: when the first endpoint record with the sample's path
    carries both thresholds, a response-time violation is flagged iff the
    average response time is strictly greater than the response-time
    threshold, and an error-rate violation iff the error rate is strictly
    greater than the error-rate threshold; when that record lacks either
    threshold, no SLA line is written for the sample, whatever its values;
    when no endpoint record has the sample's path, no SLA line is written
    for it. *)
Theorem analyze_sla_flags (runId : string) (compare : option string) (d : DB)
  (endpoint : string) (avgTime errorRate : float64)
  (sampled : In (endpoint, avgTime, errorRate) (select_metrics runId d)) :
  let cmp := String.eqb (GetString compare "false") "true" in
  let lines := sample_lines env d runId cmp (endpoint, avgTime, errorRate) in
  snd (call (Handle env {| AnalyzeResults.runId := Some runId;
                           compareHistory := compare |}) d) =
    Returned (ToolText (render (report_lines env d runId cmp))) /\
  incl lines (report_lines env d runId cmp) /\
  (forall r slaTime slaError,
     find (fun r => String.eqb (ep_path r) endpoint) (endpoints d) = Some r ->
     ep_sla_response_time r = Some slaTime ->
     ep_sla_error_rate r = Some slaError ->
     (In (LSlaTime slaTime) lines <->
        float64_gt avgTime (float64_of_int slaTime) = true) /\
     (In (LSlaError slaError) lines <->
        float64_gt errorRate slaError = true) /\
     (forall l, In l lines -> is_sla_line l = true ->
        l = LSlaTime slaTime \/ l = LSlaError slaError)) /\
  (forall r,
     find (fun r => String.eqb (ep_path r) endpoint) (endpoints d) = Some r ->
     ep_sla_response_time r = None \/ ep_sla_error_rate r = None ->
     filter is_sla_line lines = []) /\
  ((forall r, In r (endpoints d) -> ep_path r <> endpoint) ->
   filter is_sla_line lines = []).
Proof.
  intros cmp lines. split; [apply Handle_served|]. split; [|split; [|split]].
  - unfold report_lines. intros l I. apply in_or_app. right.
    apply in_flat_map. exists (endpoint, avgTime, errorRate). now split.
  - intros r slaTime slaError F T E.
    assert (S : forall l, In l lines /\ is_sla_line l = true <->
                          In l (sla_lines d endpoint avgTime errorRate)).
    { intros l. subst lines. rewrite <- sla_of_sample_lines with (runId := runId) (cmp := cmp).
      symmetry. apply filter_In. }
    assert (L : sla_lines d endpoint avgTime errorRate =
                ((if float64_gt avgTime (float64_of_int slaTime)
                  then [LSlaTime slaTime] else []) ++
                 (if float64_gt errorRate slaError
                  then [LSlaError slaError] else []))%list).
    { unfold sla_lines, select_sla, first_row. now rewrite F, T, E. }
    rewrite L in S. clear L.
    split; [|split].
    + split.
      * intros I. assert (I' := proj1 (S _) (conj I eq_refl)).
        destruct (float64_gt avgTime (float64_of_int slaTime)); [reflexivity|].
        destruct (float64_gt errorRate slaError); cbn in I';
          intuition discriminate.
      * intros G. apply (S (LSlaTime slaTime)). rewrite G. now left.
    + split.
      * intros I. assert (I' := proj1 (S _) (conj I eq_refl)).
        destruct (float64_gt errorRate slaError); [reflexivity|].
        destruct (float64_gt avgTime (float64_of_int slaTime)); cbn in I';
          intuition discriminate.
      * intros G. apply (S (LSlaError slaError)). rewrite G.
        apply in_or_app. right. now left.
    + intros l I SL. assert (I' := proj1 (S _) (conj I SL)).
      destruct (float64_gt avgTime (float64_of_int slaTime)),
               (float64_gt errorRate slaError); cbn in I'; intuition.
  - intros r F Missing. subst lines. rewrite sla_of_sample_lines.
    unfold sla_lines, select_sla, first_row. rewrite F.
    destruct Missing as [M | M]; rewrite M; [reflexivity|].
    now destruct (ep_sla_response_time r).
  - intros N. subst lines. rewrite sla_of_sample_lines.
    unfold sla_lines, select_sla, first_row.
    now rewrite (find_none_path _ N).
Qed.

(** C6, as the code has it.  For a sample of the analyzed run whose endpoint
    has no sample from any other run, the handler returns normally and its
    section of the report has no historical line at all, hence no NaN or
    infinite percentage: the section is the one written without
    [compareHistory]. *)
Theorem analyze_without_history (runId : string) (d : DB)
  (endpoint : string) (avgTime errorRate : float64)
  (sampled : In (endpoint, avgTime, errorRate) (select_metrics runId d))
  (no_history : history_rows endpoint runId d = []) :
  snd (call (Handle env {| AnalyzeResults.runId := Some runId;
                           compareHistory := Some "true" |}) d) =
    Returned (ToolText (render (report_lines env d runId true))) /\
  incl (sample_lines env d runId true (endpoint, avgTime, errorRate))
       (report_lines env d runId true) /\
  sample_lines env d runId true (endpoint, avgTime, errorRate) =
  sample_lines env d runId false (endpoint, avgTime, errorRate) /\
  filter is_history_line
    (sample_lines env d runId true (endpoint, avgTime, errorRate)) = [].
Proof.
  split; [apply (Handle_served runId (Some "true") d)|]. split.
  - unfold report_lines. intros l I. apply in_or_app. right.
    apply in_flat_map. exists (endpoint, avgTime, errorRate). now split.
  - assert (H : history_lines env d runId true endpoint avgTime = []).
    { unfold history_lines, select_history. now rewrite no_history. }
    unfold sample_lines. rewrite H. split; [reflexivity|].
    cbn [app filter is_history_line]. rewrite filter_app. cbn.
    rewrite app_nil_r. unfold sla_lines.
    destruct (select_sla endpoint d) as [[slaTime slaError]|err]; [|reflexivity].
    now destruct (float64_gt avgTime (float64_of_int slaTime)),
                 (float64_gt errorRate slaError).
Qed.

End AnalyzerProps.

(** An average of 600 against a threshold of 500 is flagged. *)
Lemma analyze_sla_flags_witness :
  In (AnalyzeResults.LSlaTime 500)
     (sample_lines Sample.env
        (Sample.analyzed_db (lit 600 0) (Some 500%Z) (Some (lit 1 (-4))))
        "1" false (sample_of (lit 600 0))).
Proof.
  pose proof (@analyze_sla_flags Sample.env (fun n => eq_refl) "1" None
                (Sample.analyzed_db (lit 600 0) (Some 500%Z) (Some (lit 1 (-4))))
                "/api/endpoint" (lit 600 0) (lit 5764607523034235 (-58))
                (or_introl eq_refl)) as H.
  cbv zeta in H. destruct H as (_ & _ & H & _ & _).
  apply (H {| ep_id := 1; ep_spec_id := 1; ep_path := "/api/endpoint";
              ep_method := "GET"; ep_sla_response_time := Some 500%Z;
              ep_sla_error_rate := Some (lit 1 (-4)) |}
           500%Z (lit 1 (-4)) eq_refl eq_refl eq_refl).
  reflexivity.
Defined.

Example analyze_600_against_500 :
  snd (call (AnalyzeResults.Handle Sample.env (analyze_request None))
         (Sample.analyzed_db (lit 600 0) (Some 500%Z) (Some (lit 1 (-4))))) =
  Returned (ToolText
"# Performance Analysis

## Run ID: 1

### /api/endpoint
- Avg Response Time: 600.00 ms
- Error Rate: 2.00%
- ⚠️ SLA VIOLATION: Response time exceeds 500 ms

").
Proof. vm_compute. reflexivity. Qed.

Example analyze_400_against_500 :
  snd (call (AnalyzeResults.Handle Sample.env (analyze_request None))
         (Sample.analyzed_db (lit 400 0) (Some 500%Z) (Some (lit 1 (-4))))) =
  Returned (ToolText
"# Performance Analysis

## Run ID: 1

### /api/endpoint
- Avg Response Time: 400.00 ms
- Error Rate: 2.00%

").
Proof. vm_compute. reflexivity. Qed.

(** The comparison is strict: an average equal to the threshold is not a
    violation. *)
Example analyze_500_against_500 :
  sla_lines (Sample.analyzed_db (lit 500 0) (Some 500%Z) (Some (lit 1 (-4))))
            "/api/endpoint" (lit 500 0) (lit 5764607523034235 (-58)) = [].
Proof. vm_compute. reflexivity. Qed.

(** C5 fails on the code.  The endpoint record for [/api/endpoint] has a
    response-time threshold of 500 and no error-rate threshold; the sample's
    average of 600 is strictly greater than the threshold, and yet the
    report has no violation line.  With an error-rate threshold in the same
    record, the same sample is flagged. *)
Lemma sla_unchecked_without_both_thresholds :
  float64_gt (lit 600 0) (float64_of_int 500) = true /\
  AnalyzeResults.select_sla "/api/endpoint"
    (Sample.analyzed_db (lit 600 0) (Some 500%Z) None) =
    Err AnalyzeResults.ErrNull /\
  snd (call (AnalyzeResults.Handle Sample.env (analyze_request None))
         (Sample.analyzed_db (lit 600 0) (Some 500%Z) None)) =
  Returned (ToolText
"# Performance Analysis

## Run ID: 1

### /api/endpoint
- Avg Response Time: 600.00 ms
- Error Rate: 2.00%

") /\
  In (AnalyzeResults.LSlaTime 500)
     (report_lines Sample.env
        (Sample.analyzed_db (lit 600 0) (Some 500%Z) (Some (lit 1 (-4))))
        "1" false).
Proof. vm_compute. repeat split; try reflexivity. right. right. right. right. right. now left. Qed.

(** Run 1 is the only run of [Sample.analyzed_db]. *)
Lemma analyze_without_history_witness :
  sample_lines Sample.env (Sample.analyzed_db (lit 600 0) None None) "1" true
    (sample_of (lit 600 0)) =
  sample_lines Sample.env (Sample.analyzed_db (lit 600 0) None None) "1" false
    (sample_of (lit 600 0)).
Proof.
  apply (@analyze_without_history Sample.env (fun n => eq_refl) "1"
           (Sample.analyzed_db (lit 600 0) None None)
           "/api/endpoint" (lit 600 0) (lit 5764607523034235 (-58))
           (or_introl eq_refl) eq_refl).
Defined.

(** C6 as stated fails: with [compareHistory] and no other run, the report
    says nothing about history; the words "no historical data" do not
    occur. *)
Lemma no_history_is_not_reported :
  AnalyzeResults.history_rows "/api/endpoint" "1"
    (Sample.analyzed_db (lit 600 0) None None) = [] /\
  snd (call (AnalyzeResults.Handle Sample.env (analyze_request (Some "true")))
         (Sample.analyzed_db (lit 600 0) None None)) =
  Returned (ToolText
"# Performance Analysis

## Run ID: 1

### /api/endpoint
- Avg Response Time: 600.00 ms
- Error Rate: 2.00%

") /\
  Contains
"# Performance Analysis

## Run ID: 1

### /api/endpoint
- Avg Response Time: 600.00 ms
- Error Rate: 2.00%

" "no historical data" = false.
Proof. vm_compute. repeat split; reflexivity. Qed.

(** ** Cleanup of the containerized runtime *)

Section PostRules.
Context {R : Type}.

Lemma Post_return (r : R) (Q : list event -> Prop) :
  Q [] -> Post (return_ r) Q.
Proof.
  intros HQ w ds tail S. exists []. split; [|exact HQ].
  unfold return_, finish. specialize (S w None).
  destruct (unwind ds w None) as [w' p]. exact S.
Qed.

Lemma Post_bind_return {A} (r : R) (k : A -> M R R) (Q : list event -> Prop) :
  Q [] -> Post (bind (return_ r) k) Q.
Proof. intros HQ. exact (Post_return r Q HQ). Qed.

Lemma Post_bind_panic {A} (msg : string) (k : A -> M R R)
  (Q : list event -> Prop) :
  Q [] -> Post (bind (panic msg) k) Q.
Proof.
  intros HQ w ds tail S. exists []. split; [|exact HQ].
  unfold bind, panic, finish. specialize (S w (Some msg)).
  destruct (unwind ds w (Some msg)) as [w' p]. exact S.
Qed.

Lemma Post_bind_ret {A} (a : A) (k : A -> M R R) (Q : list event -> Prop) :
  Post (k a) Q -> Post (bind (ret a) k) Q.
Proof. intros H. exact H. Qed.

Lemma Post_bind_lift {A} (a : IO A) (k : A -> M R R) (ea : list event)
  (Q : list event -> Prop) :
  io_emits a ea ->
  (forall w, Post (k (snd (a w))) (fun evs => Q (ea ++ evs)%list)) ->
  Post (bind (lift a) k) Q.
Proof.
  intros Ha Hk w ds tail S.
  destruct (Hk w (fst (a w)) ds tail S) as (evs & E & HQ).
  exists (ea ++ evs)%list. split; [|exact HQ].
  unfold bind, lift. specialize (Ha w).
  destruct (a w) as [w' x]. cbn [fst snd] in *.
  rewrite E, Ha. now rewrite <- !app_assoc.
Qed.

Lemma Post_bind_defer (d : deferred) (k : unit -> M R R) (dl : list event)
  (Q : list event -> Prop) :
  d_emits d dl ->
  Post (k tt) (fun evs => Q (evs ++ dl)%list) ->
  Post (bind (defer d) k) Q.
Proof.
  intros Hd Hk w ds tail S.
  assert (S' : stack_emits (d :: ds) (dl ++ tail)).
  { intros w0 p0. cbn [unwind]. specialize (Hd w0).
    destruct (d w0) as [w1 q]. cbn [fst] in Hd.
    rewrite S, Hd. now rewrite <- app_assoc. }
  destruct (Hk w (d :: ds) (dl ++ tail)%list S') as (evs & E & HQ).
  exists (evs ++ dl)%list. split; [|exact HQ].
  unfold bind, defer. rewrite E. now rewrite <- !app_assoc.
Qed.

Lemma Post_bind_assoc {A B} (m : M R A) (f : A -> M R B) (k : B -> M R R)
  (Q : list event -> Prop) :
  Post (bind m (fun x => bind (f x) k)) Q -> Post (bind (bind m f) k) Q.
Proof.
  intros H w ds tail S. destruct (H w ds tail S) as (evs & E & HQ).
  exists evs. split; [|exact HQ]. rewrite <- E. unfold bind.
  destruct (m w ds) as [[w' ds'] [a | r | msg]]; reflexivity.
Qed.

(** At the end of a call of the function *)
Lemma Post_call (body : M R R) (Q : list event -> Prop) (d : DB) :
  Post body Q -> Q (crit (fst (call body d))).
Proof.
  intros H. destruct (H (init_world d) [] []) as (evs & E & HQ).
  - intros w p. cbn. now rewrite app_nil_r.
  - unfold call. rewrite E. cbn. now rewrite app_nil_r.
Qed.

End PostRules.

Lemma io_emits_ret {A} (a : A) : io_emits (io_ret a) [].
Proof. intros w. cbn. now rewrite app_nil_r. Qed.

Lemma io_emits_bind {A B} (m : IO A) (k : A -> IO B) (e1 e2 : list event) :
  io_emits m e1 -> (forall x, io_emits (k x) e2) ->
  io_emits (io_bind m k) (e1 ++ e2).
Proof.
  intros Hm Hk w. unfold io_bind. specialize (Hm w).
  destruct (m w) as [w' x]. cbn [fst] in Hm. rewrite Hk, Hm.
  now rewrite app_assoc.
Qed.

Lemma io_silent_bind {A B} (m : IO A) (k : A -> IO B) :
  io_emits m [] -> (forall x, io_emits (k x) []) -> io_emits (io_bind m k) [].
Proof. intros Hm Hk. exact (@io_emits_bind _ _ m k [] [] Hm Hk). Qed.

Lemma io_emits_emit (e : event) :
  io_emits (emit e) (if critical e then [e] else []).
Proof.
  intros w. unfold crit, emit. cbn. rewrite filter_app. cbn.
  now destruct (critical e).
Qed.

Lemma d_emits_quietly (m : IO unit) (evs : list event) :
  io_emits m evs -> d_emits (quietly m) evs.
Proof. intros H w. exact (H w). Qed.

Lemma crit_logged (e : event) (w : World) :
  crit (logged e w) = (crit w ++ (if critical e then [e] else []))%list.
Proof. unfold crit, logged. cbn. rewrite filter_app. cbn. now destruct (critical e). Qed.

Lemma crit_stated (s : stmt) (ok : bool) (d : DB) (w : World) :
  crit (stated s ok d w) = crit w.
Proof. unfold crit, stated. cbn. rewrite filter_app. cbn. apply app_nil_r. Qed.

Create HintDb emits.

Ltac silent_tac :=
  repeat (intros; first
    [ apply io_emits_ret
    | solve [eauto with emits]
    | match goal with
      | |- io_emits (io_bind _ _) _ => apply io_silent_bind
      | |- io_emits (match ?x with _ => _ end) _ => destruct x
      end ]).

Section EmitsProps.
Variable env : Env.

Lemma sql_exec_silent {A} (s : stmt) (run : Z -> DB -> DB * A) :
  io_emits (sql_exec env s run) [].
Proof.
  intros w. rewrite app_nil_r.
  destruct (sql_fails env (sql_seq w)) as [msg|] eqn:F.
  - rewrite (sql_exec_rejected _ _ _ _ F). apply crit_stated.
  - rewrite (sql_exec_served _ _ _ _ F). apply crit_stated.
Qed.

Lemma sql_query_row_silent {A} (s : stmt) (sel : DB -> result A) :
  io_emits (sql_query_row env s sel) [].
Proof.
  intros w. rewrite app_nil_r.
  destruct (sql_fails env (sql_seq w)) as [msg|] eqn:F.
  - rewrite (sql_query_row_rejected _ _ _ _ F). apply crit_stated.
  - rewrite (sql_query_row_served _ _ _ _ F). apply crit_stated.
Qed.

Lemma sql_query_silent {A} (s : stmt) (sel : DB -> list A) :
  io_emits (sql_query env s sel) [].
Proof.
  intros w. rewrite app_nil_r.
  destruct (sql_fails env (sql_seq w)) as [msg|] eqn:F.
  - unfold sql_query, io_bind, next_sql, emit, io_ret. cbn. rewrite F.
    apply (crit_stated s false (db w) w).
  - rewrite (sql_query_served _ _ _ _ F). apply crit_stated.
Qed.

Lemma time_now_unix_silent : io_emits (time_now_unix env) [].
Proof. intros w. now rewrite app_nil_r. Qed.

Lemma http_Get_silent (url : string) : io_emits (http_Get env url) [].
Proof. intros w. rewrite http_Get_eq. apply crit_logged. Qed.

Lemma os_ReadFile_silent (path : string) : io_emits (os_ReadFile env path) [].
Proof. intros w. rewrite os_ReadFile_eq. apply crit_logged. Qed.

Lemma os_MkdirAll_silent (dir : string) : io_emits (os_MkdirAll env dir) [].
Proof. intros w. rewrite os_MkdirAll_eq. apply crit_logged. Qed.

Lemma os_WriteFile_silent (path content : string) :
  io_emits (os_WriteFile env path content) [].
Proof. intros w. rewrite os_WriteFile_eq. apply crit_logged. Qed.

Lemma os_CreateTemp_silent (pattern : string) :
  io_emits (os_CreateTemp env pattern) [].
Proof.
  intros w. unfold os_CreateTemp.
  destruct (create_temp env pattern) as [name|msg].
  - apply (crit_logged (EvCreateTemp name)).
  - cbn. now rewrite app_nil_r.
Qed.

Lemma sleep_silent (n : nat) : io_emits (sleep n) [].
Proof. intros w. apply (crit_logged (EvSleep n)). Qed.

Lemma remove_silent (name : string) : io_emits (remove name) [].
Proof. intros w. apply (crit_logged (EvRemove name)). Qed.

Lemma write_string_silent (name : string) : io_emits (emit (EvWriteString name)) [].
Proof. intros w. apply (crit_logged (EvWriteString name)). Qed.

Lemma k6_silent (args : list string) : io_emits (exec_command env "k6" args) [].
Proof. intros w. rewrite exec_command_eq. apply crit_logged. Qed.

Lemma remove_all_emits (dir : string) :
  io_emits (remove_all dir) [EvRemoveAll dir].
Proof. intros w. apply (crit_logged (EvRemoveAll dir)). Qed.

Lemma compose_up_emits (p prj : string) :
  io_emits (compose_up env p prj)
    [up_event p prj
       (exited_ok (exec_result env "docker" (compose_args p prj ["up"; "-d"])))].
Proof. intros w. unfold compose_up. rewrite exec_command_eq. apply crit_logged. Qed.

Lemma compose_up_snd (p prj : string) (w : World) :
  snd (compose_up env p prj w) =
  exec_result env "docker" (compose_args p prj ["up"; "-d"]).
Proof. reflexivity. Qed.

Lemma compose_down_emits (p prj : string) :
  io_emits (compose_down env p prj)
    [down_event p prj
       (exited_ok (exec_result env "docker" (compose_args p prj ["down"; "-v"])))].
Proof. intros w. unfold compose_down. rewrite exec_command_eq. apply crit_logged. Qed.

#[local] Hint Resolve sql_exec_silent sql_query_row_silent sql_query_silent
  time_now_unix_silent http_Get_silent os_ReadFile_silent os_MkdirAll_silent
  os_WriteFile_silent os_CreateTemp_silent sleep_silent remove_silent
  write_string_silent k6_silent : emits.

Lemma FetchComposeContent_silent (source : string) :
  io_emits (FetchComposeContent env source) [].
Proof. unfold FetchComposeContent. silent_tac. Qed.

Lemma StoreComposeFile_silent (source content : string) :
  io_emits (StoreComposeFile env source content) [].
Proof. unfold StoreComposeFile. silent_tac. Qed.

Lemma WriteComposeToTemp_silent (content : string) (sessionId : Z) :
  io_emits (WriteComposeToTemp env content sessionId) [].
Proof. unfold WriteComposeToTemp. silent_tac. Qed.

Lemma ParseAndStoreMetrics_silent (runId : Z) (outputFile : string) :
  io_emits (ParseAndStoreMetrics env runId outputFile) [].
Proof. unfold ParseAndStoreMetrics. silent_tac. Qed.

Lemma discover_probe_services_silent (rows : list service_row)
  (discovered : list string) :
  io_emits (DiscoverSpecs.probe_services env rows discovered) [].
Proof.
  intros w. rewrite probe_services_spec. unfold crit. cbn [trace fst].
  rewrite filter_app, app_nil_r.
  induction (flat_map (candidates) rows) as [|u us IH]; cbn; [apply app_nil_r|].
  exact IH.
Qed.

Lemma store_specs_silent (sessionId i : Z) (specs : list string)
  (result : string) :
  io_emits (DiscoverSpecs.store_specs env sessionId i specs result) [].
Proof.
  revert i result. induction specs as [|spec rest IH]; intros i result;
    cbn [DiscoverSpecs.store_specs]; silent_tac.
Qed.

Lemma store_services_silent (sessionId : Z) (svcs : list (string * Service)) :
  io_emits (TestApplication.store_services env sessionId svcs) [].
Proof.
  induction svcs as [|[name service] rest IH];
    cbn [TestApplication.store_services]; silent_tac.
Qed.

Lemma auto_probe_paths_silent (sessionId : Z) (baseURL : string)
  (paths : list string) (st : Z * string) :
  io_emits (TestApplication.probe_paths env sessionId baseURL paths st) [].
Proof.
  induction paths as [|path rest IH];
    cbn [TestApplication.probe_paths]; silent_tac.
Qed.

#[local] Hint Resolve auto_probe_paths_silent : emits.

Lemma auto_probe_services_silent (sessionId : Z) (rows : list service_row)
  (st : Z * string) :
  io_emits (TestApplication.probe_services env sessionId rows st) [].
Proof.
  revert st. induction rows as [|row rest IH]; intros st;
    cbn [TestApplication.probe_services]; silent_tac.
Qed.

End EmitsProps.

(** The handlers keep the bracket. *)

#[local] Hint Resolve sql_exec_silent sql_query_row_silent sql_query_silent
  time_now_unix_silent http_Get_silent os_ReadFile_silent os_MkdirAll_silent
  os_WriteFile_silent os_CreateTemp_silent sleep_silent remove_silent
  write_string_silent k6_silent FetchComposeContent_silent
  StoreComposeFile_silent WriteComposeToTemp_silent
  ParseAndStoreMetrics_silent discover_probe_services_silent
  store_specs_silent store_services_silent auto_probe_services_silent
  io_emits_ret : emits.

Lemma down_deferred_emits (env : Env) (p prj : string) :
  d_emits (quietly (io_bind (compose_down env p prj) (fun _ => io_ret tt)))
    [down_event p prj
       (exited_ok (exec_result env "docker" (compose_args p prj ["down"; "-v"])))].
Proof.
  apply d_emits_quietly.
  rewrite <- (app_nil_r [down_event p prj _]).
  apply io_emits_bind; [apply compose_down_emits | intros; apply io_emits_ret].
Qed.

Lemma down_update_deferred_emits (env : Env) (p prj : string)
  (sessionId : Z) (status : string) :
  d_emits (quietly
    (io_bind (compose_down env p prj) (fun _ =>
     io_bind (sql_exec env UpdateSession (update_session sessionId status))
       (fun _ => io_ret tt))))
    [down_event p prj
       (exited_ok (exec_result env "docker" (compose_args p prj ["down"; "-v"])))].
Proof.
  apply d_emits_quietly.
  rewrite <- (app_nil_r [down_event p prj _]).
  apply io_emits_bind; [apply compose_down_emits | intros; silent_tac].
Qed.

Lemma remove_all_deferred_emits (dir : string) :
  d_emits (quietly (remove_all dir)) [EvRemoveAll dir].
Proof. apply d_emits_quietly, remove_all_emits. Qed.

Lemma silent_deferred_emits (m : IO unit) :
  io_emits m [] -> d_emits (quietly m) [].
Proof. apply d_emits_quietly. Qed.

Lemma panicking_deferred_emits (msg : string) :
  d_emits (fun w => (w, Some msg)) [].
Proof. intros w. cbn. now rewrite app_nil_r. Qed.

Ltac bracket_tac :=
  cbv beta; cbn [app]; unfold bracket;
  first [ left; reflexivity
        | right; left; do 2 eexists; reflexivity
        | right; right; do 3 eexists; reflexivity ].

Ltac post_step :=
  lazymatch goal with
  | |- Post (return_ _) _ => apply Post_return; bracket_tac
  | |- Post (bind (return_ _) _) _ => apply Post_bind_return; bracket_tac
  | |- Post (bind (panic _) _) _ => apply Post_bind_panic; bracket_tac
  | |- Post (bind (ret _) _) _ => apply Post_bind_ret
  | |- Post (bind (bind _ _) _) _ => apply Post_bind_assoc
  | |- Post (bind (lift (compose_up ?env ?p ?prj)) _) _ =>
      eapply Post_bind_lift; [apply compose_up_emits|];
      intros ?; rewrite compose_up_snd;
      destruct (exec_result env "docker" (compose_args p prj ["up"; "-d"]))
        as [[?|] ?]; unfold exited_ok; cbn [fst]
  | |- Post (bind (lift ?a) _) _ =>
      eapply Post_bind_lift; [solve [eauto with emits]|];
      let w := fresh "w" in
      intros w; generalize (snd (a w)); clear w; intros ?
  | |- Post (bind (defer (quietly (remove_all _))) _) _ =>
      eapply Post_bind_defer; [apply remove_all_deferred_emits|]
  | |- Post (bind (defer (quietly (io_bind (compose_down _ _ _) (fun _ => io_ret tt)))) _) _ =>
      eapply Post_bind_defer; [apply down_deferred_emits|]
  | |- Post (bind (defer (quietly (io_bind (compose_down _ _ _) _))) _) _ =>
      eapply Post_bind_defer; [apply down_update_deferred_emits|]
  | |- Post (bind (defer (quietly _)) _) _ =>
      eapply Post_bind_defer;
      [apply silent_deferred_emits; solve [eauto with emits]|]
  | |- Post (bind (defer _) _) _ =>
      eapply Post_bind_defer; [apply panicking_deferred_emits|]
  | |- Post (bind (match ?x with _ => _ end) _) _ => destruct x
  | |- Post (match ?x with _ => _ end) _ => destruct x
  end.

Ltac post_tac := repeat (cbv beta zeta; post_step).

Lemma discover_bracket (env : Env) (request : DiscoverSpecs.Request) :
  Post (DiscoverSpecs.Handle env request) bracket.
Proof. unfold DiscoverSpecs.Handle. post_tac. Qed.

Lemma run_bracket (env : Env) (request : RunPerformanceTest.Request) :
  Post (RunPerformanceTest.Handle env request) bracket.
Proof. unfold RunPerformanceTest.Handle. post_tac. Qed.

Lemma quick_bracket (env : Env) (request : QuickPerformanceTest.Request) :
  Post (QuickPerformanceTest.Handle env request) bracket.
Proof. unfold QuickPerformanceTest.Handle. post_tac. Qed.

Lemma auto_bracket (env : Env) (request : TestApplication.Request) :
  Post (TestApplication.Handle env request) bracket.
Proof. unfold TestApplication.Handle. post_tac. Qed.

Lemma handler_bracket (env : Env) (op : operation) :
  Post (handler env op) bracket.
Proof.
  destruct op; [apply discover_bracket | apply run_bracket
               | apply auto_bracket | apply quick_bracket].
Qed.

Lemma filter_cons_split {A} (f : A -> bool) (l : list A) (x : A) (xs : list A) :
  filter f l = x :: xs ->
  exists l1 l2, l = (l1 ++ x :: l2)%list /\ filter f l2 = xs.
Proof.
  induction l as [|a l IH]; cbn; [discriminate|].
  destruct (f a) eqn:Fa.
  - intros E. injection E as -> E. exists [], l. now split.
  - intros E. destruct (IH E) as (l1 & l2 & -> & E2).
    exists (a :: l1), l2. now split.
Qed.

Lemma filter_implied {A} (f g : A -> bool) (l : list A) :
  (forall x, f x = true -> g x = true) ->
  filter f (filter g l) = filter f l.
Proof.
  intros I. induction l as [|a l IH]; cbn; [reflexivity|].
  destruct (g a) eqn:Ga; cbn.
  - now rewrite IH.
  - destruct (f a) eqn:Fa; [|exact IH].
    apply I in Fa. congruence.
Qed.

(** C1.  Whatever the environment does and however the operation ends
    (normal return, error return or panic), once the bring-up of a runtime
    has succeeded the operation's [docker] commands and directory removals
    are exactly: that bring-up, one [docker compose down -v] for the same
    file and project, and then the removal of the working directory.  So
    the tear-down runs exactly once, and before the directory is removed. *)
Theorem teardown_exactly_once (env : Env) (op : operation) (d : DB)
  (composePath projectName : string)
  (up : In (up_event composePath projectName true)
           (trace (fst (call (handler env op) d)))) :
  let tr := trace (fst (call (handler env op) d)) in
  (exists ok,
     filter critical tr =
     [up_event composePath projectName true;
      down_event composePath projectName ok;
      EvRemoveAll (filepath_Dir composePath)]) /\
  List.length (filter is_down tr) = 1 /\
  (exists ok before between after,
     tr = (before ++ down_event composePath projectName ok :: between ++
           EvRemoveAll (filepath_Dir composePath) :: after)%list).
Proof.
  intros tr.
  assert (C : exists ok,
     filter critical tr =
     [up_event composePath projectName true;
      down_event composePath projectName ok;
      EvRemoveAll (filepath_Dir composePath)]).
  { pose proof (Post_call d (handler_bracket env op)) as B.
    assert (I : In (up_event composePath projectName true) (filter critical tr))
      by (apply filter_In; split; [exact up | reflexivity]).
    unfold crit in B. fold tr in B.
    destruct B as [B | [(p & prj & B) | (p & prj & ok & B)]];
      rewrite B in I; cbn in I.
    - destruct I.
    - destruct I as [I | [I | []]]; discriminate I.
    - destruct I as [I | [I | [I | []]]]; try discriminate I.
      injection I as -> ->. exists ok. exact B. }
  split; [exact C|].
  destruct C as (ok & C). split.
  - rewrite <- (filter_implied is_down critical tr).
    + rewrite C. reflexivity.
    + intros [] H; try discriminate H. cbn in H |- *.
      now destruct (String.eqb cmd "docker").
  - destruct (filter_cons_split _ _ C) as (l0 & l1 & E0 & C1).
    destruct (filter_cons_split _ _ C1) as (before' & l2 & E1 & C2).
    destruct (filter_cons_split _ _ C2) as (between & after & E2 & _).
    exists ok, (l0 ++ up_event composePath projectName true :: before')%list,
      between, after.
    rewrite E0, E1, E2. now rewrite <- app_assoc.
Qed.

(** The bracket on the three kinds of exit of [run_performance_test]: the
    load tool succeeds; the load tool fails; the store rejects the insertion
    of the run and the handler panics. *)
Lemma teardown_exactly_once_witness :
  List.length
    (filter is_down
       (trace (fst (call (handler Sample.env (run_performance_test run_request))
                      Sample.db)))) = 1.
Proof.
  apply (@teardown_exactly_once Sample.env (run_performance_test run_request)
           Sample.db "/tmp/k6-test-1-1700000000/docker-compose.yml"
           "perftest-1700000000").
  vm_compute. do 4 right. left. reflexivity.
Defined.

Example teardown_on_error_return :
  let r := call (handler (Sample.failing_command "k6" Sample.env)
                   (run_performance_test run_request)) Sample.db in
  snd r = Returned (ToolError ("Test execution failed: exit status 1" ++ nl ++ "boom")) /\
  filter critical (trace (fst r)) =
  [up_event "/tmp/k6-test-1-1700000000/docker-compose.yml" "perftest-1700000000" true;
   down_event "/tmp/k6-test-1-1700000000/docker-compose.yml" "perftest-1700000000" true;
   EvRemoveAll "/tmp/k6-test-1-1700000000"].
Proof. vm_compute. split; reflexivity. Qed.

Example teardown_on_panic :
  let r := call (handler (Sample.failing_statement 2 Sample.env)
                   (run_performance_test run_request)) Sample.db in
  snd r = Panicked nil_deref /\
  filter critical (trace (fst r)) =
  [up_event "/tmp/k6-test-1-1700000000/docker-compose.yml" "perftest-1700000000" true;
   down_event "/tmp/k6-test-1-1700000000/docker-compose.yml" "perftest-1700000000" true;
   EvRemoveAll "/tmp/k6-test-1-1700000000"].
Proof. vm_compute. split; reflexivity. Qed.

(** ** Test executor *)

Lemma preceded_sound (p q : event -> bool) (tr : list event) (seen : bool) :
  preceded p q seen tr = true ->
  forall before e after, tr = (before ++ e :: after)%list -> q e = true ->
  seen = true \/ exists e', In e' before /\ p e' = true.
Proof.
  revert seen. induction tr as [|x tr IH]; intros seen P before e after E Q.
  - destruct before; discriminate E.
  - cbn in P. apply andb_prop in P. destruct P as [P1 P2].
    destruct before as [|b before]; cbn in E; injection E as -> E.
    + rewrite Q in P1. cbn in P1. now left.
    + destruct (IH _ P2 _ _ _ E Q) as [S | (e' & I & Pe)].
      * apply orb_prop in S. destruct S as [S | S]; [now left|].
        right. exists b. split; [now left | exact S].
      * right. exists e'. split; [now right | exact Pe].
Qed.

Lemma next_id_above {R} (id : R -> Z) (rows : list R) (r : R) :
  In r rows -> (id r < next_id id rows)%Z.
Proof.
  unfold next_id. induction rows as [|a rows IH]; cbn; [intros []|].
  intros [<- | I]; [lia|]. specialize (IH I). lia.
Qed.

Lemma update_new_run (rows : list test_run_row) (row : test_run_row)
  (results : option string) (now : Z) (d : DB) :
  tr_id row = next_id tr_id rows ->
  test_runs (fst (update_test_run (tr_id row) results now
                    (set_test_runs (rows ++ [row]) d))) =
  (rows ++
   [{| tr_id := tr_id row; tr_test_id := tr_test_id row;
       tr_completed_at := Some now; tr_vus := tr_vus row;
       tr_duration := tr_duration row;
       tr_results := match results with
                     | Some out => Some out
                     | None => tr_results row
                     end |}])%list.
Proof.
  intros E. unfold update_test_run, set_test_runs. cbn [fst test_runs].
  rewrite map_app. cbn [map]. rewrite Z.eqb_refl. f_equal.
  rewrite <- (map_id rows) at 2. apply map_ext_in. intros r I.
  pose proof (next_id_above tr_id rows r I) as L.
  destruct (Z.eqb_spec (tr_id r) (tr_id row)) as [E'|]; [lia | reflexivity].
Qed.

Lemma in_k6_runs (tr : list event) (args : list string) (ok : bool) :
  In (EvExec "k6" args ok) tr -> In (args, ok) (k6_runs tr).
Proof.
  induction tr as [|e tr IH]; [intros []|].
  intros [-> | I]; cbn.
  - now left.
  - destruct e; auto. destruct (String.eqb cmd "k6"); [right|]; auto.
Qed.

Lemma insert_before_k6 (tr : list event) :
  preceded is_run_insert is_k6 false tr = true ->
  forall before args ok after,
    tr = (before ++ EvExec "k6" args ok :: after)%list ->
    In (EvSql InsertTestRun true) before.
Proof.
  intros P before args ok after E.
  destruct (@preceded_sound is_run_insert is_k6 tr false P before _ after E eq_refl)
    as [H | (e' & I & Pe)];
    [discriminate H|].
  destruct e' as [| | | | | | | | | |s ok']; try discriminate Pe.
  destruct s; try discriminate Pe. destruct ok'; [exact I | discriminate Pe].
Qed.

(** Running a body step by step *)

Lemma bind_lift {R A B} (a : IO A) (k : A -> M R B) (w : World)
  (ds : list deferred) :
  bind (lift a) k w ds = k (snd (a w)) (fst (a w)) ds.
Proof. unfold bind, lift. now destruct (a w). Qed.

Lemma bind_assoc {R A B C} (m : M R A) (f : A -> M R B) (k : B -> M R C)
  (w : World) (ds : list deferred) :
  bind (bind m f) k w ds = bind m (fun x => bind (f x) k) w ds.
Proof.
  unfold bind. now destruct (m w ds) as [[w' ds'] [a | r | msg]].
Qed.

Ltac norm :=
  cbn [fst snd sql_seq db trace clock_seq stated logged init_world app].

Ltac sql_row :=
  lazymatch goal with
  | |- context [sql_query_row ?e ?s ?sel ?w] =>
      let F := fresh "F" in
      let n := eval cbn [sql_seq stated logged init_world] in (sql_seq w) in
      destruct (sql_fails e n) as [?msg|] eqn:F;
      [ rewrite (@sql_query_row_rejected e _ s sel w _ F)
      | rewrite (@sql_query_row_served e _ s sel w F) ]; norm
  end.

Ltac sql_ex :=
  lazymatch goal with
  | |- context [sql_exec ?e ?s ?run ?w] =>
      let F := fresh "F" in
      let n := eval cbn [sql_seq stated logged init_world] in (sql_seq w) in
      destruct (sql_fails e n) as [?msg|] eqn:F;
      [ rewrite (@sql_exec_rejected e _ s run w _ F)
      | rewrite (@sql_exec_served e _ s run w F) ]; norm
  end.

Ltac leaf :=
  cbn [finish unwind quietly compose_down remove_all remove exec_command emit
       io_bind io_ret fst snd return_ panic bind];
  norm.

Ltac sql_q :=
  lazymatch goal with
  | |- context [sql_query ?e ?s ?sel ?w] =>
      let F := fresh "F" in
      let n := eval cbn [sql_seq stated logged init_world] in (sql_seq w) in
      destruct (sql_fails e n) as [?msg|] eqn:F;
      [ rewrite (@sql_query_rejected e _ s sel w _ F)
      | rewrite (@sql_query_served e _ s sel w F) ]; norm
  end.

Section ExecutorProps.
Variable env : Env.

Lemma WriteComposeToTemp_eq (content : string) (sessionId : Z) (w : World) :
  let now := now_unix env (clock_seq w) in
  let tempDir :=
    filepath_Join (TempDir env) ("k6-test-" ++ itoa sessionId ++ "-" ++ itoa now) in
  let composePath := filepath_Join tempDir "docker-compose.yml" in
  let w0 := {| db := db w; trace := trace w; sql_seq := sql_seq w;
               clock_seq := S (clock_seq w) |} in
  WriteComposeToTemp env content sessionId w =
  match mkdir_all env tempDir with
  | Some err => (logged (EvMkdirAll tempDir) w0, Err err)
  | None =>
      match write_file env composePath content with
      | Some err =>
          (logged (EvWriteFile composePath) (logged (EvMkdirAll tempDir) w0),
           Err err)
      | None =>
          (logged (EvWriteFile composePath) (logged (EvMkdirAll tempDir) w0),
           Ok composePath)
      end
  end.
Proof.
  cbv zeta. unfold WriteComposeToTemp, io_bind, time_now_unix.
  rewrite os_MkdirAll_eq. destruct (mkdir_all env _); [reflexivity|].
  rewrite os_WriteFile_eq. now destruct (write_file env _ content).
Qed.

Ltac no_k6 :=
  let I := fresh "I" in
  intros ? I; apply in_k6_runs in I; cbn in I; destruct I.

Ltac quiet_leaf :=
  leaf; unfold lifecycle; norm;
  split; [apply insert_before_k6; reflexivity | split; no_k6].

Lemma Handle_lifecycle (request : RunPerformanceTest.Request) (d : DB) :
  lifecycle env d (call (RunPerformanceTest.Handle env request) d).
Proof.
  unfold call, RunPerformanceTest.Handle.
  destruct (RunPerformanceTest.testId request) as [testId|].
  2:{ quiet_leaf. }
  cbv zeta.
  rewrite bind_lift. sql_row.
  { quiet_leaf. }
  destruct (RunPerformanceTest.select_test testId d) as [[script sessionId]|err].
  2:{ quiet_leaf. }
  rewrite bind_lift. sql_row.
  { quiet_leaf. }
  destruct (RunPerformanceTest.select_session_compose sessionId d) as [content|err].
  2:{ quiet_leaf. }
  rewrite bind_lift, WriteComposeToTemp_eq. norm.
  destruct (mkdir_all env _) as [err|].
  { quiet_leaf. }
  destruct (write_file env _ content) as [err|].
  { quiet_leaf. }
  norm.
  unfold bind at 1, defer at 1.
  rewrite bind_lift.
  change (time_now_unix env ?w) with
    ({| db := db w; trace := trace w; sql_seq := sql_seq w;
        clock_seq := S (clock_seq w) |}, now_unix env (clock_seq w)).
  norm.
  rewrite bind_lift. unfold compose_up. rewrite exec_command_eq.
  destruct (exec_result env "docker" _) as [[err|] containerOutput]; norm.
  { quiet_leaf. }
  unfold bind at 1, defer at 1.
  rewrite bind_lift. unfold sleep. rewrite emit_eq. norm.
  rewrite bind_lift, os_CreateTemp_eq.
  destruct (create_temp env "k6-test-*.js") as [tmpFile|err]; norm.
  2:{ quiet_leaf. }
  unfold bind at 1, defer at 1.
  rewrite bind_lift, emit_eq. norm.
  rewrite bind_lift. sql_ex.
  { unfold bind at 1, panic at 1. quiet_leaf. }
  unfold bind at 1, ret at 1.
  rewrite bind_lift, exec_command_eq.
  destruct (exec_result env "k6" _) as [[err|] output] eqn:K; norm.
  { leaf. unfold lifecycle; norm.
    split; [apply insert_before_k6; reflexivity | split].
    - intros args I. apply in_k6_runs in I. cbn in I.
      destruct I as [I | []]. injection I as <-.
      split; [eauto|]. split; [reflexivity|].
      eexists. split; [reflexivity|]. split; reflexivity.
    - intros args I. apply in_k6_runs in I. cbn in I.
      destruct I as [I | []]. discriminate I. }
  rewrite bind_lift. sql_ex.
  - (* the update is rejected *)
    rewrite bind_lift. unfold ParseAndStoreMetrics, io_bind at 1.
    sql_ex; leaf; unfold lifecycle; norm;
      (split; [apply insert_before_k6; reflexivity | split]);
      try (intros args I; apply in_k6_runs in I; cbn in I;
           destruct I as [I | []]; discriminate I);
      (intros args I; apply in_k6_runs in I; cbn in I;
       destruct I as [I | []]; injection I as <-;
       split; [reflexivity|]; intros U; exfalso; cbn [In] in U;
       repeat (destruct U as [U|U]; [discriminate U|]); exact U).
  - (* the update is accepted *)
    rewrite bind_lift. unfold ParseAndStoreMetrics, io_bind at 1.
    sql_ex; leaf; unfold lifecycle; norm;
      (split; [apply insert_before_k6; reflexivity | split]);
      try (intros args I; apply in_k6_runs in I; cbn in I;
           destruct I as [I | []]; discriminate I);
      (intros args I; apply in_k6_runs in I; cbn in I;
       destruct I as [I | []]; injection I as <-;
       split; [reflexivity|]; intros _; cbn in K; rewrite K;
       cbn [insert_metric test_runs insert_test_run fst snd];
       do 2 eexists; split;
       [ apply (update_new_run (test_runs d)
                 {| tr_id := next_id tr_id (test_runs d);
                    tr_test_id := RunPerformanceTest.ParseInt testId;
                    tr_completed_at := None;
                    tr_vus := GetInt (RunPerformanceTest.vus request) 10;
                    tr_duration := GetString (RunPerformanceTest.duration request) "30s";
                    tr_results := None |} (Some output) _ d eq_refl)
       | split; reflexivity ]).
Qed.

Ltac split_trace n :=
  lazymatch goal with
  | |- exists before after, ?tr = _ =>
      exists (firstn n tr), (skipn (S (S n)) tr); reflexivity
  end.

Ltac by_sql k :=
  match goal with H : sql_fails _ k = _ |- _ => rewrite H end.

Lemma Handle_executed (request : RunPerformanceTest.Request) (d : DB)
  (testId script content tmpFile : string) (sessionId : Z) :
  ready_to_run env d request testId script content tmpFile sessionId ->
  executed env d request testId tmpFile
    (call (RunPerformanceTest.Handle env request) d).
Proof.
  intros (T & F0 & F1 & S1 & S2 & Mk & Wr & Up & Tmp).
  unfold call, RunPerformanceTest.Handle. rewrite T. cbv zeta.
  rewrite bind_lift. sql_row; [congruence|]. rewrite S1.
  rewrite bind_lift. sql_row; [congruence|]. rewrite S2.
  rewrite bind_lift, WriteComposeToTemp_eq. norm.
  fold (temp_dir env sessionId (now_unix env 0)).
  rewrite Mk, Wr. norm.
  unfold bind at 1, defer at 1.
  rewrite bind_lift.
  change (time_now_unix env ?w) with
    ({| db := db w; trace := trace w; sql_seq := sql_seq w;
        clock_seq := S (clock_seq w) |}, now_unix env (clock_seq w)).
  norm.
  rewrite bind_lift. unfold compose_up. rewrite exec_command_eq.
  destruct (exec_result env "docker" _) as [[err|] containerOutput];
    [discriminate Up|]. norm.
  unfold bind at 1, defer at 1.
  rewrite bind_lift. unfold sleep. rewrite emit_eq. norm.
  rewrite bind_lift, os_CreateTemp_eq. rewrite Tmp. norm.
  unfold bind at 1, defer at 1.
  rewrite bind_lift, emit_eq. norm.
  rewrite bind_lift. sql_ex.
  { unfold bind at 1, panic at 1. leaf. unfold executed. norm. by_sql 2.
    split; [cbn [In]; tauto|]. repeat split. }
  unfold bind at 1, ret at 1.
  rewrite bind_lift, exec_command_eq.
  cbn [insert_test_run fst snd].
  fold (new_run d testId (GetInt (RunPerformanceTest.vus request) 10)
          (GetString (RunPerformanceTest.duration request) "30s")).
  set (row := new_run d testId _ _).
  change (next_id tr_id (test_runs d)) with (tr_id row).
  destruct (exec_result env "k6" _) as [[err|] output] eqn:K; norm.
  { leaf. unfold executed. norm. by_sql 2. cbv zeta. fold row. rewrite K.
    unfold exited_ok. cbn [fst].
    split; [split_trace 8|]. repeat split. }
  rewrite bind_lift. sql_ex.
  - rewrite bind_lift. unfold ParseAndStoreMetrics, io_bind at 1.
    sql_ex; leaf; unfold executed; norm; by_sql 2; cbv zeta; fold row;
      rewrite K; unfold exited_ok; cbn [fst];
      (split; [split_trace 8|]); (split; [reflexivity|]);
      (split; [reflexivity|]); by_sql 3; (split; reflexivity).
  - rewrite bind_lift. unfold ParseAndStoreMetrics, io_bind at 1.
    sql_ex; leaf; unfold executed; norm; by_sql 2; cbv zeta; fold row;
      rewrite K; unfold exited_ok; cbn [fst];
      (split; [split_trace 8|]); (split; [reflexivity|]);
      (split; [reflexivity|]); by_sql 3; (split; [reflexivity|]);
      cbn [insert_metric test_runs fst snd];
      apply (update_new_run (test_runs d) row (Some output) _ d eq_refl).
Qed.

(** C7.  In every run of [run_performance_test]: each invocation of the
    load tool comes after the accepted insertion of the run's row; when the
    load tool exits with a non-zero status, the operation answers the error
    that carries the tool's combined output, no update of the row is issued,
    and the row stands in the store without completion time and without
    results; when it exits with status zero, exactly one update of the row
    is issued, and once the store accepts it the row carries a completion
    time and the tool's output as its results.  And the operation does come
    to the run: once the test and its compose content are found, the
    working directory is written, the runtime is up and the script's file
    is created, the handler issues the INSERT of the row and, when the
    store accepts it, invokes the load tool once, right after the INSERT;
    the store then holds the new row, completed with the tool's output
    exactly when the tool exited with status zero and the store accepted
    the UPDATE. *)
Theorem test_run_lifecycle (request : RunPerformanceTest.Request) (d : DB) :
  let res := call (RunPerformanceTest.Handle env request) d in
  let tr := trace (fst res) in
  let runs := test_runs (db (fst res)) in
  (forall before args ok after,
     tr = (before ++ EvExec "k6" args ok :: after)%list ->
     In (EvSql InsertTestRun true) before) /\
  (forall args, In (EvExec "k6" args false) tr ->
     (exists err output,
        exec_result env "k6" args = (Some err, output) /\
        snd res = Returned (ToolError
                    ("Test execution failed: " ++ err ++ nl ++ output))) /\
     filter is_run_update tr = [] /\
     exists row, runs = (test_runs d ++ [row])%list /\
                 tr_completed_at row = None /\ tr_results row = None) /\
  (forall args, In (EvExec "k6" args true) tr ->
     List.length (filter is_run_update tr) = 1 /\
     (In (EvSql UpdateTestRun true) tr ->
      exists row now,
        runs = (test_runs d ++ [row])%list /\
        tr_completed_at row = Some now /\
        tr_results row = Some (snd (exec_result env "k6" args)))) /\
  (forall testId script content tmpFile sessionId,
     ready_to_run env d request testId script content tmpFile sessionId ->
     executed env d request testId tmpFile res).
Proof.
  cbv zeta. pose proof (Handle_lifecycle request d) as (A & B & C).
  split; [exact A|]. split; [exact B|]. split; [exact C|].
  intros testId script content tmpFile sessionId.
  apply Handle_executed.
Qed.

End ExecutorProps.

Example run_failed_leaves_row_incomplete :
  let res := call (RunPerformanceTest.Handle
                     (Sample.failing_command "k6" Sample.env) run_request)
                  Sample.db in
  snd res = Returned (ToolError ("Test execution failed: exit status 1" ++ nl ++ "boom")) /\
  test_runs (db (fst res)) =
  [{| tr_id := 1; tr_test_id := 1; tr_completed_at := None; tr_vus := 10;
      tr_duration := "30s"; tr_results := None |}].
Proof. vm_compute. split; reflexivity. Qed.

Example run_succeeded_completes_row :
  let res := call (RunPerformanceTest.Handle Sample.env run_request) Sample.db in
  test_runs (db (fst res)) =
  [{| tr_id := 1; tr_test_id := 1; tr_completed_at := Some 1700000000%Z;
      tr_vus := 10; tr_duration := "30s"; tr_results := Some "done" |}] /\
  filter is_run_update (trace (fst res)) = [EvSql UpdateTestRun true].
Proof. vm_compute. split; reflexivity. Qed.

(** At the sample environment the run is reached, the load tool is invoked
    once for the new row, and the row is completed. *)
Lemma test_run_lifecycle_witness :
  let res := call (RunPerformanceTest.Handle Sample.env run_request) Sample.db in
  k6_runs (trace (fst res)) =
    [(RunPerformanceTest.k6_args 10 "30s" "/tmp/k6-results-1.json"
        "/tmp/k6-test-*.js", true)] /\
  test_runs (db (fst res)) =
    [{| tr_id := 1; tr_test_id := 1; tr_completed_at := Some 1700000000%Z;
        tr_vus := 10; tr_duration := "30s"; tr_results := Some "done" |}].
Proof.
  cbv zeta.
  pose proof (@test_run_lifecycle Sample.env run_request Sample.db) as H.
  cbv zeta in H. destruct H as (_ & _ & _ & H).
  assert (R : ready_to_run Sample.env Sample.db run_request "1"
                (Generator.generateK6APITest "1" "" "load") Sample.compose_yml
                "/tmp/k6-test-*.js" 1) by (repeat split).
  specialize (H _ _ _ _ _ R). vm_compute in H.
  destruct H as (_ & K & _ & _ & Rn). split; [exact K | exact Rn].
Defined.

(** ** Discovery, at the handler *)

Lemma filter_http_gets (urls : list string) :
  filter is_http_get (map EvHttpGet urls) = map EvHttpGet urls.
Proof. induction urls as [|u urls IH]; cbn; [reflexivity | now rewrite IH]. Qed.

Lemma filter_http_allowed (evs : list event) :
  forallb not_http_get evs = true -> filter is_http_get evs = [].
Proof.
  induction evs as [|e evs IH]; cbn; [reflexivity|].
  unfold not_http_get at 1. destruct (is_http_get e); cbn; [discriminate|].
  exact IH.
Qed.

Lemma hd_Split_cons (c : ascii) (s : string) (sep : ascii) :
  hd "" (Split (String c s) sep) =
  if Ascii.eqb c sep then "" else String c (hd "" (Split s sep)).
Proof.
  cbn [Split]. destruct (Ascii.eqb c sep); [reflexivity|].
  pose proof (Split_nonempty s sep) as N.
  destruct (Split s sep); [contradiction | reflexivity].
Qed.

Lemma hd_Split_app (a b : string) (sep : ascii) :
  hd "" (Split (a ++ String sep b) sep) = hd "" (Split a sep).
Proof.
  induction a as [|c a IH].
  - cbn. now rewrite Ascii.eqb_refl.
  - cbn [append]. rewrite !hd_Split_cons. now rewrite IH.
Qed.

Lemma hd_Split_Join (p : string) (rest : list string) :
  hd "" (Split (Join (p :: rest) ",") ",") = hd "" (Split p ",").
Proof.
  destruct rest as [|q rest]; [reflexivity|].
  change (Join (p :: q :: rest) ",") with (p ++ String "," (Join (q :: rest) ",")).
  apply hd_Split_app.
Qed.


Section DiscoverHandleProps.
Variable env : Env.

Lemma store_specs_result (sessionId i : Z) (specs : list string)
  (result : string) (w : World) :
  snd (DiscoverSpecs.store_specs env sessionId i specs result w) =
  result ++ numbered i specs.
Proof.
  revert i result w. induction specs as [|spec rest IH]; intros i result w.
  - cbn. now rewrite append_nil_r.
  - cbn [DiscoverSpecs.store_specs numbered]. unfold io_bind.
    destruct (sql_exec env InsertApiSpec _ w) as [w' r].
    rewrite IH. now rewrite !append_assoc.
Qed.

(** Where [discover_api_specs], asked to auto-discover and given no
    explicit paths, answers a result, the result lists the specs of the
    services of the most recent session, in service order and then path
    order. *)
Theorem discover_lists_specs (d : DB) (text : string) :
  snd (call (DiscoverSpecs.Handle env discover_request) d) =
    Returned (ToolText text) ->
  exists sessionId composeFileId,
    select_latest_session d = Ok (sessionId, composeFileId) /\
    text = listing (specs_of env (select_services sessionId d)).
Proof.
  unfold call, DiscoverSpecs.Handle, discover_request.
  cbn [DiscoverSpecs.specPaths DiscoverSpecs.autoDiscover GetString].
  cbv zeta. cbn [String.eqb Ascii.eqb Bool.eqb negb].
  rewrite bind_lift. sql_row.
  { leaf. discriminate. }
  destruct (select_latest_session d) as [[sessionId composeFileId]|err].
  2:{ leaf. discriminate. }
  rewrite bind_lift. sql_row.
  { leaf. discriminate. }
  destruct (select_compose_content composeFileId d) as [content|err].
  2:{ leaf. discriminate. }
  rewrite bind_lift, WriteComposeToTemp_eq. norm.
  destruct (mkdir_all env _) as [err|].
  { leaf. discriminate. }
  destruct (write_file env _ content) as [err|].
  { leaf. discriminate. }
  norm.
  unfold bind at 1, defer at 1.
  rewrite bind_lift. unfold compose_up. rewrite exec_command_eq.
  destruct (exec_result env "docker" _) as [[err|] output]; norm.
  { leaf. discriminate. }
  unfold bind at 1, defer at 1.
  rewrite bind_lift. unfold sleep. rewrite emit_eq. norm.
  rewrite bind_assoc, bind_lift.
  sql_q.
  { leaf. discriminate. }
  rewrite bind_assoc. unfold bind at 1, defer at 1.
  rewrite bind_lift, probe_services_spec. norm.
  rewrite bind_lift. leaf.
  rewrite store_specs_result.
  intros H. injection H as <-.
  exists sessionId, composeFileId. split; reflexivity.
Qed.

Lemma sql_exec_no_get {A} (s : stmt) (run : Z -> DB -> DB * A) (w : World) :
  filter is_http_get (trace (fst (sql_exec env s run w))) =
  filter is_http_get (trace w).
Proof.
  destruct (sql_fails env (sql_seq w)) as [msg|] eqn:F.
  - rewrite (sql_exec_rejected _ _ _ _ F). cbn [fst stated trace].
    rewrite filter_app. apply List.app_nil_r.
  - rewrite (sql_exec_served _ _ _ _ F). cbn [fst stated trace].
    rewrite filter_app. apply List.app_nil_r.
Qed.

Lemma store_specs_no_get (sessionId i : Z) (specs : list string)
  (result : string) (w : World) :
  filter is_http_get
    (trace (fst (DiscoverSpecs.store_specs env sessionId i specs result w))) =
  filter is_http_get (trace w).
Proof.
  revert i result w. induction specs as [|spec rest IH]; intros i result w.
  - reflexivity.
  - cbn [DiscoverSpecs.store_specs]. unfold io_bind.
    pose proof (sql_exec_no_get InsertApiSpec
                  (fun _ : Z => insert_spec sessionId spec) w) as E.
    destruct (sql_exec env InsertApiSpec _ w) as [w' r].
    rewrite IH. exact E.
Qed.

(** The answer of [discover_api_specs] once the runtime is up, and the
    requests it has issued by then *)
Lemma Handle_discovers (request : DiscoverSpecs.Request) (d : DB)
  (sessionId composeFileId : Z) (content : string) :
  let specPaths := GetString (DiscoverSpecs.specPaths request) "" in
  let auto := String.eqb (GetString (DiscoverSpecs.autoDiscover request) "true")
                         "true" in
  let dir := temp_dir env sessionId (now_unix env 0) in
  let file := filepath_Join dir "docker-compose.yml" in
  let rows := select_services sessionId d in
  sql_fails env 0 = None -> sql_fails env 1 = None ->
  select_latest_session d = Ok (sessionId, composeFileId) ->
  select_compose_content composeFileId d = Ok content ->
  mkdir_all env dir = None ->
  write_file env file content = None ->
  fst (exec_result env "docker"
         (compose_args file ("discover-" ++ itoa sessionId) ["up"; "-d"])) = None ->
  (auto = true -> sql_fails env 2 = None) ->
  answers_after
    (listing (named_specs specPaths ++
              if auto then specs_of env rows else [])%list)
    (if auto then map EvHttpGet (flat_map (candidates) rows) else [])
    (call (DiscoverSpecs.Handle env request) d).
Proof.
  intros specPaths auto dir file rows F0 F1 L C Mk Wr Up Q.
  unfold call, DiscoverSpecs.Handle. cbv zeta.
  fold specPaths. fold auto.
  rewrite bind_lift. sql_row; [congruence|]. rewrite L.
  rewrite bind_lift. sql_row; [congruence|]. rewrite C.
  rewrite bind_lift, WriteComposeToTemp_eq. norm.
  fold (temp_dir env sessionId (now_unix env 0)). fold dir. fold file.
  rewrite Mk, Wr. norm.
  unfold bind at 1, defer at 1.
  rewrite bind_lift. unfold compose_up. rewrite exec_command_eq.
  destruct (exec_result env "docker" _) as [[err|] output]; [discriminate Up|].
  norm.
  unfold bind at 1, defer at 1.
  rewrite bind_lift. unfold sleep. rewrite emit_eq. norm.
  assert (M : (if negb (String.eqb specPaths "")
               then map TrimSpace (Split specPaths ",") else [])
              = named_specs specPaths).
  { unfold named_specs. now destruct (String.eqb specPaths ""). }
  rewrite M.
  destruct auto eqn:Au.
  - rewrite bind_assoc, bind_lift.
    sql_q; [specialize (Q eq_refl); congruence|].
    rewrite bind_assoc. unfold bind at 1, defer at 1.
    rewrite bind_lift, probe_services_spec. norm.
    rewrite bind_lift.
    match goal with
    | |- context [DiscoverSpecs.store_specs env ?sid ?i ?specs ?r ?w] =>
        pose proof (store_specs_result sid i specs r w) as SR;
        pose proof (store_specs_no_get sid i specs r w) as SG;
        destruct (DiscoverSpecs.store_specs env sid i specs r w) as [w3 text]
    end.
    cbn [fst snd] in *. leaf. unfold answers_after. norm.
    subst text. split; [reflexivity|].
    rewrite !filter_app, SG. cbn [trace].
    cbn [filter is_http_get app]. rewrite !List.app_nil_r.
    fold rows. now rewrite filter_http_gets.
  - unfold bind at 1, ret at 1.
    rewrite bind_lift.
    match goal with
    | |- context [DiscoverSpecs.store_specs env ?sid ?i ?specs ?r ?w] =>
        pose proof (store_specs_result sid i specs r w) as SR;
        pose proof (store_specs_no_get sid i specs r w) as SG;
        destruct (DiscoverSpecs.store_specs env sid i specs r w) as [w3 text]
    end.
    cbn [fst snd] in *. leaf. unfold answers_after. norm.
    subst text. rewrite List.app_nil_r.
    split; [reflexivity|].
    rewrite !filter_app, SG. reflexivity.
Qed.



End DiscoverHandleProps.

Example discover_sample :
  snd (call (DiscoverSpecs.Handle Sample.env discover_request) Sample.db) =
  Returned (ToolText
"Discovered 1 API specifications:
1. http://localhost:8080/openapi.json

Containers have been stopped.").
Proof. vm_compute. reflexivity. Qed.


(* ===================================================================== *)
(** * Further properties                                                 *)
(* ===================================================================== *)

(** ** Log levels *)

Section LoggingProps.
Import Logging.

Lemma index_levels_range (l : LogLevel) : (0 <= index levels l <= 4)%Z.
Proof.
  unfold levels, index.
  repeat match goal with |- context [String.eqb ?a l] => destruct (String.eqb a l) end;
    lia.
Qed.

Lemma index_levels_unknown (l : LogLevel) :
  known_level l = false -> index levels l = 0%Z.
Proof.
  unfold known_level, levels, index. cbn [map fst existsb].
  rewrite !(String.eqb_sym l).
  repeat match goal with |- context [String.eqb ?a l] => destruct (String.eqb a l) end;
    cbn; congruence.
Qed.

Lemma index_levels_fatal (l : LogLevel) :
  index levels l = 4%Z <-> l = LogLevelFATAL.
Proof.
  split.
  - unfold levels, index.
    repeat match goal with
           | |- context [String.eqb ?a l] => destruct (String.eqb_spec a l)
           end; try discriminate; try congruence.
  - intros ->. reflexivity.
Qed.

(** X1.  What is logged under a value of [MCP_LOG_LEVEL]: a value that is
    not empty and not one of the five upper-case names lets every level
    through (a missing key of the map is level 0, as [DEBUG]); with the
    variable unset the threshold is [INFO]: exactly the levels [INFO],
    [WARN], [ERROR] and [FATAL] pass, and any other level does not;
    [FATAL] always passes; [ERROR] is suppressed only under [FATAL]; and a
    successful database operation, logged at [DEBUG], is logged only under
    [DEBUG] or an unrecognised value. *)
Theorem shouldLog_thresholds (value level : string) :
  (value <> "" -> known_level value = false ->
   shouldLog (configured value) level = true) /\
  (shouldLog (configured "") level = true <->
   level = LogLevelINFO \/ level = LogLevelWARN \/ level = LogLevelERROR \/
   level = LogLevelFATAL) /\
  shouldLog (configured value) LogLevelFATAL = true /\
  (shouldLog (configured value) LogLevelERROR = false <-> value = LogLevelFATAL) /\
  (shouldLog (configured value) (database_level None) = true <->
   value = LogLevelDEBUG \/ (value <> "" /\ known_level value = false)).
Proof.
  assert (C : value <> "" -> configured value = value).
  { intros N. unfold configured. destruct (String.eqb_spec value ""); [contradiction | reflexivity]. }
  split; [|split; [|split; [|split]]].
  - intros N U. rewrite (C N). unfold shouldLog.
    rewrite (index_levels_unknown _ U).
    pose proof (index_levels_range level). apply Z.geb_le. lia.
  - unfold configured, shouldLog. cbn [String.eqb negb].
    change (index levels LogLevelINFO) with 1%Z.
    rewrite Z.geb_le. unfold levels, index.
    repeat match goal with
           | |- context [String.eqb ?a level] => destruct (String.eqb_spec a level)
           end; subst; split; intros H; try lia; auto;
      repeat (destruct H as [H|H]; try discriminate H; try congruence);
      try discriminate H; try congruence.
  - unfold shouldLog. change (index levels LogLevelFATAL) with 4%Z.
    pose proof (index_levels_range (configured value)). apply Z.geb_le. lia.
  - unfold shouldLog. change (index levels LogLevelERROR) with 3%Z.
    destruct (String.eqb_spec value "") as [->|N].
    + cbn. split; [discriminate | discriminate].
    + rewrite (C N). rewrite <- index_levels_fatal.
      pose proof (index_levels_range value).
      destruct (Z.geb_spec 3 (index levels value)); split; intros; try lia; try congruence.
  - unfold shouldLog, database_level. change (index levels LogLevelDEBUG) with 0%Z.
    destruct (String.eqb_spec value "") as [->|N].
    + cbn. split; [discriminate|]. intros [E | [E _]]; [discriminate E | contradiction].
    + rewrite (C N). pose proof (index_levels_range value).
      rewrite Z.geb_le. split.
      * intros L. assert (Z : index levels value = 0%Z) by lia.
        revert Z. unfold known_level, levels, index. cbn [map fst existsb].
        rewrite !(String.eqb_sym value).
        repeat match goal with
               | |- context [String.eqb ?a value] => destruct (String.eqb_spec a value)
               end; cbn; intros; try discriminate; auto.
      * intros [-> | [_ U]]; [cbn; lia|]. rewrite (index_levels_unknown _ U). lia.
Qed.

End LoggingProps.

Example shouldLog_lower_case_info :
  Logging.shouldLog (Logging.configured "info") Logging.LogLevelDEBUG = true /\
  Logging.shouldLog (Logging.configured "INFO") Logging.LogLevelDEBUG = false.
Proof. split; reflexivity. Qed.

(** ** Generated scripts *)

Lemma Join_cons (e : string) (rest : list string) (sep : string) :
  rest <> [] -> Join (e :: rest) sep = e ++ sep ++ Join rest sep.
Proof. destruct rest; [contradiction | reflexivity]. Qed.

Lemma Join_split_item (pre post : list string) (x y sep : string) :
  Join (pre ++ (x ++ sep ++ y)%string :: post)%list sep =
  Join (pre ++ x :: y :: post)%list sep.
Proof.
  induction pre as [|e pre IH].
  - cbn [app]. destruct post as [|p post].
    + cbn. reflexivity.
    + rewrite !Join_cons by discriminate. now rewrite !append_assoc.
  - cbn [app].
    rewrite !Join_cons by (destruct pre; discriminate).
    now rewrite IH.
Qed.

(** X2.  [GenerateJSArray] quotes without escaping: an empty slice gives
    [[]], one item gives the item between single quotes, and an item that
    contains [', '] is indistinguishable from two items, in the array and
    in the script [test_application] builds from it. *)
Theorem GenerateJSArray_does_not_escape (pre post : list string) (a b : string) :
  GenerateJSArray [] = "[]" /\
  GenerateJSArray [a] = "['" ++ a ++ "']" /\
  GenerateJSArray (pre ++ [(a ++ "', '" ++ b)%string] ++ post)%list =
  GenerateJSArray (pre ++ [a; b] ++ post)%list /\
  forall testVus testDuration testPort,
    TestApplication.script_of testVus testDuration testPort
      (pre ++ [(a ++ "', '" ++ b)%string] ++ post)%list =
    TestApplication.script_of testVus testDuration testPort
      (pre ++ [a; b] ++ post)%list.
Proof.
  assert (E : GenerateJSArray (pre ++ [(a ++ "', '" ++ b)%string] ++ post)%list =
              GenerateJSArray (pre ++ [a; b] ++ post)%list).
  { unfold GenerateJSArray. do 2 f_equal.
    rewrite !map_app. cbn [map app].
    rewrite <- (Join_split_item (map _ pre) (map _ post) ("'" ++ a ++ "'") ("'" ++ b ++ "'") ", ").
    do 3 f_equal. cbn. now rewrite !append_assoc. }
  split; [reflexivity|].
  split; [unfold GenerateJSArray; cbn; now rewrite !append_assoc|].
  split; [exact E|].
  intros. unfold TestApplication.script_of. now rewrite E.
Qed.

Section ExecutorScenarioProps.
Import Generator.

(** X3.  [GetExecutorType] and [GetScenarioConfig] agree for every test
    type: the executor is [ramping-vus] exactly for [stress],
    [ramping-arrival-rate] exactly for [spike] and [constant-vus] for
    everything else; the configuration has [stages:] exactly with a ramping
    executor, [vus:] exactly with [constant-vus], [startRate:] exactly with
    [ramping-arrival-rate], and never [preAllocatedVUs]. *)
Theorem executor_matches_scenario (testType : string) :
  (GetExecutorType testType = "ramping-vus" <-> testType = "stress") /\
  (GetExecutorType testType = "ramping-arrival-rate" <-> testType = "spike") /\
  (GetExecutorType testType = "constant-vus" <->
   testType <> "stress" /\ testType <> "spike") /\
  Contains (GetScenarioConfig testType) "stages:" =
    negb (String.eqb (GetExecutorType testType) "constant-vus") /\
  Contains (GetScenarioConfig testType) "vus:" =
    String.eqb (GetExecutorType testType) "constant-vus" /\
  Contains (GetScenarioConfig testType) "startRate:" =
    String.eqb (GetExecutorType testType) "ramping-arrival-rate" /\
  Contains (GetScenarioConfig testType) "preAllocatedVUs" = false.
Proof.
  unfold GetExecutorType, GetScenarioConfig.
  destruct (String.eqb_spec testType "stress") as [->|N1].
  - repeat split; try reflexivity; try discriminate; intros; try congruence.
    destruct H; congruence.
  - destruct (String.eqb_spec testType "spike") as [->|N2].
    + repeat split; try reflexivity; try discriminate; intros; try congruence.
      destruct H; congruence.
    + repeat split; try reflexivity; try discriminate; intros; try congruence; auto.
Qed.

End ExecutorScenarioProps.

(** ** Compose files *)

Section StoreAnswerProps.
Variable env : Env.

Lemma StoreComposeFile_cases (source content : string) (w : World) :
  let w' := fst (StoreComposeFile env source content w) in
  match snd (StoreComposeFile env source content w) with
  | Ok id =>
      exists row, In row (compose_files (db w')) /\ cf_id row = id /\
                  cf_hash row = fingerprint content /\
                  (In row (compose_files (db w)) \/
                   cf_source_url row = source /\ cf_content row = content /\
                   forall old, In old (compose_files (db w)) ->
                               (cf_id old < id)%Z)
  | Err msg =>
      db w' = db w /\ sql_fails env (S (sql_seq w)) = Some msg /\
      trace w' = (trace w ++ [EvSql SelectComposeByHash
                                (match sql_fails env (sql_seq w) with
                                 | None => true | Some _ => false end);
                              EvSql InsertComposeFile false])%list
  end.
Proof.
  cbv zeta. unfold StoreComposeFile, io_bind.
  assert (New : forall w0, db w0 = db w ->
    match sql_fails env (sql_seq w0) with
    | Some msg => True
    | None =>
       let r := sql_exec env InsertComposeFile
                  (fun _ : Z => insert_compose source content
                     (MD5.EncodeToString (MD5.Sum content))) w0 in
       exists row, In row (compose_files (db (fst r))) /\
         snd r = Ok (cf_id row) /\ cf_hash row = fingerprint content /\
         cf_source_url row = source /\ cf_content row = content /\
         forall old, In old (compose_files (db w)) -> (cf_id old < cf_id row)%Z
    end).
  { intros w0 E. destruct (sql_fails env (sql_seq w0)) as [msg|] eqn:F; [exact I|].
    cbv zeta. rewrite (sql_exec_served _ _ _ _ F).
    cbn [fst snd stated db insert_compose insert_compose_file compose_files].
    eexists. split; [apply in_or_app; right; left; reflexivity|].
    cbn [cf_id cf_hash cf_source_url cf_content]. rewrite E.
    repeat split. intros old O. now apply next_id_above. }
  destruct (sql_fails env (sql_seq w)) as [msg|] eqn:F0.
  - rewrite (sql_query_row_rejected _ _ _ _ F0).
    specialize (New (stated SelectComposeByHash false (db w) w) eq_refl).
    cbn [sql_seq stated] in New.
    destruct (sql_fails env (S (sql_seq w))) as [msg1|] eqn:F1.
    + rewrite (@sql_exec_rejected env _ _ _ _ msg1) by exact F1.
      cbn. repeat split. now rewrite <- app_assoc.
    + cbv zeta in New. destruct New as (row & I1 & E1 & H1 & S1 & C1 & O1).
      destruct (sql_exec env InsertComposeFile _ _) as [w1 r1].
      cbn [fst snd] in *. subst r1. cbn.
      exists row. repeat split; auto.
  - rewrite (sql_query_row_served _ _ _ _ F0).
    unfold select_compose_by_hash, first_row.
    destruct (find _ (compose_files (db w))) as [row|] eqn:Fd;
      cbn [option_map one_row].
    + apply find_some in Fd. destruct Fd as [I1 H1]. apply String.eqb_eq in H1.
      cbn. exists row. repeat split; auto.
    + specialize (New (stated SelectComposeByHash true (db w) w) eq_refl).
      cbn [sql_seq stated] in New.
      destruct (sql_fails env (S (sql_seq w))) as [msg1|] eqn:F1.
      * rewrite (@sql_exec_rejected env _ _ _ _ msg1) by exact F1.
        cbn. repeat split. now rewrite <- app_assoc.
      * cbv zeta in New. destruct New as (row & I1 & E1 & H1 & S1 & C1 & O1).
        destruct (sql_exec env InsertComposeFile _ _) as [w1 r1].
        cbn [fst snd] in *. subst r1. cbn.
        exists row. repeat split; auto.
Qed.

(** X4.  [FetchComposeContent] succeeds with [content] exactly when the
    source is an [http://] or [https://] URL whose GET answers status 200
    with the readable body [content], or any other text that [os.ReadFile]
    reads as [content]. *)
Theorem FetchComposeContent_succeeds_iff (source content : string) (w : World) :
  snd (FetchComposeContent env source w) = Ok content <->
  if is_url source then http_get env source = HttpResp 200 (Ok content)
  else read_file env source = Ok content.
Proof.
  unfold FetchComposeContent, is_url.
  destruct (HasPrefix source "http://" || HasPrefix source "https://").
  - unfold io_bind. rewrite http_Get_eq. cbn [snd].
    destruct (http_get env source) as [err|status body].
    + cbn. split; discriminate.
    + destruct (Z.eqb_spec status 200) as [->|N]; cbn [negb].
      * destruct body as [c|err]; cbn; split; intros E;
          try discriminate E; injection E as E; congruence.
      * cbn. split; [discriminate|]. intros E. injection E as E _. contradiction.
  - unfold io_bind. rewrite os_ReadFile_eq. cbn [snd].
    destruct (read_file env source) as [c|err]; cbn; split; intros E;
      try discriminate E; injection E as E; congruence.
Qed.

(** X5.  What [StoreComposeFile] answers, in every environment: an id is
    the id of a row that the table then holds and that carries the
    fingerprint of the content, either a row that was there before or a new
    row with the given source and content whose id is above every id of the
    table; an error is the rejection of the INSERT, after a lookup that
    missed or was rejected, and leaves the store as it was. *)
Theorem StoreComposeFile_answer (source content : string) (w : World) :
  let w' := fst (StoreComposeFile env source content w) in
  match snd (StoreComposeFile env source content w) with
  | Ok id =>
      exists row, In row (compose_files (db w')) /\ cf_id row = id /\
                  cf_hash row = fingerprint content /\
                  (In row (compose_files (db w)) \/
                   cf_source_url row = source /\ cf_content row = content /\
                   forall old, In old (compose_files (db w)) ->
                               (cf_id old < id)%Z)
  | Err msg =>
      db w' = db w /\ sql_fails env (S (sql_seq w)) = Some msg /\
      trace w' = (trace w ++ [EvSql SelectComposeByHash
                                (match sql_fails env (sql_seq w) with
                                 | None => true | Some _ => false end);
                              EvSql InsertComposeFile false])%list
  end.
Proof. exact (StoreComposeFile_cases source content w). Qed.

(** X6.  The lookup of [StoreComposeFile] is taken for a miss when the
    store rejects it: if the INSERT is then accepted, a new row is appended
    whatever the table holds, so the content's fingerprint is on one more
    row than before. *)
Theorem StoreComposeFile_duplicates (source content msg : string) (w : World) :
  sql_fails env (sql_seq w) = Some msg ->
  sql_fails env (S (sql_seq w)) = None ->
  let w' := fst (StoreComposeFile env source content w) in
  let id := next_id cf_id (compose_files (db w)) in
  snd (StoreComposeFile env source content w) = Ok id /\
  compose_files (db w') =
    (compose_files (db w) ++
     [{| cf_id := id; cf_source_url := source; cf_content := content;
         cf_hash := fingerprint content |}])%list /\
  List.length (rows_of content (db w')) =
    S (List.length (rows_of content (db w))).
Proof.
  intros F0 F1. cbv zeta. unfold StoreComposeFile, io_bind.
  rewrite (sql_query_row_rejected _ _ _ _ F0).
  rewrite sql_exec_served by exact F1.
  cbn [fst snd stated db insert_compose insert_compose_file compose_files io_ret].
  split; [reflexivity|]. split; [reflexivity|].
  unfold rows_of.
  cbn [fst snd stated db insert_compose insert_compose_file compose_files io_ret].
  rewrite filter_app, length_app.
  cbn [filter]. unfold has_hash at 2. cbn [cf_hash]. unfold fingerprint.
  rewrite String.eqb_refl. cbn. lia.
Qed.

End StoreAnswerProps.

Lemma StoreComposeFile_duplicates_witness :
  let env := Sample.failing_statement 0 Sample.env in
  let w := init_world Sample.db in
  List.length (rows_of Sample.compose_yml (db w)) = 1 /\
  List.length (rows_of Sample.compose_yml
                 (db (fst (StoreComposeFile env "./docker-compose.yml"
                             Sample.compose_yml w)))) = 2.
Proof.
  cbv zeta. split; [reflexivity|].
  apply (@StoreComposeFile_duplicates (Sample.failing_statement 0 Sample.env)
           "./docker-compose.yml" Sample.compose_yml "database is locked"
           (init_world Sample.db)); reflexivity.
Defined.

(** ** Working directories and runs *)

(** *** [filepath.Clean], [filepath.Join] and [filepath.Dir] *)

Lemma Split_app (a b : string) (sep : ascii) :
  Split (a ++ String sep b) sep = (Split a sep ++ Split b sep)%list.
Proof.
  induction a as [|c a IH].
  - cbn. now rewrite Ascii.eqb_refl.
  - cbn [append Split]. rewrite IH.
    destruct (Ascii.eqb c sep); [reflexivity|].
    pose proof (Split_nonempty a sep) as N.
    destruct (Split a sep); [contradiction | reflexivity].
Qed.

Lemma Split_slash_free (s : string) : slash_free s = true -> Split s "/" = [s].
Proof.
  induction s as [|c s IH]; [reflexivity|]. cbn [slash_free Split].
  intros H. apply andb_prop in H. destruct H as [C S].
  apply negb_true_iff in C. rewrite C, (IH S). reflexivity.
Qed.

Lemma Split_all_slash_free (s : string) :
  Forall (fun e => slash_free e = true) (Split s "/").
Proof.
  induction s as [|c s IH]; [repeat constructor|]. cbn [Split].
  destruct (Ascii.eqb c "/") eqn:C.
  - constructor; [reflexivity | exact IH].
  - destruct (Split s "/") as [|h t]; [repeat constructor; cbn; now rewrite C|].
    inversion IH as [|? ? H1 H2]; subst. constructor; [|exact H2].
    cbn. now rewrite C, H1.
Qed.

Lemma Join_snoc (l : list string) (x sep : string) :
  l <> [] -> Join (l ++ [x]) sep = Join l sep ++ sep ++ x.
Proof.
  induction l as [|a l IH]; [contradiction|]. intros _.
  destruct l as [|b l]; [reflexivity|].
  change (Join ((a :: b :: l) ++ [x]) sep)
    with (a ++ sep ++ Join ((b :: l) ++ [x]) sep).
  rewrite IH by discriminate.
  change (Join (a :: b :: l) sep) with (a ++ sep ++ Join (b :: l) sep).
  now rewrite <- !append_assoc.
Qed.

Lemma Split_Join (l : list string) :
  l <> [] -> Forall (fun e => slash_free e = true) l -> Split (Join l "/") "/" = l.
Proof.
  induction l as [|a l IH]; [contradiction|]. intros _ F.
  inversion F as [|? ? Fa Fl]; subst.
  destruct l as [|b l]; [now apply Split_slash_free|].
  change (Join (a :: b :: l) "/") with (a ++ String "/" (Join (b :: l) "/")).
  rewrite Split_app, (@Split_slash_free _ Fa), IH by (discriminate || assumption).
  reflexivity.
Qed.

Lemma kept_elem_slash_free (e : string) : kept_elem e = true -> slash_free e = true.
Proof. unfold kept_elem. intros H. now apply andb_prop in H. Qed.

Lemma stack_ok_all (r : bool) (kept : list string) :
  stack_ok r kept = true -> Forall (fun e => kept_elem e = true) kept.
Proof.
  induction kept as [|top below IH]; [constructor|]. cbn [stack_ok].
  intros H. apply andb_prop in H. destruct H as [H _].
  apply andb_prop in H. destruct H as [K S]. constructor; auto.
Qed.

(** Cleaning keeps the stack well formed. *)
Lemma clean_elem_ok (r : bool) (kept : list string) (e : string) :
  slash_free e = true -> stack_ok r kept = true ->
  stack_ok r (clean_elem r kept e) = true.
Proof.
  intros Fe K. unfold clean_elem.
  destruct (String.eqb e "") eqn:E0; [exact K|].
  destruct (String.eqb e ".") eqn:E1; [exact K|]. cbn [orb].
  destruct (String.eqb e "..") eqn:E2.
  - destruct kept as [|top below].
    + destruct r; [reflexivity|]. cbn [stack_ok]. unfold kept_elem.
      now rewrite E0, E1, E2, Fe.
    + destruct (String.eqb top "..") eqn:T.
      * assert (R : negb r = true).
        { cbn [stack_ok] in K. rewrite T in K.
          apply andb_prop in K. destruct K as [_ K].
          apply andb_prop in K. now destruct K. }
        change (stack_ok r (e :: top :: below))
          with (kept_elem e && stack_ok r (top :: below) &&
                (if String.eqb e ".." then negb r && String.eqb top ".." else true)).
        unfold kept_elem. now rewrite E0, E1, E2, Fe, K, R, T.
      * cbn [stack_ok] in K. apply andb_prop in K. destruct K as [K _].
        apply andb_prop in K. now destruct K.
  - cbn [stack_ok]. unfold kept_elem. now rewrite E0, E1, E2, Fe, K.
Qed.

Lemma fold_clean_ok (r : bool) (elems kept : list string) :
  Forall (fun e => slash_free e = true) elems -> stack_ok r kept = true ->
  stack_ok r (fold_left (clean_elem r) elems kept) = true.
Proof.
  revert kept. induction elems as [|e elems IH]; intros kept F K; [exact K|].
  inversion F as [|? ? Fe Fl]; subst. cbn [fold_left].
  apply IH; [exact Fl | now apply clean_elem_ok].
Qed.

(** A well-formed stack is what cleaning its own elements gives. *)
Lemma clean_elem_top (r : bool) (top : string) (below : list string) :
  stack_ok r (top :: below) = true -> clean_elem r below top = top :: below.
Proof.
  cbn [stack_ok]. intros H. apply andb_prop in H. destruct H as [H D].
  apply andb_prop in H. destruct H as [K _]. unfold kept_elem in K.
  apply andb_prop in K. destruct K as [K _].
  apply andb_prop in K. destruct K as [K0 K1].
  apply negb_true_iff in K0, K1. unfold clean_elem. rewrite K0, K1. cbn [orb].
  destruct (String.eqb top "..") eqn:T; [|reflexivity].
  apply String.eqb_eq in T. subst top.
  apply andb_prop in D. destruct D as [R B].
  destruct below as [|b below].
  - apply negb_true_iff in R. now rewrite R.
  - now rewrite B.
Qed.

Lemma fold_clean_rev (r : bool) (kept : list string) :
  stack_ok r kept = true -> fold_left (clean_elem r) (rev kept) [] = kept.
Proof.
  induction kept as [|top below IH]; [reflexivity|]. intros K.
  cbn [rev]. rewrite fold_left_app. cbn [fold_left].
  rewrite IH.
  - now apply clean_elem_top.
  - cbn [stack_ok] in K. apply andb_prop in K. destruct K as [K _].
    apply andb_prop in K. now destruct K.
Qed.

Lemma HasPrefix_app (a b : string) :
  a <> "" -> HasPrefix (a ++ b) "/" = HasPrefix a "/".
Proof.
  destruct a as [|c a]; [contradiction|]. intros _. cbn.
  now destruct (a ++ b), a.
Qed.

Lemma Join_rev_head (kept : list string) :
  kept <> [] -> Forall (fun e => kept_elem e = true) kept ->
  HasPrefix (Join (rev kept) "/") "/" = false /\ Join (rev kept) "/" <> "".
Proof.
  intros N F.
  assert (R : rev kept <> []).
  { intros E. apply N. rewrite <- (rev_involutive kept), E. reflexivity. }
  assert (F' : Forall (fun e => kept_elem e = true) (rev kept)).
  { apply Forall_forall. intros e I. apply in_rev in I.
    revert e I. now apply Forall_forall. }
  destruct (rev kept) as [|a l]; [contradiction|].
  inversion F' as [|? ? Fa _]; subst.
  unfold kept_elem in Fa. apply andb_prop in Fa. destruct Fa as [Fa S].
  apply andb_prop in Fa. destruct Fa as [A0 _]. apply negb_true_iff in A0.
  destruct a as [|c a]; [discriminate A0|].
  cbn [slash_free] in S. apply andb_prop in S. destruct S as [C _].
  apply negb_true_iff in C.
  destruct l; cbn; rewrite C; split; (reflexivity || discriminate).
Qed.

Lemma clean_out_facts (r : bool) (kept : list string) :
  kept <> [] -> stack_ok r kept = true ->
  clean_out r kept <> "" /\ HasPrefix (clean_out r kept) "/" = r /\
  Split (clean_out r kept) "/" = ((if r then [""] else []) ++ rev kept)%list.
Proof.
  intros N K. pose proof (@stack_ok_all r kept K) as F.
  destruct (@Join_rev_head kept N F) as [P NE].
  assert (SJ : Split (Join (rev kept) "/") "/" = rev kept).
  { apply Split_Join.
    - intros E. apply N. rewrite <- (rev_involutive kept), E. reflexivity.
    - apply Forall_forall. intros e I. apply in_rev in I.
      apply kept_elem_slash_free. revert e I. now apply Forall_forall. }
  unfold clean_out. destruct r.
  - split; [discriminate|]. split; [cbn; now destruct (Join (rev kept) "/")|].
    change ("/" ++ Join (rev kept) "/") with ("" ++ String "/" (Join (rev kept) "/")).
    now rewrite Split_app, SJ.
  - cbn [append]. split; [exact NE|]. split; [exact P | exact SJ].
Qed.

(** Cleaning a clean path that is followed by further elements *)
Lemma Clean_after (r : bool) (kept : list string) (rest : string) :
  kept <> [] -> stack_ok r kept = true ->
  filepath_Clean (clean_out r kept ++ "/" ++ rest) =
  let out := clean_out r (fold_left (clean_elem r) (Split rest "/") kept) in
  if String.eqb out "" then "." else out.
Proof.
  intros N K. destruct (@clean_out_facts r kept N K) as (NE & P & S).
  unfold filepath_Clean.
  rewrite (@HasPrefix_app _ _ NE), P.
  change (clean_out r kept ++ "/" ++ rest) with (clean_out r kept ++ String "/" rest).
  rewrite Split_app, S, <- app_assoc, fold_left_app.
  replace (fold_left (clean_elem r) (if r then [""] else []) []) with (@nil string)
    by now destruct r.
  now rewrite fold_left_app, fold_clean_rev.
Qed.

Lemma clean_out_push (r : bool) (kept : list string) (e : string) :
  kept <> [] -> clean_out r (e :: kept) = clean_out r kept ++ "/" ++ e.
Proof.
  intros N. unfold clean_out. cbn [rev]. rewrite Join_snoc.
  - now rewrite append_assoc.
  - intros E. apply N. rewrite <- (rev_involutive kept), E. reflexivity.
Qed.

Lemma plain_push (r : bool) (kept : list string) (e : string) :
  plain e = true -> stack_ok r kept = true ->
  clean_elem r kept e = e :: kept /\ stack_ok r (e :: kept) = true.
Proof.
  unfold plain. intros P K.
  apply andb_prop in P. destruct P as [P S].
  apply andb_prop in P. destruct P as [P E2].
  apply andb_prop in P. destruct P as [E0 E1].
  apply negb_true_iff in E0, E1, E2.
  unfold clean_elem. rewrite E0, E1, E2. cbn [orb]. split; [reflexivity|].
  cbn [stack_ok]. unfold kept_elem. now rewrite E0, E1, E2, S, K.
Qed.

Lemma plain_slash_free (e : string) : plain e = true -> slash_free e = true.
Proof. unfold plain. intros P. now apply andb_prop in P. Qed.

Lemma plain_nonempty (e : string) : plain e = true -> e <> "".
Proof. intros P ->. discriminate P. Qed.

(** Joining a plain name to any directory gives a clean path that ends in
    the name. *)
Lemma Join_plain (dir name : string) :
  plain name = true ->
  exists r kept, filepath_Join dir name = clean_out r (name :: kept) /\
  stack_ok r (name :: kept) = true.
Proof.
  intros P. unfold filepath_Join.
  destruct (String.eqb_spec dir "") as [->|N]; cbn [negb].
  - destruct (String.eqb_spec name "") as [E|_]; cbn [negb].
    { now apply plain_nonempty in P. }
    exists false, []. destruct (@plain_push false [] name P eq_refl) as [C K].
    split; [|exact K]. unfold filepath_Clean.
    assert (R : HasPrefix name "/" = false).
    { pose proof (@plain_slash_free _ P) as S. destruct name as [|c name]; [reflexivity|].
      cbn in S. apply andb_prop in S. destruct S as [S _].
      apply negb_true_iff in S. cbn. rewrite S. now destruct name. }
    rewrite R, (@Split_slash_free _ (@plain_slash_free _ P)). cbn [fold_left].
    rewrite C. unfold clean_out. cbn [rev app Join append].
    destruct (String.eqb_spec name ""); [now apply plain_nonempty in P | reflexivity].
  - set (r := HasPrefix dir "/").
    set (kept := fold_left (clean_elem r) (Split dir "/") []).
    assert (K : stack_ok r kept = true).
    { apply fold_clean_ok; [apply Split_all_slash_free | reflexivity]. }
    destruct (@plain_push r kept name P K) as [C K'].
    exists r, kept. split; [|exact K'].
    unfold filepath_Clean. rewrite (@HasPrefix_app _ _ N). fold r.
    change (dir ++ "/" ++ name) with (dir ++ String "/" name).
    rewrite Split_app, fold_left_app. fold kept.
    rewrite (@Split_slash_free _ (@plain_slash_free _ P)). cbn [fold_left].
    rewrite C.
    assert (NE : clean_out r (name :: kept) <> "").
    { apply clean_out_facts; [discriminate | exact K']. }
    destruct (String.eqb_spec (clean_out r (name :: kept)) ""); [contradiction | reflexivity].
Qed.

(** A file joined to a directory made by [filepath.Join] lies directly in
    it: the path is the directory, a separator and the name, and
    [filepath.Dir] of it is the directory. *)
Lemma Join_Join_plain (dir name file : string) :
  plain name = true -> plain file = true ->
  filepath_Join (filepath_Join dir name) file =
    filepath_Join dir name ++ "/" ++ file /\
  filepath_Clean (filepath_Join dir name ++ "/") = filepath_Join dir name /\
  filepath_Join dir name <> "".
Proof.
  intros P Q. destruct (@Join_plain dir name P) as (r & kept & E & K).
  rewrite E.
  assert (N : name :: kept <> []) by discriminate.
  destruct (@clean_out_facts r _ N K) as (NE & _ & _).
  split; [|split; [|exact NE]].
  - unfold filepath_Join.
    destruct (String.eqb_spec (clean_out r (name :: kept)) ""); [contradiction|].
    cbn [negb]. rewrite (@Clean_after r _ _ N K). cbv zeta.
    rewrite (@Split_slash_free _ (@plain_slash_free _ Q)). cbn [fold_left].
    destruct (@plain_push r (name :: kept) file Q K) as [C K']. rewrite C.
    rewrite (@clean_out_push r _ file N).
    destruct (String.eqb_spec (clean_out r (name :: kept) ++ "/" ++ file) "") as [Z|_];
      [|reflexivity].
    exfalso. destruct (clean_out r (name :: kept)); [now apply NE | discriminate Z].
  - change (clean_out r (name :: kept) ++ "/") with (clean_out r (name :: kept) ++ "/" ++ "").
    rewrite (@Clean_after r _ _ N K). cbv zeta. cbn [Split fold_left clean_elem String.eqb orb].
    destruct (String.eqb_spec (clean_out r (name :: kept)) ""); [contradiction | reflexivity].
Qed.

(** [filepath.Clean] on the cases of its documentation *)
Example filepath_Clean_cases :
  map filepath_Clean
    [""; "/"; "/tmp/"; "a//b"; "a/./b"; "a/b/.."; "a/.."; "a/../.."; "../a";
     "/.."; "/../a"; "/a/b/../../c"] =
    ["."; "/"; "/tmp"; "a/b"; "a/b"; "a"; "."; ".."; "../a";
     "/"; "/a"; "/c"].
Proof. reflexivity. Qed.

(** A temporary directory that ends in a separator, as [TMPDIR] often does:
    the working directory has one separator there. *)
Example filepath_Join_cases :
  filepath_Join "/var/folders/T/" "k6-test-1-5" = "/var/folders/T/k6-test-1-5" /\
  filepath_Join "/tmp" "k6-test-1-5" = "/tmp/k6-test-1-5" /\
  filepath_Join "/" "k6-test-1-5" = "/k6-test-1-5" /\
  filepath_Join "" "k6-test-1-5" = "k6-test-1-5" /\
  filepath_Dir "/tmp/k6-test-1-5/docker-compose.yml" = "/tmp/k6-test-1-5".
Proof. repeat split. Qed.

Lemma dir_aux_file (dir : string) :
  dir_aux (dir ++ "/docker-compose.yml") = Some dir.
Proof.
  induction dir as [|c dir IH]; [reflexivity|].
  cbn [append dir_aux]. now rewrite IH.
Qed.

Lemma filepath_Dir_Join (dir name : string) :
  plain name = true ->
  filepath_Join (filepath_Join dir name) "docker-compose.yml" =
    filepath_Join dir name ++ "/docker-compose.yml" /\
  filepath_Dir (filepath_Join (filepath_Join dir name) "docker-compose.yml") =
    filepath_Join dir name.
Proof.
  intros P. destruct (@Join_Join_plain dir name "docker-compose.yml" P eq_refl)
    as (A & B & _).
  split; [exact A|]. rewrite A. unfold filepath_Dir. now rewrite dir_aux_file.
Qed.

(** For a directory that is clean already, other than the root and [.],
    joining appends. *)
Lemma Join_clean_dir (dir name : string) :
  plain name = true -> filepath_Clean dir = dir -> dir <> "/" -> dir <> "." ->
  filepath_Join dir name = dir ++ "/" ++ name.
Proof.
  intros P C N1 N2. unfold filepath_Join.
  destruct (String.eqb_spec dir "") as [->|N]; [discriminate C|]. cbn [negb].
  revert C. unfold filepath_Clean at 1.
  set (r := HasPrefix dir "/").
  set (kept := fold_left (clean_elem r) (Split dir "/") []).
  assert (K : stack_ok r kept = true).
  { apply fold_clean_ok; [apply Split_all_slash_free | reflexivity]. }
  destruct (String.eqb_spec (clean_out r kept) "") as [_|_]; [congruence|].
  intros C.
  assert (NK : kept <> []).
  { intros E. rewrite E in C. unfold clean_out in C. cbn in C.
    destruct r; cbn in C; congruence. }
  rewrite <- C at 1. rewrite (@Clean_after r _ _ NK K). cbv zeta.
  rewrite (@Split_slash_free _ (@plain_slash_free _ P)). cbn [fold_left].
  destruct (@plain_push r kept name P K) as [E K']. rewrite E.
  rewrite (@clean_out_push r _ name NK), C.
  destruct (String.eqb_spec (dir ++ "/" ++ name) "") as [Z|_]; [|reflexivity].
  destruct dir; [contradiction | discriminate Z].
Qed.

(** The names of the working directories are plain. *)
Lemma slash_free_app (a b : string) :
  slash_free (a ++ b) = slash_free a && slash_free b.
Proof. induction a as [|c a IH]; [reflexivity|]. cbn. now rewrite IH, andb_assoc. Qed.

Lemma slash_free_uint (d : Decimal.uint) :
  slash_free (NilEmpty.string_of_uint d) = true.
Proof. induction d; cbn; auto. Qed.

Lemma slash_free_itoa (z : Z) : slash_free (itoa z) = true.
Proof.
  unfold itoa, NilZero.string_of_int, NilZero.string_of_uint.
  destruct (Z.to_int z) as [d|d]; destruct d; cbn; auto using slash_free_uint.
Qed.

Lemma plain_temp_name (sessionId now : Z) :
  plain (temp_name sessionId now) = true.
Proof.
  unfold plain, temp_name. cbn [append String.eqb Ascii.eqb Bool.eqb negb andb slash_free].
  now rewrite slash_free_app, slash_free_itoa; cbn; rewrite slash_free_itoa.
Qed.

Section TempProps.
Variable env : Env.

(** X7.  [WriteComposeToTemp] in every environment: the directory is
    [filepath.Join] of the temporary directory and the name
    [k6-test-<sessionId>-<Unix second>], which is that directory, a
    separator and the name when the temporary directory is a clean path
    other than the root and [.]; the path it answers is the directory, a
    separator and [docker-compose.yml], and [filepath.Dir] of that path is
    the directory again (what the callers remove is what was made); it
    makes the directory, then writes the file, and nothing else; a failure
    of [MkdirAll] is answered without a write, and a failure of
    [WriteFile] is answered with the directory left in place. *)
Theorem WriteComposeToTemp_result (content : string) (sessionId : Z) (w : World) :
  let name := temp_name sessionId (now_unix env (clock_seq w)) in
  let dir := temp_dir env sessionId (now_unix env (clock_seq w)) in
  let file := filepath_Join dir "docker-compose.yml" in
  let w' := fst (WriteComposeToTemp env content sessionId w) in
  dir = filepath_Join (TempDir env) name /\
  (filepath_Clean (TempDir env) = TempDir env ->
   TempDir env <> "/" -> TempDir env <> "." ->
   dir = TempDir env ++ "/" ++ name) /\
  file = dir ++ "/docker-compose.yml" /\
  filepath_Dir file = dir /\
  db w' = db w /\
  match snd (WriteComposeToTemp env content sessionId w) with
  | Ok composePath =>
      composePath = file /\
      mkdir_all env dir = None /\ write_file env file content = None /\
      trace w' = (trace w ++ [EvMkdirAll dir; EvWriteFile file])%list
  | Err msg =>
      mkdir_all env dir = Some msg /\
      trace w' = (trace w ++ [EvMkdirAll dir])%list \/
      mkdir_all env dir = None /\ write_file env file content = Some msg /\
      trace w' = (trace w ++ [EvMkdirAll dir; EvWriteFile file])%list
  end.
Proof.
  cbv zeta.
  pose proof (plain_temp_name sessionId (now_unix env (clock_seq w))) as P.
  destruct (@filepath_Dir_Join (TempDir env) _ P) as [J D].
  split; [reflexivity|].
  split; [intros C N1 N2; now apply Join_clean_dir|].
  split; [exact J|]. split; [exact D|].
  rewrite WriteComposeToTemp_eq. cbv zeta.
  fold (temp_dir env sessionId (now_unix env (clock_seq w))).
  destruct (mkdir_all env _) as [err|] eqn:Mk.
  - cbn. split; [reflexivity|]. left. split; reflexivity.
  - destruct (write_file env _ content) as [err|] eqn:Wr; cbn;
      (split; [reflexivity|]).
    + right. repeat split. now rewrite <- app_assoc.
    + repeat split. now rewrite <- app_assoc.
Qed.

End TempProps.

Section RunMetricsProps.
Variable env : Env.

Ltac metrics_leaf :=
  leaf; unfold run_metrics; norm;
  cbn [existsb metrics_stored orb metrics insert_metric insert_test_run
       set_test_runs update_test_run fst snd db];
  split; [ first [ reflexivity | now rewrite List.app_nil_r ]
         | first [ intros H; discriminate H
                 | intros _; eexists; cbn [In]; eauto 12 ] ].

(** X9.  In every environment, [run_performance_test] adds to [metrics]
    at most one row: when the INSERT of [ParseAndStoreMetrics] is accepted,
    the row is the constant sample ([/api/endpoint], 150.5, 50, 500, 0.02,
    85.5) for the run just inserted, whatever the load tool printed or
    wrote; otherwise [metrics] is unchanged.  The INSERT is accepted only
    after a run of the load tool that exited with status zero. *)
Theorem run_stores_constant_sample (request : RunPerformanceTest.Request) (d : DB) :
  let res := call (RunPerformanceTest.Handle env request) d in
  let tr := trace (fst res) in
  metrics (db (fst res)) =
    (metrics d ++
     if existsb metrics_stored tr
     then [constant_sample (next_id m_id (metrics d))
                           (next_id tr_id (test_runs d))]
     else [])%list /\
  (existsb metrics_stored tr = true ->
   exists args, In (EvExec "k6" args true) tr).
Proof.
  change (run_metrics d (call (RunPerformanceTest.Handle env request) d)).
  unfold call, RunPerformanceTest.Handle.
  destruct (RunPerformanceTest.testId request) as [testId|].
  2:{ metrics_leaf. }
  cbv zeta.
  rewrite bind_lift. sql_row.
  { metrics_leaf. }
  destruct (RunPerformanceTest.select_test testId d) as [[script sessionId]|err].
  2:{ metrics_leaf. }
  rewrite bind_lift. sql_row.
  { metrics_leaf. }
  destruct (RunPerformanceTest.select_session_compose sessionId d) as [content|err].
  2:{ metrics_leaf. }
  rewrite bind_lift, WriteComposeToTemp_eq. norm.
  destruct (mkdir_all env _) as [err|].
  { metrics_leaf. }
  destruct (write_file env _ content) as [err|].
  { metrics_leaf. }
  norm.
  unfold bind at 1, defer at 1.
  rewrite bind_lift.
  change (time_now_unix env ?w) with
    ({| db := db w; trace := trace w; sql_seq := sql_seq w;
        clock_seq := S (clock_seq w) |}, now_unix env (clock_seq w)).
  norm.
  rewrite bind_lift. unfold compose_up. rewrite exec_command_eq.
  destruct (exec_result env "docker" _) as [[err|] containerOutput]; norm.
  { metrics_leaf. }
  unfold bind at 1, defer at 1.
  rewrite bind_lift. unfold sleep. rewrite emit_eq. norm.
  rewrite bind_lift, os_CreateTemp_eq.
  destruct (create_temp env "k6-test-*.js") as [tmpFile|err]; norm.
  2:{ metrics_leaf. }
  unfold bind at 1, defer at 1.
  rewrite bind_lift, emit_eq. norm.
  rewrite bind_lift. sql_ex.
  { unfold bind at 1, panic at 1. metrics_leaf. }
  unfold bind at 1, ret at 1.
  rewrite bind_lift, exec_command_eq.
  destruct (exec_result env "k6" _) as [[err|] output] eqn:K; norm.
  { metrics_leaf. }
  rewrite bind_lift. sql_ex.
  - rewrite bind_lift. unfold ParseAndStoreMetrics, io_bind at 1.
    sql_ex; metrics_leaf.
  - rewrite bind_lift. unfold ParseAndStoreMetrics, io_bind at 1.
    sql_ex; metrics_leaf.
Qed.

End RunMetricsProps.

Lemma int_of_text_itoa (z : Z) : int_of_text (itoa z) = Some z.
Proof.
  unfold int_of_text, itoa.
  rewrite NilZero.isi.
  - cbn. now rewrite DecimalZ.of_to.
  - destruct z; cbn; try discriminate.
    intros E. injection E as E. now apply DecimalPos.Unsigned.to_uint_nonnil in E.
  - destruct z; cbn; try discriminate.
    intros E. injection E as E. now apply DecimalPos.Unsigned.to_uint_nonnil in E.
Qed.

Lemma find_fresh {R} (id : R -> Z) (rows : list R) (row : R) :
  id row = next_id id rows ->
  find (fun r => Z.eqb (id r) (next_id id rows)) (rows ++ [row]) = Some row.
Proof.
  intros E. apply find_app_none.
  2:{ cbv beta. rewrite E. apply Z.eqb_refl. }
  - assert (G : forall l, (forall r, In r l -> In r rows) ->
                find (fun r => Z.eqb (id r) (next_id id rows)) l = None).
    { induction l as [|a l IH]; intros Sub; [reflexivity|]. cbn.
      pose proof (next_id_above id rows a (Sub a (or_introl eq_refl))) as L.
      destruct (Z.eqb_spec (id a) (next_id id rows)); [lia|].
      apply IH. intros r I. apply Sub. now right. }
    apply G. auto.
Qed.

Section RunWriteFailureProps.
Variable env : Env.

(** X8.  When [run_performance_test] has found the test and its compose
    content and made the working directory, and the write of the compose
    file fails, it answers [Failed to write compose file: <error>]; the
    operation consists of the two lookups, [MkdirAll] and [WriteFile]; no
    [RemoveAll] is issued, so the directory stays; and the store is
    unchanged. *)
Theorem run_leaves_directory_when_write_fails
  (request : RunPerformanceTest.Request) (d : DB)
  (testId script content err : string) (sessionId : Z) :
  RunPerformanceTest.testId request = Some testId ->
  sql_fails env 0 = None -> sql_fails env 1 = None ->
  RunPerformanceTest.select_test testId d = Ok (script, sessionId) ->
  RunPerformanceTest.select_session_compose sessionId d = Ok content ->
  let dir := temp_dir env sessionId (now_unix env 0) in
  let file := filepath_Join dir "docker-compose.yml" in
  mkdir_all env dir = None ->
  write_file env file content = Some err ->
  let res := call (RunPerformanceTest.Handle env request) d in
  snd res = Returned (ToolError ("Failed to write compose file: " ++ err)) /\
  trace (fst res) = [EvSql SelectTest true; EvSql SelectSessionCompose true;
                     EvMkdirAll dir; EvWriteFile file] /\
  filter is_remove_all (trace (fst res)) = [] /\
  db (fst res) = d.
Proof.
  intros T F0 F1 S1 S2 dir file Mk Wr res.
  assert (G : returned_with
                [EvSql SelectTest true; EvSql SelectSessionCompose true;
                 EvMkdirAll dir; EvWriteFile file]
                (ToolError ("Failed to write compose file: " ++ err)) d res).
  { subst res. unfold call, RunPerformanceTest.Handle. rewrite T. cbv zeta.
    rewrite bind_lift. sql_row; [congruence|]. rewrite S1.
    rewrite bind_lift. sql_row; [congruence|]. rewrite S2.
    rewrite bind_lift, WriteComposeToTemp_eq. norm.
    fold (temp_dir env sessionId (now_unix env 0)). fold dir. fold file.
    rewrite Mk, Wr. leaf. unfold returned_with. norm. repeat split. }
  destruct G as (G1 & G2 & G3). rewrite G2. repeat split; assumption.
Qed.

End RunWriteFailureProps.

Lemma run_leaves_directory_when_write_fails_witness :
  let res := call (RunPerformanceTest.Handle (read_only_disk Sample.env) run_request)
                  Sample.db in
  snd res = Returned (ToolError
              "Failed to write compose file: no space left on device") /\
  In (EvMkdirAll "/tmp/k6-test-1-1700000000") (trace (fst res)) /\
  filter is_remove_all (trace (fst res)) = [].
Proof.
  cbv zeta.
  destruct (@run_leaves_directory_when_write_fails (read_only_disk Sample.env)
              run_request Sample.db "1"
              (Generator.generateK6APITest "1" "" "load") Sample.compose_yml
              "no space left on device" 1
              eq_refl eq_refl eq_refl eq_refl eq_refl eq_refl eq_refl)
    as (A & B & C & D).
  split; [exact A|]. split; [|exact C].
  rewrite B. right. right. left. reflexivity.
Defined.

Section AnalyzeEdgeProps.
Variable env : Env.

(** X13.  [analyze_results] for a run without metric samples (an unknown
    run, a run of [test_application], a run that failed), named by its
    number in decimal, is not an error: the answer is the title and the
    run header alone, after the one query. *)
Theorem analyze_unknown_run_is_empty (request : AnalyzeResults.Request)
  (runId : string) (run : Z) (d : DB) :
  AnalyzeResults.runId request = Some runId ->
  int_of_text runId = Some run ->
  sql_fails env 0 = None ->
  (forall r, In r (metrics d) -> m_run_id r <> run) ->
  let res := call (AnalyzeResults.Handle env request) d in
  snd res = Returned (ToolText (empty_analysis runId)) /\
  trace (fst res) = [EvSql SelectMetrics true].
Proof.
  intros Rq Dec F0 No res.
  assert (E : AnalyzeResults.select_metrics runId d = []).
  { unfold AnalyzeResults.select_metrics, AnalyzeResults.run_is. rewrite Dec.
    clear - No. induction (metrics d) as [|r rows IH]; [reflexivity|].
    cbn [filter].
    destruct (Z.eqb_spec (m_run_id r) run) as [Eq|_].
    - exfalso. apply (No r); [now left | exact Eq].
    - apply IH. intros r' I. apply No. now right. }
  assert (G : returned_with [EvSql SelectMetrics true]
                (ToolText (empty_analysis runId)) d res).
  { subst res. unfold call, AnalyzeResults.Handle. rewrite Rq. cbv zeta.
    rewrite bind_lift. sql_q; [congruence|]. rewrite E.
    unfold bind at 1, defer at 1. rewrite bind_lift.
    cbn [AnalyzeResults.analyze_rows io_ret]. leaf.
    unfold returned_with. norm.
    split; [|split; reflexivity]. do 2 f_equal.
    unfold AnalyzeResults.render, empty_analysis.
    cbn [fold_right AnalyzeResults.render_line].
    now rewrite !append_assoc, !append_nil_r. }
  destruct G as (G1 & G2 & G3). split; assumption.
Qed.

End AnalyzeEdgeProps.

(** ** Tests *)

Lemma select_test_fresh (d : DB) (row : test_row) :
  t_id row = next_id t_id (tests d) ->
  RunPerformanceTest.select_test (itoa (t_id row)) (insert_test row d) =
  Ok (t_script row, t_session_id row).
Proof.
  intros E. unfold RunPerformanceTest.select_test. rewrite int_of_text_itoa.
  unfold first_row, insert_test. cbn [tests]. rewrite E.
  now rewrite (find_fresh t_id (tests d) row E).
Qed.

Section TestCreationProps.
Variable env : Env.
Variable ToLower : string -> string.
Variable Format : Z -> string -> string.

(** X11.  [create_ui_test], where the store serves its two statements
    and holds a session: the answer names the new test id and repeats the
    instructions as given; the test is appended to [tests] under the most
    recent session, with type [browser] and the script of
    [generateK6UITest]; and the lookup of [run_performance_test] with the
    id of the answer finds that script and session. *)
Theorem create_ui_test_stores (request : CreateUITest.Request) (d : DB)
  (url instructions : string) (sessionId composeFileId : Z) :
  CreateUITest.url request = Some url ->
  CreateUITest.instructions request = Some instructions ->
  sql_fails env 0 = None -> sql_fails env 1 = None ->
  select_latest_session d = Ok (sessionId, composeFileId) ->
  let testName := GetString (CreateUITest.testName request) "ui-test" in
  let script := Generator.generateK6UITest ToLower url instructions in
  let testId := next_id t_id (tests d) in
  let res := call (CreateUITest.Handle env ToLower request) d in
  snd res = Returned (ToolText (ui_answer testName testId instructions)) /\
  tests (db (fst res)) =
    (tests d ++ [{| t_id := testId; t_session_id := sessionId;
                    t_name := testName; t_type := "browser";
                    t_script := script |}])%list /\
  RunPerformanceTest.select_test (itoa testId) (db (fst res)) =
    Ok (script, sessionId).
Proof.
  intros U I0 F0 F1 L testName script testId res.
  set (row := {| t_id := testId; t_session_id := sessionId;
                 t_name := testName; t_type := "browser";
                 t_script := script |}).
  assert (G : returned_with [EvSql SelectLatestSession true; EvSql InsertTest true]
                (ToolText (ui_answer testName testId instructions))
                (insert_test row d) res).
  { subst res. unfold call, CreateUITest.Handle. rewrite U, I0. cbv zeta.
    rewrite bind_lift. sql_row; [congruence|].
    unfold CreateUITest.select_latest_session_id. rewrite L.
    rewrite bind_lift. sql_ex; [congruence|].
    leaf. unfold returned_with. norm. repeat split. }
  destruct G as (G1 & G2 & G3). rewrite G3.
  split; [exact G1|]. split; [reflexivity|].
  exact (select_test_fresh d row eq_refl).
Qed.

(** X12.  [generate_api_tests], where the store serves its two
    statements and holds the spec: the answer names the new test id and
    shows the first 200 bytes of the script; the test is appended to
    [tests] under the session of the spec, named [api-test-<time>], with
    the requested type; and the lookup of [run_performance_test] with the
    id of the answer finds that script and session. *)
Theorem generate_api_tests_stores (request : GenerateAPITests.Request) (d : DB)
  (specId : string) (sessionId : Z) :
  GenerateAPITests.specId request = Some specId ->
  sql_fails env 0 = None -> sql_fails env 1 = None ->
  GenerateAPITests.select_spec_session specId d = Ok sessionId ->
  let endpoints := GetString (GenerateAPITests.endpoints request) "" in
  let testType := GetString (GenerateAPITests.testType request) "load" in
  let script := Generator.generateK6APITest specId endpoints testType in
  let testId := next_id t_id (tests d) in
  let res := call (GenerateAPITests.Handle env Format request) d in
  snd res = Returned (ToolText (api_answer testType testId script)) /\
  tests (db (fst res)) =
    (tests d ++ [{| t_id := testId; t_session_id := sessionId;
                    t_name := "api-test-" ++
                              Format (now_unix env 0) "20060102-150405";
                    t_type := testType; t_script := script |}])%list /\
  RunPerformanceTest.select_test (itoa testId) (db (fst res)) =
    Ok (script, sessionId).
Proof.
  intros S0 F0 F1 L endpoints testType script testId res.
  set (row := {| t_id := testId; t_session_id := sessionId;
                 t_name := "api-test-" ++
                           Format (now_unix env 0) "20060102-150405";
                 t_type := testType; t_script := script |}).
  assert (P : Generator.script_preview script = Some (substring 0 200 script)).
  { unfold Generator.script_preview, slice_to.
    assert (L200 : 200 <= String.length script)
      by (unfold script; rewrite generateK6APITest_length; lia).
    apply Nat.leb_le in L200. now rewrite L200. }
  assert (G : returned_with [EvSql SelectApiSpec true; EvSql InsertTest true]
                (ToolText (api_answer testType testId script))
                (insert_test row d) res).
  { subst res. unfold call, GenerateAPITests.Handle. rewrite S0. cbv zeta.
    fold endpoints testType script. rewrite P.
    rewrite bind_lift. sql_row; [congruence|]. rewrite L.
    rewrite bind_lift.
    change (time_now_unix env ?w) with
      ({| db := db w; trace := trace w; sql_seq := sql_seq w;
          clock_seq := S (clock_seq w) |}, now_unix env (clock_seq w)).
    norm.
    rewrite bind_lift. sql_ex; [congruence|].
    leaf. unfold returned_with. norm. repeat split. }
  destruct G as (G1 & G2 & G3). rewrite G3.
  split; [exact G1|]. split; [reflexivity|].
  exact (select_test_fresh d row eq_refl).
Qed.

End TestCreationProps.

(** ** Environment setup *)

Lemma service_rows_spec (sessionId : Z) (svcs : list (string * Service))
  (rows : list service_row) :
  exists added,
    service_rows sessionId svcs rows = (rows ++ added)%list /\
    map recorded added = map (declared sessionId) svcs.
Proof.
  revert rows. induction svcs as [|[name service] rest IH]; intros rows.
  - exists []. split; [now rewrite List.app_nil_r | reflexivity].
  - cbn [service_rows].
    set (row := {| sv_id := next_id sv_id rows; sv_session_id := sessionId;
                   sv_name := name; sv_image := Image service;
                   sv_ports := Join (Ports service) "," |}).
    destruct (IH (rows ++ [row])%list) as (added & E & M).
    exists (row :: added). split.
    + rewrite E. now rewrite <- app_assoc.
    + cbn [map]. now rewrite M.
Qed.

Section SetupProps.
Variable env : Env.
Variable yaml_error : string -> option string.
Variable range_again : list (string * Service) -> list (string * Service).

Lemma FetchComposeContent_frame (source : string) (w : World) :
  let w' := fst (FetchComposeContent env source w) in
  db w' = db w /\ sql_seq w' = sql_seq w /\ clock_seq w' = clock_seq w.
Proof.
  cbv zeta. unfold FetchComposeContent.
  destruct (HasPrefix source "http://" || HasPrefix source "https://").
  - unfold io_bind. rewrite http_Get_eq.
    destruct (http_get env source) as [err|status body]; [now cbn|].
    destruct (negb (Z.eqb status 200)); [now cbn|].
    destruct body; now cbn.
  - unfold io_bind. rewrite os_ReadFile_eq.
    destruct (read_file env source); now cbn.
Qed.

Lemma setup_store_services_served (served : forall n, sql_fails env n = None)
  (sessionId : Z) (svcs : list (string * Service)) (servicesStored : Z)
  (w : World) :
  let w' := fst (SetupEnvironment.store_services env sessionId svcs
                   servicesStored w) in
  db w' = set_services (service_rows sessionId svcs (services (db w))) (db w).
Proof.
  cbv zeta. revert servicesStored w.
  induction svcs as [|[name service] rest IH]; intros servicesStored w.
  - cbn. unfold set_services. now destruct (db w).
  - cbn [SetupEnvironment.store_services service_rows]. unfold io_bind.
    rewrite sql_exec_served by apply served.
    cbn [snd]. rewrite IH.
    cbn [stated db fst insert_service_row insert_service services].
    unfold set_services. reflexivity.
Qed.

Lemma list_services_eq (svcs : list (string * Service)) (response : string) :
  SetupEnvironment.list_services svcs response =
  fold_left
    (fun response svc =>
       response ++ "  â€¢ " ++ fst svc ++ " (" ++ Image (snd svc) ++ ")" ++ nl)
    svcs response.
Proof.
  revert response. induction svcs as [|[name service] rest IH]; intros response.
  - reflexivity.
  - cbn [SetupEnvironment.list_services fold_left fst snd]. apply IH.
Qed.

(** X10.  [setup_test_environment], where the source is fetched, decodes
    and the store serves every statement: the answer lists the session id,
    the source, the number of services and the services; the compose file
    of the session is a row that carries the fingerprint of the content; a
    session [session-<Unix second>] with status [initialized] and no
    completion time is appended; it is the session [discover_api_specs]
    and [create_ui_test] will pick as the most recent; and one service row
    per declared service is appended, in order, with the session id, the
    name, the image and the port mappings joined by commas. *)
Theorem setup_configures_session (request : SetupEnvironment.Request) (d : DB)
  (source content : string) :
  SetupEnvironment.composePath request = Some source ->
  (forall n, sql_fails env n = None) ->
  snd (FetchComposeContent env source (init_world d)) = Ok content ->
  yaml_error content = None ->
  let compose := yaml_services env content in
  let res := call (SetupEnvironment.Handle env yaml_error range_again request) d in
  let d' := db (fst res) in
  let sessionId := next_id ts_id (test_sessions d) in
  exists composeFileId added,
    snd res = Returned (ToolText
      (setup_answer sessionId source compose (range_again compose))) /\
    (exists row, In row (compose_files d') /\ cf_id row = composeFileId /\
                 cf_hash row = fingerprint content) /\
    test_sessions d' =
      (test_sessions d ++
       [{| ts_id := sessionId; ts_compose_file_id := composeFileId;
           ts_session_name := "session-" ++ itoa (now_unix env 0);
           ts_completed_at := None; ts_status := "initialized" |}])%list /\
    select_latest_session d' = Ok (sessionId, composeFileId) /\
    services d' = (services d ++ added)%list /\
    map recorded added = map (declared sessionId) compose.
Proof.
  intros P served Fc Y compose res d' sessionId.
  subst d' res. unfold call, SetupEnvironment.Handle. rewrite P.
  rewrite bind_lift, Fc.
  destruct (FetchComposeContent_frame source (init_world d)) as (D1 & S1 & C1).
  set (w1 := fst (FetchComposeContent env source (init_world d))) in *.
  cbn [db sql_seq clock_seq init_world] in D1, S1, C1.
  rewrite Y. cbv zeta. fold compose.
  rewrite bind_lift.
  pose proof (StoreComposeFile_cases env source content w1) as A.
  cbv zeta in A.
  rewrite (StoreComposeFile_served env source content w1) in * by apply served.
  destruct (find (has_hash content) (compose_files (db w1))) as [row|] eqn:Fd;
    cbv zeta in *; cbn [fst snd] in *;
    destruct A as (row' & I' & Id' & H' & _);
    rewrite bind_lift;
    change (time_now_unix env ?w) with
      ({| db := db w; trace := trace w; sql_seq := sql_seq w;
          clock_seq := S (clock_seq w) |}, now_unix env (clock_seq w));
    norm; rewrite C1;
    rewrite bind_lift, sql_exec_served by apply served;
    norm;
    cbn [insert_test_session insert_session fst snd];
    rewrite bind_lift;
    match goal with
    | |- context [SetupEnvironment.store_services env ?sid ?svcs ?k ?w] =>
        pose proof (setup_store_services_served served sid svcs k w) as L;
        cbv zeta in L;
        destruct (SetupEnvironment.store_services env sid svcs k w) as [w3 n3]
    end;
    cbn [fst snd] in *; leaf; rewrite L;
    cbn [db stated set_services insert_compose_file compose_files
         test_sessions services] in *;
    rewrite D1 in *;
    destruct (service_rows_spec (next_id ts_id (test_sessions d)) compose
                (services d)) as (added & E & M);
    rewrite <- ?Id' in *;
    exists (cf_id row'), added;
    (split; [rewrite list_services_eq; unfold setup_answer;
             rewrite !append_assoc; reflexivity|]);
    (split; [exists row'; repeat split; auto|]);
    (split; [reflexivity|]);
    (split; [unfold select_latest_session;
             cbn [test_sessions set_services insert_session insert_compose_file];
             rewrite map_app; cbn [map]; rewrite last_last; reflexivity|]);
    (split; [exact E | exact M]).
Qed.

End SetupProps.

(** ** What the tools keep *)

Section KeepsRules.
Variable allowed : event -> bool.
Variable rel : DB -> DB -> Prop.
Hypothesis rel_refl : forall d, rel d d.
Hypothesis rel_trans : forall a b c, rel a b -> rel b c -> rel a c.
Variable env : Env.

Local Abbreviation advances := (advances allowed rel).
Local Abbreviation io_keeps := (io_keeps allowed rel).
Local Abbreviation d_keeps := (d_keeps allowed rel).
Local Abbreviation m_keeps := (m_keeps allowed rel).

Lemma advances_refl (w : World) : advances w w.
Proof. split; [apply rel_refl|]. exists []. now rewrite app_nil_r. Qed.

Lemma advances_trans (a b c : World) :
  advances a b -> advances b c -> advances a c.
Proof.
  intros [R1 (e1 & T1 & A1)] [R2 (e2 & T2 & A2)]. split; [eauto|].
  exists (e1 ++ e2)%list. rewrite T2, T1, app_assoc. split; [reflexivity|].
  rewrite forallb_app. now rewrite A1, A2.
Qed.

Lemma advances_logged (e : event) (w : World) :
  allowed e = true -> advances w (logged e w).
Proof.
  intros A. split; [apply rel_refl|]. exists [e]. split; [reflexivity|].
  cbn. now rewrite A.
Qed.

Lemma advances_stated (s : stmt) (ok : bool) (d : DB) (w : World) :
  allowed (EvSql s ok) = true -> rel (db w) d -> advances w (stated s ok d w).
Proof.
  intros A R. split; [exact R|]. exists [EvSql s ok]. split; [reflexivity|].
  cbn. now rewrite A.
Qed.

Lemma io_keeps_ret {A} (a : A) : io_keeps (io_ret a).
Proof. intros w. apply advances_refl. Qed.

Lemma io_keeps_bind {A B} (m : IO A) (k : A -> IO B) :
  io_keeps m -> (forall x, io_keeps (k x)) -> io_keeps (io_bind m k).
Proof.
  intros Hm Hk w. unfold io_bind. specialize (Hm w).
  destruct (m w) as [w' x]. eapply advances_trans; [exact Hm | apply Hk].
Qed.

Lemma io_keeps_emit (e : event) : allowed e = true -> io_keeps (emit e).
Proof. intros A w. rewrite emit_eq. now apply advances_logged. Qed.

Lemma io_keeps_now : io_keeps (time_now_unix env).
Proof.
  intros w. split; [apply rel_refl|]. exists []. now rewrite app_nil_r.
Qed.

Lemma io_keeps_sql_exec {A} (s : stmt) (run : Z -> DB -> DB * A) :
  sql_allowed allowed s -> run_keeps rel run -> io_keeps (sql_exec env s run).
Proof.
  intros [A1 A2] R w.
  destruct (sql_fails env (sql_seq w)) as [msg|] eqn:F.
  - rewrite (sql_exec_rejected _ _ _ _ F). now apply advances_stated.
  - rewrite (sql_exec_served _ _ _ _ F). apply advances_stated; [exact A1 | apply R].
Qed.

Lemma io_keeps_sql_query_row {A} (s : stmt) (sel : DB -> result A) :
  sql_allowed allowed s -> io_keeps (sql_query_row env s sel).
Proof.
  intros [A1 A2] w.
  destruct (sql_fails env (sql_seq w)) as [msg|] eqn:F.
  - rewrite (sql_query_row_rejected _ _ _ _ F). now apply advances_stated.
  - rewrite (sql_query_row_served _ _ _ _ F). now apply advances_stated.
Qed.

Lemma io_keeps_sql_query {A} (s : stmt) (sel : DB -> list A) :
  sql_allowed allowed s -> io_keeps (sql_query env s sel).
Proof.
  intros [A1 A2] w.
  destruct (sql_fails env (sql_seq w)) as [msg|] eqn:F.
  - rewrite (sql_query_rejected _ _ _ _ F). now apply advances_stated.
  - rewrite (sql_query_served _ _ _ _ F). now apply advances_stated.
Qed.

Lemma io_keeps_exec (name : string) (args : list string) :
  (forall ok, allowed (EvExec name args ok) = true) ->
  io_keeps (exec_command env name args).
Proof. intros A w. rewrite exec_command_eq. now apply advances_logged. Qed.

Lemma d_keeps_quietly (m : IO unit) : io_keeps m -> d_keeps (quietly m).
Proof. intros H w. exact (H w). Qed.

Lemma d_keeps_panicking (msg : string) : d_keeps (fun w => (w, Some msg)).
Proof. intros w. apply advances_refl. Qed.

Lemma m_keeps_ret {R A} (a : A) : m_keeps (@ret R A a).
Proof. intros w ds D. split; [apply advances_refl | exact D]. Qed.

Lemma m_keeps_return {R A} (r : R) : m_keeps (@return_ R A r).
Proof. intros w ds D. split; [apply advances_refl | exact D]. Qed.

Lemma m_keeps_panic {R A} (msg : string) : m_keeps (@panic R A msg).
Proof. intros w ds D. split; [apply advances_refl | exact D]. Qed.

Lemma m_keeps_defer {R} (d : deferred) : d_keeps d -> m_keeps (@defer R d).
Proof.
  intros H w ds D. split; [apply advances_refl | now constructor].
Qed.

Lemma m_keeps_lift {R A} (a : IO A) : io_keeps a -> m_keeps (@lift R A a).
Proof.
  intros H w ds D. unfold lift. specialize (H w).
  destruct (a w) as [w' x]. split; [exact H | exact D].
Qed.

Lemma m_keeps_bind {R A B} (m : M R A) (k : A -> M R B) :
  m_keeps m -> (forall a, m_keeps (k a)) -> m_keeps (bind m k).
Proof.
  intros Hm Hk w ds D. unfold bind. specialize (Hm w ds D).
  destruct (m w ds) as [[w' ds'] [a | r | msg]]; cbn [fst snd] in *;
    try exact Hm.
  destruct Hm as [A1 D1]. destruct (Hk a w' ds' D1) as [A2 D2].
  split; [eapply advances_trans; eassumption | exact D2].
Qed.

Lemma keeps_unwind (ds : list deferred) (w : World) (p : option string) :
  Forall d_keeps ds -> advances w (fst (unwind ds w p)).
Proof.
  revert w p. induction ds as [|d ds IH]; intros w p D.
  - apply advances_refl.
  - cbn [unwind]. inversion D as [|? ? Hd Hds]; subst.
    specialize (Hd w). destruct (d w) as [w' q].
    eapply advances_trans; [exact Hd | apply IH, Hds].
Qed.

(** At the end of a call *)
Lemma keeps_call {R} (body : M R R) (d : DB) :
  m_keeps body ->
  rel d (db (fst (call body d))) /\
  forallb allowed (trace (fst (call body d))) = true.
Proof.
  intros H. unfold call. destruct (H (init_world d) [] (Forall_nil _)) as [A D].
  assert (X : advances (init_world d) (fst (finish (body (init_world d) [])))).
  { destruct (body (init_world d) []) as [[w ds] [r | r | msg]];
      cbn [fst snd finish] in *.
    - pose proof (@keeps_unwind ds w None D) as U.
      destruct (unwind ds w None) as [w' p]. eapply advances_trans; eassumption.
    - pose proof (@keeps_unwind ds w None D) as U.
      destruct (unwind ds w None) as [w' p]. eapply advances_trans; eassumption.
    - pose proof (@keeps_unwind ds w (Some msg) D) as U.
      destruct (unwind ds w (Some msg)) as [w' p].
      eapply advances_trans; eassumption. }
  destruct X as [R1 (evs & T & A1)]. split; [exact R1|].
  cbn in T. now rewrite T.
Qed.

End KeepsRules.

Create HintDb keeps.

Ltac keeps_side side :=
  first [ eassumption
        | split; reflexivity
        | reflexivity
        | solve [intros; reflexivity]
        | solve [eauto with keeps]
        | solve [side] ].

Ltac keeps_step side :=
  cbv beta zeta;
  lazymatch goal with
  | |- forall _, _ => intros ?
  | |- m_keeps _ _ (return_ _) => apply m_keeps_return; try eassumption
  | |- m_keeps _ _ (panic _) => apply m_keeps_panic; try eassumption
  | |- m_keeps _ _ (ret _) => apply m_keeps_ret; try eassumption
  | |- m_keeps _ _ (bind _ _) => apply m_keeps_bind; try eassumption
  | |- m_keeps _ _ (lift _) => apply m_keeps_lift
  | |- m_keeps _ _ (defer (quietly _)) =>
      apply m_keeps_defer; try eassumption; apply d_keeps_quietly
  | |- m_keeps _ _ (defer _) =>
      apply m_keeps_defer; try eassumption; apply d_keeps_panicking; eassumption
  | |- m_keeps _ _ (match ?x with _ => _ end) => destruct x
  | |- io_keeps _ _ (io_ret _) => apply io_keeps_ret; eassumption
  | |- io_keeps _ _ (io_bind _ _) => apply io_keeps_bind; try eassumption
  | |- io_keeps _ _ (emit _) => apply io_keeps_emit; try eassumption
  | |- io_keeps _ _ (time_now_unix _) => apply io_keeps_now; eassumption
  | |- io_keeps _ _ (sql_exec _ _ _) => apply io_keeps_sql_exec; try eassumption
  | |- io_keeps _ _ (sql_query_row _ _ _) =>
      apply io_keeps_sql_query_row; try eassumption
  | |- io_keeps _ _ (sql_query _ _ _) => apply io_keeps_sql_query; try eassumption
  | |- io_keeps _ _ (exec_command _ _ _) => apply io_keeps_exec; try eassumption
  | |- io_keeps _ _ (match ?x with _ => _ end) => destruct x
  | |- io_keeps _ _ _ =>
      first [ solve [eauto with keeps]
            | progress unfold http_Get, os_ReadFile, os_MkdirAll, os_WriteFile,
                os_CreateTemp, compose_up, compose_down, remove_all, remove,
                sleep, FetchComposeContent, StoreComposeFile,
                WriteComposeToTemp, ParseAndStoreMetrics,
                DiscoverSpecs.probe_service, AnalyzeResults.analyze_row ]
  | |- _ => keeps_side side
  end.

Ltac keeps_tac side := repeat (keeps_step side).

Section KeepsLoops.
Variable allowed : event -> bool.
Variable rel : DB -> DB -> Prop.
Hypothesis rel_refl : forall d, rel d d.
Hypothesis rel_trans : forall a b c, rel a b -> rel b c -> rel a c.
Variable env : Env.

Local Abbreviation io_keeps := (io_keeps allowed rel).

Lemma discover_probe_paths_keeps (baseURL : string) (paths discovered : list string) :
  (forall url, allowed (EvHttpGet url) = true) ->
  io_keeps (DiscoverSpecs.probe_paths env baseURL paths discovered).
Proof.
  intros G. revert discovered.
  induction paths as [|path rest IH]; intros discovered;
    cbn [DiscoverSpecs.probe_paths]; keeps_tac idtac.
Qed.

Lemma discover_probe_services_keeps (rows : list service_row)
  (discovered : list string) :
  (forall url, allowed (EvHttpGet url) = true) ->
  io_keeps (DiscoverSpecs.probe_services env rows discovered).
Proof.
  intros G. revert discovered.
  induction rows as [|row rest IH]; intros discovered;
    cbn [DiscoverSpecs.probe_services]; keeps_tac idtac.
  all: apply discover_probe_paths_keeps; exact G.
Qed.

Lemma store_specs_keeps (sessionId i : Z) (specs : list string) (result : string) :
  sql_allowed allowed InsertApiSpec ->
  (forall url, run_keeps rel (fun _ : Z => insert_spec sessionId url)) ->
  io_keeps (DiscoverSpecs.store_specs env sessionId i specs result).
Proof.
  intros S R. revert i result.
  induction specs as [|spec rest IH]; intros i result;
    cbn [DiscoverSpecs.store_specs]; keeps_tac idtac.
Qed.

Lemma auto_store_services_keeps (sessionId : Z) (svcs : list (string * Service)) :
  sql_allowed allowed InsertService ->
  (forall name image ports,
     run_keeps rel (fun _ : Z => insert_service_row sessionId name image ports)) ->
  io_keeps (TestApplication.store_services env sessionId svcs).
Proof.
  intros S R.
  induction svcs as [|[name service] rest IH];
    cbn [TestApplication.store_services]; keeps_tac idtac.
Qed.

Lemma setup_store_services_keeps (sessionId : Z) (svcs : list (string * Service))
  (servicesStored : Z) :
  sql_allowed allowed InsertService ->
  (forall name image ports,
     run_keeps rel (fun _ : Z => insert_service_row sessionId name image ports)) ->
  io_keeps (SetupEnvironment.store_services env sessionId svcs servicesStored).
Proof.
  intros S R. revert servicesStored.
  induction svcs as [|[name service] rest IH]; intros servicesStored;
    cbn [SetupEnvironment.store_services]; keeps_tac idtac.
Qed.

Lemma auto_probe_paths_keeps (sessionId : Z) (baseURL : string)
  (paths : list string) (st : Z * string) :
  (forall url, allowed (EvHttpGet url) = true) ->
  sql_allowed allowed InsertApiSpec ->
  (forall url, run_keeps rel (fun _ : Z => insert_spec sessionId url)) ->
  io_keeps (TestApplication.probe_paths env sessionId baseURL paths st).
Proof.
  intros G S R.
  induction paths as [|path rest IH];
    cbn [TestApplication.probe_paths]; keeps_tac idtac.
Qed.

Lemma auto_probe_services_keeps (sessionId : Z) (rows : list service_row)
  (st : Z * string) :
  (forall url, allowed (EvHttpGet url) = true) ->
  sql_allowed allowed InsertApiSpec ->
  (forall url, run_keeps rel (fun _ : Z => insert_spec sessionId url)) ->
  io_keeps (TestApplication.probe_services env sessionId rows st).
Proof.
  intros G S R. revert st.
  induction rows as [|row rest IH]; intros st;
    cbn [TestApplication.probe_services]; keeps_tac idtac.
  all: apply auto_probe_paths_keeps; assumption.
Qed.

Lemma analyze_rows_keeps (runId : string) (compareHistory : bool)
  (rows : list (string * float64 * float64))
  (analysis : list AnalyzeResults.line) :
  sql_allowed allowed SelectEndpointSLA ->
  sql_allowed allowed SelectHistory ->
  io_keeps (AnalyzeResults.analyze_rows env runId compareHistory rows analysis).
Proof.
  intros S1 S2. revert analysis.
  induction rows as [|row rest IH]; intros analysis;
    cbn [AnalyzeResults.analyze_rows]; keeps_tac idtac.
Qed.

End KeepsLoops.

Ltac keeps_loop :=
  lazymatch goal with
  | |- io_keeps _ _ (DiscoverSpecs.probe_services _ _ _) =>
      apply discover_probe_services_keeps; try eassumption
  | |- io_keeps _ _ (DiscoverSpecs.store_specs _ _ _ _ _) =>
      apply store_specs_keeps; try eassumption
  | |- io_keeps _ _ (TestApplication.store_services _ _ _) =>
      apply auto_store_services_keeps; try eassumption
  | |- io_keeps _ _ (SetupEnvironment.store_services _ _ _ _) =>
      apply setup_store_services_keeps; try eassumption
  | |- io_keeps _ _ (TestApplication.probe_services _ _ _ _) =>
      apply auto_probe_services_keeps; try eassumption
  | |- io_keeps _ _ (AnalyzeResults.analyze_rows _ _ _ _ _) =>
      apply analyze_rows_keeps; try eassumption
  end.

Ltac keeps_all side := repeat (first [ keeps_loop | keeps_step side ]).

Lemma extends_refl {R} (l : list R) : extends l l.
Proof. exists []. now rewrite List.app_nil_r. Qed.

Lemma extends_trans {R} (a b c : list R) :
  extends a b -> extends b c -> extends a c.
Proof.
  intros [t1 ->] [t2 ->]. exists (t1 ++ t2)%list. now rewrite app_assoc.
Qed.

Lemma extends_snoc {R} (l : list R) (x : R) : extends l (l ++ [x]).
Proof. now exists [x]. Qed.

Lemma grows_refl (d : DB) : grows d d.
Proof. unfold grows. repeat split; apply extends_refl. Qed.

Lemma grows_trans (a b c : DB) : grows a b -> grows b c -> grows a c.
Proof.
  unfold grows.
  intros (A1 & A2 & A3 & A4 & A5 & A6 & A7 & A8)
         (B1 & B2 & B3 & B4 & B5 & B6 & B7 & B8).
  repeat split; try (eapply extends_trans; eassumption). congruence.
Qed.

Lemma map_key_update {R K} (key : R -> K) (f : R -> R) (rows : list R) :
  (forall r, key (f r) = key r) -> map key (map f rows) = map key rows.
Proof. intros H. rewrite map_map. apply map_ext. exact H. Qed.

Ltac grows_tac :=
  intros; unfold run_keeps, grows; intros;
  cbn [fst insert_compose insert_compose_file insert_test_session insert_session
       insert_service_row insert_service insert_spec insert_api_spec
       insert_test_row insert_test insert_test_run set_test_runs
       update_test_run update_session set_test_sessions insert_metric
       compose_files test_sessions services api_specs endpoints tests
       test_runs metrics];
  repeat split;
  first [ apply extends_refl
        | apply extends_snoc
        | rewrite map_app; apply extends_snoc
        | rewrite map_key_update;
          [ apply extends_refl
          | intros r; match goal with |- context [if ?c then _ else _] => destruct c end;
            reflexivity ] ].

Section AppendOnlyProps.
Variable env : Env.
Variable lib : Lib.

(** X15.  Whatever the environment does and however the call ends, no
    tool deletes or rewrites what the store holds: every table keeps its
    rows as a prefix ([compose_files], [services], [api_specs], [tests],
    [metrics] row by row; [test_sessions] and [test_runs] in their id,
    reference and name or settings), and [endpoints], the table of the SLA
    thresholds, is never written. *)
Theorem store_only_grows (t : tool) (d : DB) :
  grows d (db (fst (call (tool_handler env lib t) d))).
Proof.
  pose proof grows_refl as Rr. pose proof grows_trans as Rt.
  apply (@keeps_call any_event grows Rr Rt).
  destruct t; cbn [tool_handler];
    unfold SetupEnvironment.Handle, DiscoverSpecs.Handle,
      GenerateAPITests.Handle, CreateUITest.Handle,
      RunPerformanceTest.Handle, AnalyzeResults.Handle,
      TestApplication.Handle, QuickPerformanceTest.Handle;
    keeps_all grows_tac.
Qed.

End AppendOnlyProps.

Lemma sessions_open_refl (d : DB) : sessions_open d d.
Proof. exists []. split; [now rewrite List.app_nil_r | constructor]. Qed.

Lemma sessions_open_trans (a b c : DB) :
  sessions_open a b -> sessions_open b c -> sessions_open a c.
Proof.
  intros (l1 & E1 & F1) (l2 & E2 & F2). exists (l1 ++ l2)%list.
  split; [now rewrite E2, E1, app_assoc | now apply Forall_app].
Qed.

Ltac db_fields :=
  cbn [fst insert_compose insert_compose_file insert_test_session insert_session
       insert_service_row insert_service insert_spec insert_api_spec
       insert_test_row insert_test insert_test_run set_test_runs
       update_test_run update_session set_test_sessions insert_metric
       compose_files test_sessions services api_specs endpoints tests
       test_runs metrics].

Ltac sessions_tac :=
  intros; unfold run_keeps, sessions_open; intros; db_fields;
  first [ exists []; split; [now rewrite List.app_nil_r | constructor]
        | eexists; split; [reflexivity|];
          repeat constructor; cbn; auto ].

Ltac unfold_handlers :=
  cbn [tool_handler];
  unfold SetupEnvironment.Handle, DiscoverSpecs.Handle,
    GenerateAPITests.Handle, CreateUITest.Handle,
    RunPerformanceTest.Handle, AnalyzeResults.Handle,
    TestApplication.Handle, QuickPerformanceTest.Handle.

Section ToolProps.
Variable env : Env.
Variable lib : Lib.

(** X16.  Only [run_performance_test] stores metric samples: every other
    tool, [test_application] and [quick_performance_test] included, leaves
    [metrics] as it was, in every environment. *)
Theorem only_run_test_stores_metrics (t : tool) (d : DB) :
  is_run_test t = false ->
  metrics (db (fst (call (tool_handler env lib t) d))) = metrics d.
Proof.
  intros N.
  assert (Rr : forall d, metrics_kept d d) by reflexivity.
  assert (Rt : forall a b c, metrics_kept a b -> metrics_kept b c -> metrics_kept a c)
    by (unfold metrics_kept; congruence).
  apply (@keeps_call any_event metrics_kept Rr Rt).
  destruct t; try discriminate N; unfold_handlers;
    keeps_all ltac:(intros; unfold run_keeps, metrics_kept; intros; reflexivity).
Qed.

(** X14.  [analyze_results] only reads: in every environment the store
    is unchanged and every event of the call is one of its three queries
    (no command, no file, no request). *)
Theorem analyze_results_reads_only (request : AnalyzeResults.Request) (d : DB) :
  let w := fst (call (AnalyzeResults.Handle env request) d) in
  db w = d /\ forallb analysis_query (trace w) = true.
Proof.
  cbv zeta.
  assert (Rr : forall d : DB, d = d) by reflexivity.
  assert (Rt : forall a b c : DB, a = b -> b = c -> a = c) by congruence.
  destruct (@keeps_call analysis_query eq Rr Rt _ (AnalyzeResults.Handle env request) d)
    as [E A]; [|split; [now rewrite <- E | exact A]].
  unfold AnalyzeResults.Handle. keeps_all idtac.
Qed.

(** X20.  [setup_test_environment], [generate_api_tests],
    [create_ui_test] and [analyze_results] start no process and create,
    write or remove no file or directory: every event of a call is an SQL
    statement or the reading of the compose source. *)
Theorem store_tools_run_nothing (t : tool) (d : DB) :
  store_tool t = true ->
  forallb statement_or_read (trace (fst (call (tool_handler env lib t) d))) = true.
Proof.
  intros S.
  assert (Rr : forall d, anything d d) by exact (fun _ => I).
  assert (Rt : forall a b c, anything a b -> anything b c -> anything a c)
    by exact (fun _ _ _ _ _ => I).
  apply (@keeps_call statement_or_read anything Rr Rt).
  destruct t; try discriminate S; unfold_handlers;
    keeps_all ltac:(intros; unfold run_keeps; intros; exact I).
Qed.

(** X17.  No tool but [test_application] completes a session: a call
    of any other tool issues no UPDATE of [test_sessions], leaves the rows
    of the table as they were, and the sessions it appends
    ([setup_test_environment], [quick_performance_test]) have no
    completion time and the status [initialized] or [running]. *)
Theorem sessions_stay_open (t : tool) (d : DB) :
  is_test_app t = false ->
  let w := fst (call (tool_handler env lib t) d) in
  (exists l, test_sessions (db w) = (test_sessions d ++ l)%list /\
             Forall open_session l) /\
  filter session_update (trace w) = [].
Proof.
  intros N. cbv zeta.
  pose proof sessions_open_refl as Rr. pose proof sessions_open_trans as Rt.
  destruct (@keeps_call not_session_update sessions_open Rr Rt _
              (tool_handler env lib t) d) as [E A].
  - destruct t; try discriminate N; unfold_handlers; keeps_all sessions_tac.
  - split; [exact E|].
    revert A. generalize (trace (fst (call (tool_handler env lib t) d))).
    intros tr. induction tr as [|e tr IH]; cbn; [reflexivity|].
    unfold not_session_update at 1. destruct (session_update e); cbn; [discriminate|].
    exact IH.
Qed.

End ToolProps.

(** ** Discovery *)

Section DiscoverAnswerProps.
Variable env : Env.

(** X18.  The answer of [discover_api_specs] once the runtime is up: the
    numbered list of the specs named in [specPaths] (split at commas,
    trimmed, taken as given) followed, when [autoDiscover] is the text
    [true], by the specs found on the services of the session, and the
    closing line [Containers have been stopped.], whether or not the
    tear-down or the INSERTs of the specs succeed.  The requests issued are
    the probes of auto-discovery; with auto-discovery off none is issued. *)
Theorem discover_answer (request : DiscoverSpecs.Request) (d : DB)
  (sessionId composeFileId : Z) (content : string) :
  let specPaths := GetString (DiscoverSpecs.specPaths request) "" in
  let auto := String.eqb (GetString (DiscoverSpecs.autoDiscover request) "true")
                         "true" in
  let dir := temp_dir env sessionId (now_unix env 0) in
  let file := filepath_Join dir "docker-compose.yml" in
  let rows := select_services sessionId d in
  sql_fails env 0 = None -> sql_fails env 1 = None ->
  select_latest_session d = Ok (sessionId, composeFileId) ->
  select_compose_content composeFileId d = Ok content ->
  mkdir_all env dir = None ->
  write_file env file content = None ->
  fst (exec_result env "docker"
         (compose_args file ("discover-" ++ itoa sessionId) ["up"; "-d"])) = None ->
  (auto = true -> sql_fails env 2 = None) ->
  let res := call (DiscoverSpecs.Handle env request) d in
  snd res = Returned (ToolText
    (listing (named_specs specPaths ++
              if auto then specs_of env rows else [])%list)) /\
  filter is_http_get (trace (fst res)) =
    (if auto then map EvHttpGet (flat_map (candidates) rows) else []).
Proof.
  intros specPaths auto dir file rows F0 F1 L C Mk Wr Up Q res.
  exact (@Handle_discovers env request d sessionId composeFileId content
           F0 F1 L C Mk Wr Up Q).
Qed.

End DiscoverAnswerProps.

Section PortsProps.
Variable env : Env.

(** X19.  From the declaration of a service to its probes: for a row
    whose [ports] column is the declared port mappings joined by commas (as
    [setup_test_environment] and [test_application] store it), the
    discovery loop issues no request when no mapping is declared or when
    the first mapping starts with a comma or is empty, and otherwise probes
    the eight conventional paths on [http://localhost:<text of the first
    mapping before its first colon>]; a mapping without a comma is taken
    whole. *)
Theorem declared_ports_decide_probes (ports : list string) (row : service_row)
  (discovered : list string) (w : World) :
  sv_ports row = Join ports "," ->
  trace (fst (DiscoverSpecs.probe_service env row discovered w)) =
    (trace w ++ probes_of_ports ports)%list /\
  (forall p rest, ports = p :: rest -> Contains p "," = false ->
     hd "" (Split p ",") = p).
Proof.
  intros E. split.
  - rewrite probe_service_spec. cbn [fst trace]. f_equal.
    unfold candidates, base_url, probes_of_ports. rewrite E.
    pose proof (Split_nonempty (Join ports ",") ",") as N.
    destruct ports as [|p rest].
    + reflexivity.
    + pose proof (hd_Split_Join p rest) as H.
      destruct (Split (Join (p :: rest) ",") ",") as [|first tl];
        [contradiction|].
      cbn [hd] in H. rewrite H. cbv zeta.
      destruct (String.eqb (hd "" (Split p ",")) ""); [reflexivity|].
      rewrite map_map. apply map_ext. intros path.
      now rewrite append_assoc.
  - intros p rest _. clear E. induction p as [|c p IH]; [reflexivity|].
    rewrite hd_Split_cons. cbn [Contains HasPrefix].
    replace (HasPrefix p "") with true by (destruct p; reflexivity).
    destruct (Ascii.eqb c ",") eqn:Ec; cbn [andb orb].
    + discriminate.
    + intros C. now rewrite IH.
Qed.

End PortsProps.

Lemma declared_ports_decide_probes_witness :
  trace (fst (DiscoverSpecs.probe_service Sample.env
                {| sv_id := 1; sv_session_id := 1; sv_name := "web";
                   sv_image := "nginx"; sv_ports := "127.0.0.1:8080:80,9090:90" |}
                [] (init_world empty_db))) =
  map (fun path => EvHttpGet ("http://localhost:127.0.0.1" ++ path))
      DiscoverSpecs.commonPaths.
Proof.
  exact (proj1 (@declared_ports_decide_probes Sample.env
                  ["127.0.0.1:8080:80"; "9090:90"]
                  {| sv_id := 1; sv_session_id := 1; sv_name := "web";
                     sv_image := "nginx";
                     sv_ports := "127.0.0.1:8080:80,9090:90" |}
                  [] (init_world empty_db) eq_refl)).
Defined.

Section RecordProps.
Variable env : Env.

(** X21.  [quick_performance_test] keeps no record of the test: in every
    environment [services], [api_specs], [endpoints], [tests], [test_runs]
    and [metrics] are unchanged (only a compose file and a session can be
    added). *)
Theorem quick_test_persists_no_results
  (request : QuickPerformanceTest.Request) (d : DB) :
  let d' := db (fst (call (QuickPerformanceTest.Handle env request) d)) in
  services d' = services d /\ api_specs d' = api_specs d /\
  endpoints d' = endpoints d /\ tests d' = tests d /\
  test_runs d' = test_runs d /\ metrics d' = metrics d.
Proof.
  cbv zeta.
  assert (Rr : forall d, only_session_added d d)
    by (intros; unfold only_session_added; repeat split).
  assert (Rt : forall a b c, only_session_added a b -> only_session_added b c ->
                             only_session_added a c).
  { unfold only_session_added.
    intros a b c (A1 & A2 & A3 & A4 & A5 & A6) (B1 & B2 & B3 & B4 & B5 & B6).
    repeat split; congruence. }
  apply (@keeps_call any_event only_session_added Rr Rt).
  unfold QuickPerformanceTest.Handle.
  keeps_all ltac:(intros; unfold run_keeps, only_session_added; intros;
                  repeat split).
Qed.

(** X22.  [test_application] never stores the output of the load tool:
    in every environment the [results] of the runs in the store are
    unchanged, the runs it adds have none, and [metrics] is unchanged. *)
Theorem test_app_keeps_no_results (request : TestApplication.Request) (d : DB) :
  let d' := db (fst (call (TestApplication.Handle env request) d)) in
  (exists l, map tr_results (test_runs d') =
             (map tr_results (test_runs d) ++ l)%list /\
             Forall (fun r => r = None) l) /\
  metrics d' = metrics d.
Proof.
  cbv zeta. split.
  - assert (Rr : forall d, results_kept d d).
    { intros. exists []. split; [now rewrite List.app_nil_r | constructor]. }
    assert (Rt : forall a b c, results_kept a b -> results_kept b c ->
                               results_kept a c).
    { intros a b c (l1 & E1 & F1) (l2 & E2 & F2). exists (l1 ++ l2)%list.
      split; [now rewrite E2, E1, app_assoc | now apply Forall_app]. }
    apply (@keeps_call any_event results_kept Rr Rt).
    unfold TestApplication.Handle.
    keeps_all ltac:(intros; unfold run_keeps, results_kept; intros; db_fields;
      first [ exists []; split; [now rewrite List.app_nil_r | constructor]
            | exists [None]; split;
              [rewrite map_app; reflexivity | repeat constructor]
            | exists []; split; [|constructor]; rewrite List.app_nil_r, map_map;
              apply map_ext; intros r;
              match goal with |- context [if ?c then _ else _] => destruct c end;
              reflexivity ]).
  - assert (Rr : forall d, metrics_kept d d) by reflexivity.
    assert (Rt : forall a b c, metrics_kept a b -> metrics_kept b c -> metrics_kept a c)
      by (unfold metrics_kept; congruence).
    apply (@keeps_call any_event metrics_kept Rr Rt).
    unfold TestApplication.Handle.
    keeps_all ltac:(intros; unfold run_keeps, metrics_kept; intros; reflexivity).
Qed.

End RecordProps.

(** ** Discovery inside [test_application] *)

Section AutoProbeProps.
Variable env : Env.

(** X23.  The probe loop of [test_application] stops at the first
    conventional path that answers 200: the requests issued for a service
    are the candidate URLs up to and including the first that answers 200
    (all of them when none does), at most one spec is counted and reported
    per service, and it is that first URL. *)
Theorem auto_probe_stops_at_first_spec (sessionId : Z) (baseURL : string)
  (paths : list string) (st : Z * string) (w : World) :
  let urls := map (fun path => baseURL ++ path) paths in
  let r := TestApplication.probe_paths env sessionId baseURL paths st w in
  filter is_http_get (trace (fst r)) =
    (filter is_http_get (trace w) ++
     map EvHttpGet (until_first (answers_200 env) urls))%list /\
  snd r = match find (answers_200 env) urls with
          | Some url =>
              ((fst st + 1)%Z, snd st ++ "- Found API spec: " ++ url ++ nl)
          | None => st
          end.
Proof.
  cbv zeta. revert w. induction paths as [|path rest IH]; intros w.
  - cbn. now rewrite List.app_nil_r.
  - cbn [TestApplication.probe_paths map until_first find].
    unfold io_bind. rewrite http_Get_eq.
    unfold answers_200 at 1 3.
    destruct (http_get env (baseURL ++ path)) as [err|status body].
    + destruct (IH (logged (EvHttpGet (baseURL ++ path)) w)) as [T R].
      rewrite T, R. split; [|reflexivity].
      cbn [logged trace]. rewrite filter_app. cbn [filter is_http_get].
      now rewrite <- app_assoc.
    + destruct (Z.eqb_spec status 200) as [->|N].
      * pose proof (sql_exec_no_get env InsertApiSpec
                      (fun _ : Z => insert_spec sessionId (baseURL ++ path))
                      (logged (EvHttpGet (baseURL ++ path)) w)) as G.
        destruct (sql_exec env InsertApiSpec _ _) as [w' x].
        cbn [fst snd io_ret] in *.
        rewrite G. cbn [logged trace]. rewrite filter_app.
        split; reflexivity.
      * assert (Rest :
          filter is_http_get
            (trace (fst (TestApplication.probe_paths env sessionId baseURL rest st
                           (logged (EvHttpGet (baseURL ++ path)) w)))) =
          (filter is_http_get (trace w) ++
           map EvHttpGet
             ((baseURL ++ path)%string
              :: until_first (answers_200 env)
                   (map (fun path0 => (baseURL ++ path0)%string) rest)))%list /\
          snd (TestApplication.probe_paths env sessionId baseURL rest st
                 (logged (EvHttpGet (baseURL ++ path)) w)) =
          match find (answers_200 env)
                     (map (fun path0 => baseURL ++ path0) rest) with
          | Some url =>
              ((fst st + 1)%Z, snd st ++ "- Found API spec: " ++ url ++ nl)
          | None => st
          end).
        { destruct (IH (logged (EvHttpGet (baseURL ++ path)) w)) as [T R].
          rewrite T, R. split; [|reflexivity].
          cbn [logged trace]. rewrite filter_app. cbn [filter is_http_get].
          now rewrite <- app_assoc. }
        destruct status as [|p|p]; try exact Rest.
        repeat (destruct p as [p|p|]; try exact Rest).
        exfalso. apply N. reflexivity.
Qed.

End AutoProbeProps.

(** ** The properties at the sample environment *)

Lemma setup_configures_session_witness :
  let request := {| SetupEnvironment.composePath := Some "./docker-compose.yml" |} in
  let res := call (SetupEnvironment.Handle Sample.env (yaml_error sample_lib)
                     (range_again sample_lib) request) empty_db in
  snd res = Returned (ToolText
    (setup_answer 1 "./docker-compose.yml" [("web", Sample.web)]
                  [("web", Sample.web)])) /\
  exists composeFileId,
    select_latest_session (db (fst res)) = Ok (1%Z, composeFileId).
Proof.
  cbv zeta.
  destruct (@setup_configures_session Sample.env (yaml_error sample_lib)
              (range_again sample_lib)
              {| SetupEnvironment.composePath := Some "./docker-compose.yml" |}
              empty_db "./docker-compose.yml" Sample.compose_yml
              eq_refl (fun _ => eq_refl) eq_refl eq_refl)
    as (composeFileId & added & A & _ & _ & L & _).
  split; [exact A | exists composeFileId; exact L].
Defined.

Lemma create_ui_test_stores_witness :
  let request := {| CreateUITest.url := Some "http://localhost:8080";
                    CreateUITest.instructions := Some "Click the button and wait";
                    CreateUITest.testName := None |} in
  let res := call (CreateUITest.Handle Sample.env ToLowerASCII request) Sample.db in
  snd res = Returned (ToolText
    (ui_answer "ui-test" 2 "Click the button and wait")) /\
  RunPerformanceTest.select_test "2" (db (fst res)) =
    Ok (Generator.generateK6UITest ToLowerASCII "http://localhost:8080"
          "Click the button and wait", 1%Z).
Proof.
  cbv zeta.
  destruct (@create_ui_test_stores Sample.env ToLowerASCII
              {| CreateUITest.url := Some "http://localhost:8080";
                 CreateUITest.instructions := Some "Click the button and wait";
                 CreateUITest.testName := None |}
              Sample.db "http://localhost:8080" "Click the button and wait" 1 1
              eq_refl eq_refl eq_refl eq_refl eq_refl)
    as (A & _ & C).
  split; [exact A | exact C].
Defined.

Lemma generate_api_tests_stores_witness :
  let request := {| GenerateAPITests.specId := Some "1";
                    GenerateAPITests.endpoints := None;
                    GenerateAPITests.testType := Some "stress" |} in
  let d := fst (insert_spec 1 "http://localhost:8080/openapi.json" Sample.db) in
  let res := call (GenerateAPITests.Handle Sample.env (Format sample_lib) request) d in
  snd res = Returned (ToolText
    (api_answer "stress" 2 (Generator.generateK6APITest "1" "" "stress"))) /\
  RunPerformanceTest.select_test "2" (db (fst res)) =
    Ok (Generator.generateK6APITest "1" "" "stress", 1%Z).
Proof.
  cbv zeta.
  destruct (@generate_api_tests_stores Sample.env (Format sample_lib)
              {| GenerateAPITests.specId := Some "1";
                 GenerateAPITests.endpoints := None;
                 GenerateAPITests.testType := Some "stress" |}
              (fst (insert_spec 1 "http://localhost:8080/openapi.json" Sample.db))
              "1" 1 eq_refl eq_refl eq_refl eq_refl)
    as (A & _ & C).
  split; [exact A | exact C].
Defined.

Lemma analyze_unknown_run_is_empty_witness :
  let request := {| AnalyzeResults.runId := Some "7";
                    AnalyzeResults.compareHistory := Some "true" |} in
  snd (call (AnalyzeResults.Handle Sample.env request)
            (Sample.analyzed_db (lit 600 0) (Some 500%Z) None)) =
  Returned (ToolText (empty_analysis "7")).
Proof.
  cbv zeta.
  refine (proj1 (@analyze_unknown_run_is_empty Sample.env
                   {| AnalyzeResults.runId := Some "7";
                      AnalyzeResults.compareHistory := Some "true" |}
                   "7" 7 (Sample.analyzed_db (lit 600 0) (Some 500%Z) None)
                   eq_refl eq_refl eq_refl _)).
  intros r [<- | []]. cbn. discriminate.
Defined.

Lemma only_run_test_stores_metrics_witness :
  metrics (db (fst (call (tool_handler Sample.env sample_lib (test_app auto_request))
                         empty_db))) = [].
Proof.
  exact (@only_run_test_stores_metrics Sample.env sample_lib
           (test_app auto_request) empty_db eq_refl).
Defined.

Lemma sessions_stay_open_witness :
  let request := {| QuickPerformanceTest.composeSource := Some "./docker-compose.yml";
                    QuickPerformanceTest.vus := None;
                    QuickPerformanceTest.duration := None |} in
  let w := fst (call (tool_handler Sample.env sample_lib (quick_test request))
                     Sample.db) in
  (exists l, test_sessions (db w) = (test_sessions Sample.db ++ l)%list /\
             Forall open_session l) /\
  filter session_update (trace w) = [].
Proof.
  cbv zeta.
  exact (@sessions_stay_open Sample.env sample_lib
           (quick_test {| QuickPerformanceTest.composeSource :=
                            Some "./docker-compose.yml";
                          QuickPerformanceTest.vus := None;
                          QuickPerformanceTest.duration := None |})
           Sample.db eq_refl).
Defined.

Lemma store_tools_run_nothing_witness :
  let request := {| SetupEnvironment.composePath :=
                      Some "https://example.com/docker-compose.yml" |} in
  forallb statement_or_read
    (trace (fst (call (tool_handler Sample.env sample_lib
                         (setup_test_environment request)) empty_db))) = true.
Proof.
  cbv zeta.
  exact (@store_tools_run_nothing Sample.env sample_lib
           (setup_test_environment
              {| SetupEnvironment.composePath :=
                   Some "https://example.com/docker-compose.yml" |})
           empty_db eq_refl).
Defined.

Lemma discover_answer_witness :
  let request := {| DiscoverSpecs.specPaths := Some "/docs/a.json, /docs/b.json";
                    DiscoverSpecs.autoDiscover := Some "false" |} in
  let res := call (DiscoverSpecs.Handle Sample.env request) Sample.db in
  snd res = Returned (ToolText (listing ["/docs/a.json"; "/docs/b.json"])) /\
  filter is_http_get (trace (fst res)) = [].
Proof.
  cbv zeta.
  exact (@discover_answer Sample.env
           {| DiscoverSpecs.specPaths := Some "/docs/a.json, /docs/b.json";
              DiscoverSpecs.autoDiscover := Some "false" |}
           Sample.db 1 1 Sample.compose_yml
           eq_refl eq_refl eq_refl eq_refl eq_refl eq_refl eq_refl
           (fun H => match Bool.diff_false_true H with end)).
Defined.

(** ** Session lookup *)

Section SessionLookupProps.
Variable env : Env.
Variable ToLower : string -> string.

(** X24.  A failed lookup of the most recent session is answered as a
    missing session: when the store rejects the statement, for whatever
    reason and whatever sessions it holds, or when it holds no session,
    [discover_api_specs] answers [No environment configured. Run
    setup_test_environment first.] and [create_ui_test] answers [No active
    session. Run setup_test_environment first.]; the driver's message is
    not part of the answer, the lookup is the only event of the call, and
    the store is unchanged. *)
Theorem session_lookup_failure_is_masked (d : DB)
  (discover : DiscoverSpecs.Request) (create : CreateUITest.Request)
  (url instructions : string) :
  sql_fails env 0 <> None \/ test_sessions d = [] ->
  CreateUITest.url create = Some url ->
  CreateUITest.instructions create = Some instructions ->
  let ok := match sql_fails env 0 with None => true | Some _ => false end in
  returned_with [EvSql SelectLatestSession ok]
    (ToolError "No environment configured. Run setup_test_environment first.")
    d (call (DiscoverSpecs.Handle env discover) d) /\
  returned_with [EvSql SelectLatestSession ok]
    (ToolError "No active session. Run setup_test_environment first.")
    d (call (CreateUITest.Handle env ToLower create) d).
Proof.
  intros H U I0. cbv zeta. split.
  - unfold call, DiscoverSpecs.Handle. cbv zeta.
    rewrite bind_lift. sql_row.
    + leaf. unfold returned_with. norm. repeat split.
    + destruct H as [H | H]; [congruence|].
      unfold select_latest_session. rewrite H. cbn [map last option_map one_row].
      leaf. unfold returned_with. norm. repeat split.
  - unfold call, CreateUITest.Handle. rewrite U, I0. cbv zeta.
    rewrite bind_lift. sql_row.
    + leaf. unfold returned_with. norm. repeat split.
    + destruct H as [H | H]; [congruence|].
      unfold CreateUITest.select_latest_session_id, select_latest_session.
      rewrite H. cbn [map last option_map one_row].
      leaf. unfold returned_with. norm. repeat split.
Qed.

End SessionLookupProps.

Lemma session_lookup_failure_is_masked_witness :
  let env := Sample.failing_statement 0 Sample.env in
  let create := {| CreateUITest.url := Some "http://localhost:8080";
                   CreateUITest.instructions := Some "click the button";
                   CreateUITest.testName := None |} in
  List.length (test_sessions Sample.db) = 1 /\
  snd (call (DiscoverSpecs.Handle env discover_request) Sample.db) =
    Returned (ToolError
      "No environment configured. Run setup_test_environment first.") /\
  snd (call (CreateUITest.Handle env ToLowerASCII create) Sample.db) =
    Returned (ToolError "No active session. Run setup_test_environment first.").
Proof.
  cbv zeta. split; [reflexivity|].
  assert (N : sql_fails (Sample.failing_statement 0 Sample.env) 0 <> None)
    by discriminate.
  destruct (@session_lookup_failure_is_masked
              (Sample.failing_statement 0 Sample.env) ToLowerASCII Sample.db
              discover_request
              {| CreateUITest.url := Some "http://localhost:8080";
                 CreateUITest.instructions := Some "click the button";
                 CreateUITest.testName := None |}
              "http://localhost:8080" "click the button"
              (or_introl N) eq_refl eq_refl)
    as ((A & _) & (B & _)).
  split; [exact A | exact B].
Defined.
